(** * The per-builder build dispatcher of Buildbot, and the event producer
      of its data layer

    A shallow embedding of [master/buildbot/process/builder.py] (classes
    [Builder] and [BuilderControl]) and of [master/buildbot/data/base.py]
    ([ResourceType], [BuildNestingMixin] and [ListResult]).

    The Python code talks to collaborators that live outside these two files:
    the build and request stores, the message queue, the status sink, the
    slave builders and the remote connection.  Every call to a collaborator is
    recorded in a trace of events, and what the collaborator answers (a value,
    or an exception / failed Deferred) is read from a [World].  A method of
    [Builder] is a function from the builder's attributes to an outcome, the
    new attributes and the trace of the calls it made.

    A method is run on its own: nothing else runs at its suspension points
    (the [yield]s of an inlineCallbacks generator), and a Deferred handed out
    by a collaborator has fired by the time callbacks are added to it.  The
    one exception is the Deferred of [build.startBuild], which fires when
    the build is over: a build that [_startBuildFor] starts is still running
    when [_startBuildFor] returns, and [buildFinished], the callback added
    to that Deferred, is a later call of its own.

    A collaborator fails in the way the source provides for.  A call made
    under [try] or at a [yield] fails by raising, or by a Deferred that
    fires with a Failure, which comes to the same.  The calls whose Deferred
    the source only gives an errback ([finishBuild], [completeBuildRequests],
    [unclaimBuildRequests], [reclaimBuildRequests] and the slave builder's
    [attached]) return their Deferred, and fail by that Deferred firing with
    a Failure; a raise before the Deferred is returned is not modelled. *)

From Stdlib Require Import ZArith String List Bool Lia DecimalString
  DecimalZ DecimalPos.
From stdpp Require Import base decidable option list gmap strings sorting.
Import ListNotations.

Local Open Scope string_scope.
Local Open Scope list_scope.

(** ** Python values and [str] *)

(** The values found in messages: integers, byte strings and [None]. *)
Inductive pyval : Type :=
| VInt (z : Z)
| VStr (s : string)
| VNone.

#[global] Instance pyval_eq_dec : EqDecision pyval.
Proof. solve_decision. Defined.

(** [str(v)]: decimal digits for an integer, with a minus sign when it is
    negative; a byte string is returned as it is. *)
Definition py_str (v : pyval) : string :=
  match v with
  | VInt z => NilZero.string_of_int (Z.to_int z)
  | VStr s => s
  | VNone => "None"
  end.

Definition str_nat (n : nat) : string := py_str (VInt (Z.of_nat n)).

(** A message is a dict from field names to values. *)
Abbreviation message := (gmap string pyval).

(** ** Outcomes, answers and the trace *)

(** How a call ends: it returns a value or raises. *)
Inductive outcome (A : Type) : Type :=
| Returned (a : A)
| Raised (exc : string).
Arguments Returned {A} a.
Arguments Raised {A} exc.

(** What a collaborator answers: a value, or a failure (an exception, or a
    Deferred that fires with a Failure; for a call whose Deferred the source
    only gives an errback, a Deferred that fires with a Failure). *)
Inductive answer (A : Type) : Type :=
| Ok (a : A)
| Failed.
Arguments Ok {A} a.
Arguments Failed {A}.

(** ** [buildbot/data/base.py] *)

Module base.

(** The one call [produceEvent] makes: [master.mq.produce(routingKey, msg)]. *)
Inductive mq_call : Type :=
| produce (routingKey : list string) (msg : message).

(** The class attributes of a [ResourceType] that [produceEvent] reads. *)
Record ResourceType : Type := {
  name : string;
  keyFields : list string
}.

(** [tuple(str(msg[k]) for k in self.keyFields)]: the fields are read in
    order; [msg[k]] raises KeyError on the first field the message lacks. *)
Fixpoint key_values (msg : message) (ks : list string) : option (list string) :=
  match ks with
  | [] => Some []
  | k :: ks' =>
      match msg !! k with
      | None => None
      | Some v =>
          match key_values msg ks' with
          | None => None
          | Some vs => Some (py_str v :: vs)
          end
      end
  end.

(** [routingKey = (self.name,) + tuple(...) + (event,)] *)
Definition routingKey (rt : ResourceType) (msg : message) (event : string)
  : option (list string) :=
  match key_values msg (keyFields rt) with
  | None => None
  | Some vs => Some ([name rt] ++ vs ++ [event])
  end.

(** [ResourceType.produceEvent(self, msg, event)]: the outcome and the calls
    made to the message queue. *)
Definition produceEvent (rt : ResourceType) (msg : message) (event : string)
  : outcome unit * list mq_call :=
  match routingKey rt msg event with
  | None => (Raised "KeyError", [])
  | Some key => (Returned tt, [produce key msg])
  end.

(** *** [getEndpoints] *)

(** An item of the list [endpoints]: a class, which is a subclass of
    [Endpoint] or not, or the instance made from a class. *)
Inductive endpoint_item : Type :=
| class_object (cls : nat) (subclass_of_Endpoint : bool)
| instance (cls : nat).

(** The loop [for i in xrange(len(endpoints))] over the copy of
    [self.endpoints], with the classes instantiated so far: the outcome and
    the classes instantiated ([ep(self, self.master)]), in order. *)
Fixpoint getEndpoints_loop (indices : list nat) (endpoints : list endpoint_item)
  : outcome (list endpoint_item) * list nat :=
  match indices with
  | [] => (Returned endpoints, [])
  | i :: indices' =>
      match endpoints !! i with
      | None => (Raised "IndexError", [])
      | Some (class_object cls true) =>
          match getEndpoints_loop indices' (<[i := instance cls]> endpoints) with
          | (o, t) => (o, cls :: t)
          end
      | Some _ => (Raised "TypeError", [])
      end
  end.

(** [endpoints = self.endpoints[:]] is a copy: the class attribute is not
    modified. *)
Definition getEndpoints (self_endpoints : list endpoint_item)
  : outcome (list endpoint_item) * list nat :=
  let endpoints := self_endpoints in
  getEndpoints_loop (seq 0 (length endpoints)) endpoints.

(** *** [ListResult] *)

(** A [UserList] with the three slots [offset], [total] and [limit], each an
    integer or [None]. *)
Record ListResult (A : Type) : Type := {
  data : list A;
  offset : option nat;
  total : option nat;
  limit : option nat
}.
Arguments data {A} _.
Arguments offset {A} _.
Arguments total {A} _.
Arguments limit {A} _.

(** [ListResult(values)]: the keyword arguments default to [None]. *)
Definition ListResult_of {A} (values : list A) : ListResult A :=
  {| data := values; offset := None; total := None; limit := None |}.

Section ListResult_eq.
Context {A : Type} `{EqDecision A}.

(** [self == other], for [other] a ListResult ([inl]) or a plain list
    ([inr]).  [self.offset == self.limit is None] is a chained comparison:
    [self.offset == self.limit and self.limit is None]. *)
Definition __eq__ (self : ListResult A) (other : ListResult A + list A) : bool :=
  match other with
  | inl other =>
      bool_decide (data self = data other)
      && bool_decide (offset self = offset other)
      && bool_decide (total self = total other)
      && bool_decide (limit self = limit other)
  | inr other =>
      bool_decide (data self = other)
      && (bool_decide (offset self = limit self)
          && bool_decide (limit self = None))
      && (bool_decide (total self = None)
          || bool_decide (total self = Some (length other)))
  end.

Definition __ne__ (self : ListResult A) (other : ListResult A + list A) : bool :=
  negb (__eq__ self other).

End ListResult_eq.

(** *** [BuildNestingMixin] *)

(** The queries of [getBuildid] and [getStepid] to the stores:
    [master.db.builds.getBuildByNumber(builderid=, number=)] and
    [master.db.steps.getStepByBuild(buildid=, number=, name=)]. *)
Inductive db_call : Type :=
| getBuildByNumber (builderid number : pyval)
| getStepByBuild (buildid number name : pyval).

(** What the stores answer: a dict, or [None]. *)
Record db : Type := {
  on_getBuildByNumber : pyval -> pyval -> option message;
  on_getStepByBuild : pyval -> pyval -> pyval -> option message
}.

(** [not d], for [d] a dict or [None] *)
Definition falsy (d : option message) : bool :=
  match d with
  | None => true
  | Some m => bool_decide (m = ∅)
  end.

(** [kwargs.get(k)] *)
Definition kwargs_get (kwargs : message) (k : string) : pyval :=
  match kwargs !! k with
  | Some v => v
  | None => VNone
  end.

(** A bare [return] gives [None]; [kwargs[k]] raises KeyError when [k] is
    missing, and so does [build['id']]. *)
Definition getBuildid (d : db) (kwargs : message) : outcome pyval * list db_call :=
  match kwargs !! "buildid" with
  | Some buildid => (Returned buildid, [])
  | None =>
      match kwargs !! "builderid" with
      | None => (Raised "KeyError", [])
      | Some builderid =>
          match kwargs !! "build_number" with
          | None => (Raised "KeyError", [])
          | Some number =>
              let build := on_getBuildByNumber d builderid number in
              let t := [getBuildByNumber builderid number] in
              if falsy build then (Returned VNone, t)
              else
                match build with
                | None => (Returned VNone, t)
                | Some b =>
                    match b !! "id" with
                    | None => (Raised "KeyError", t)
                    | Some i => (Returned i, t)
                    end
                end
          end
      end
  end.

Definition getStepid (d : db) (kwargs : message) : outcome pyval * list db_call :=
  match kwargs !! "stepid" with
  | Some stepid => (Returned stepid, [])
  | None =>
      match getBuildid d kwargs with
      | (Raised e, t) => (Raised e, t)
      | (Returned buildid, t) =>
          if bool_decide (buildid = VNone) then (Returned VNone, t)
          else
            let number := kwargs_get kwargs "step_number" in
            let name0 := kwargs_get kwargs "step_name" in
            let dbdict := on_getStepByBuild d buildid number name0 in
            let t' := t ++ [getStepByBuild buildid number name0] in
            if falsy dbdict then (Returned VNone, t')
            else
              match dbdict with
              | None => (Returned VNone, t')
              | Some s =>
                  match s !! "id" with
                  | None => (Raised "KeyError", t')
                  | Some i => (Returned i, t')
                  end
              end
      end
  end.

End base.

(** ** [buildbot/process/builder.py] *)

Module builder.

(** *** Objects *)

(** Python compares slaves, slave builders and builds by identity; each
    carries the identity of its object. *)
Record BuildSlave : Type := {
  slave_oid : nat;
  slavename : string;
  buildslaveid : nat
}.

(** A [SlaveBuilder] held by the builder refers to its slave:
    [slavebuilder.LatentSlaveBuilder(slave, self)] and
    [sb.attached(slave, commands)] set [sb.slave]. *)
Record SlaveBuilder : Type := {
  sb_oid : nat;
  slave : BuildSlave
}.

Record BuildRequest : Type := {
  br_id : nat;
  br_bsid : nat;
  br_buildername : string
}.

Record Build : Type := {
  build_oid : nat;
  requests : list BuildRequest
}.

#[global] Instance BuildSlave_eq_dec : EqDecision BuildSlave.
Proof. solve_decision. Defined.
#[global] Instance SlaveBuilder_eq_dec : EqDecision SlaveBuilder.
Proof. solve_decision. Defined.
#[global] Instance BuildRequest_eq_dec : EqDecision BuildRequest.
Proof. solve_decision. Defined.
#[global] Instance Build_eq_dec : EqDecision Build.
Proof. solve_decision. Defined.

(** [a == b] on objects without [__eq__] *)
Definition slave_is (a b : BuildSlave) : bool :=
  bool_decide (slave_oid a = slave_oid b).
Definition sb_is (a b : SlaveBuilder) : bool :=
  bool_decide (sb_oid a = sb_oid b).
Definition build_is (a b : Build) : bool :=
  bool_decide (build_oid a = build_oid b).

(** The attributes of a builder's configuration that the builder reads. *)
Record BuilderConfig : Type := {
  cfg_name : string;
  builddir : string;
  category : string;
  description : string;
  slavenames : list string;
  locks : list string;
  env : list (string * string)
}.

(** The master configuration handed to [reconfigService]:
    [new_config.builders] and [new_config.caches['Builds']]. *)
Record MasterConfig : Type := {
  builders : list BuilderConfig;
  caches_Builds : nat
}.

(** The attributes of a [Builder].  [builder_status] is [None] until the
    first reconfig; [old_building], a WeakKeyDictionary, is kept as the list
    of its keys. *)
Record Builder : Type := {
  name : string;
  _builderid : option nat;
  building : list Build;
  old_building : list Build;
  attaching_slaves : list SlaveBuilder;
  slaves : list SlaveBuilder;
  config : option BuilderConfig;
  builder_status : option string;
  running : bool
}.

Definition set__builderid (v : option nat) (b : Builder) : Builder :=
  {| name := name b; _builderid := v; building := building b;
     old_building := old_building b; attaching_slaves := attaching_slaves b;
     slaves := slaves b; config := config b;
     builder_status := builder_status b; running := running b |}.
Definition set_building (v : list Build) (b : Builder) : Builder :=
  {| name := name b; _builderid := _builderid b; building := v;
     old_building := old_building b; attaching_slaves := attaching_slaves b;
     slaves := slaves b; config := config b;
     builder_status := builder_status b; running := running b |}.
Definition set_attaching_slaves (v : list SlaveBuilder) (b : Builder) : Builder :=
  {| name := name b; _builderid := _builderid b; building := building b;
     old_building := old_building b; attaching_slaves := v;
     slaves := slaves b; config := config b;
     builder_status := builder_status b; running := running b |}.
Definition set_slaves (v : list SlaveBuilder) (b : Builder) : Builder :=
  {| name := name b; _builderid := _builderid b; building := building b;
     old_building := old_building b; attaching_slaves := attaching_slaves b;
     slaves := v; config := config b;
     builder_status := builder_status b; running := running b |}.
Definition set_config (v : option BuilderConfig) (b : Builder) : Builder :=
  {| name := name b; _builderid := _builderid b; building := building b;
     old_building := old_building b; attaching_slaves := attaching_slaves b;
     slaves := slaves b; config := v;
     builder_status := builder_status b; running := running b |}.
Definition set_builder_status (v : option string) (b : Builder) : Builder :=
  {| name := name b; _builderid := _builderid b; building := building b;
     old_building := old_building b; attaching_slaves := attaching_slaves b;
     slaves := slaves b; config := config b;
     builder_status := v; running := running b |}.

(** *** The cleanup stack of [_startBuildFor]

    The closures pushed on [cleanups], by what they call. *)
Inductive cleanup : Type :=
| undo_updateBigStatus
| undo_releaseLocks (s : BuildSlave)
| undo_building_remove (b : Build)
| undo_buildFinished (sb : SlaveBuilder).

#[global] Instance cleanup_eq_dec : EqDecision cleanup.
Proof. solve_decision. Defined.

(** *** Calls to the collaborators *)

Inductive event : Type :=
(* twisted.python.log *)
| log_msg (text : string)
| log_err (text : string)
(* master.data.updates *)
| data_findBuilderId (name : string)
| data_maybeBuildsetComplete (bsid : nat)
(* master.status and self.builder_status *)
| status_builderAdded (name builddir category description : string)
| status_setDescription (description : string)
| status_setCategory (category : string)
| status_setSlavenames (names : list string)
| status_setCacheSize (size : nat)
| status_setBigState (state : string)
| status_addPointEvent (text : list string)
| status_newBuild
| status_build_started (brid : nat) (buildername : string)
(* the local list [cleanups]: [cleanups.append(fn)], and
   [fn = cleanups.pop(); fn()] *)
| cleanups_append (fn : cleanup)
| cleanups_pop (fn : cleanup)
(* self.config.factory and the Build it makes *)
| factory_newBuild (requests : list BuildRequest)
| build_setBuilder (b : Build)
| build_setLocks (locks : list string)
| build_setSlaveEnvironment (env : list (string * string))
| build_startBuild (b : Build) (sb : SlaveBuilder)
(* the slave builder, its slave and the connection *)
| sb_attached (sb : SlaveBuilder)
| sb_detached (sb : SlaveBuilder)
| sb_prepare (sb : SlaveBuilder) (b : Build)
| sb_ping (sb : SlaveBuilder)
| sb_buildStarted (sb : SlaveBuilder)
| sb_buildFinished (sb : SlaveBuilder)
| slave_releaseLocks (s : BuildSlave)
| conn_remoteStartBuild (s : BuildSlave) (buildername : string)
(* master.db.builds and master.db.buildrequests *)
| db_addBuild (builderid buildrequestid buildslaveid masterid : nat)
    (state_strings : list string) (row : answer (nat * nat))
| db_finishBuild (bid : nat) (results : Z)
| db_completeBuildRequests (brids : list nat) (results : Z) (complete_at : Z)
| db_unclaimBuildRequests (brids : list nat)
| db_reclaimBuildRequests (brids : gset nat)
(* master.mq *)
| mq_produce (routingKey : list string) (msg : message).

#[global] Instance answer_eq_dec {A} `{EqDecision A} : EqDecision (answer A).
Proof. solve_decision. Defined.
#[global] Instance event_eq_dec : EqDecision event.
Proof. solve_decision. Defined.

(** What the collaborators answer during one run of a method.  A call that
    the source guards with [try], or whose Deferred it gives an errback, may
    fail; so may the build factory, which the configuration supplies.  The
    other calls return. *)
Record World : Type := {
  (* self.master.masterid *)
  masterid : nat;
  (* reactor.seconds() *)
  seconds : Z;
  (* master.data.updates.findBuilderId(name) *)
  on_findBuilderId : string -> answer nat;
  (* builder_status.setBigState(state) *)
  on_setBigState : string -> answer unit;
  (* config.factory.newBuild(buildrequests): the identity of the new Build *)
  on_newBuild : answer nat;
  (* slavebuilder.prepare(builder_status, build) *)
  on_prepare : answer bool;
  (* slavebuilder.ping() *)
  on_ping : answer bool;
  (* slavebuilder.slave.conn.remoteStartBuild(name); fails also when conn
     is None *)
  on_remoteStartBuild : answer unit;
  (* master.db.builds.addBuild(...): the build id and the number *)
  on_addBuild : answer (nat * nat);
  (* whether slavebuilder.slave.conn is still there once the row is written *)
  conn_at_handoff : bool;
  (* slave.releaseLocks() *)
  on_releaseLocks : answer unit;
  (* slavebuilder.buildFinished() *)
  on_buildFinished : answer unit;
  (* slavebuilder.SlaveBuilder(): the identity of the new object *)
  new_slavebuilder : nat;
  (* the Deferred of sb.attached(slave, commands) *)
  on_attached : answer unit;
  (* the Deferred of master.db.builds.finishBuild(bid, results) *)
  on_finishBuild : answer unit;
  (* the Deferred of master.db.buildrequests.completeBuildRequests(...) *)
  on_completeBuildRequests : answer unit;
  (* the Deferred of master.db.buildrequests.unclaimBuildRequests(brids) *)
  on_unclaimBuildRequests : answer unit;
  (* the Deferred of master.db.buildrequests.reclaimBuildRequests(brids) *)
  on_reclaimBuildRequests : answer unit;
  (* master.data.updates.maybeBuildsetComplete(bsid) *)
  on_maybeBuildsetComplete : nat -> answer unit;
  (* master.mq.produce(routingKey, msg), by routing key *)
  on_produce : list string -> answer unit
}.

(** *** The monad of a method: attributes in, outcome, attributes and
    trace out *)

Definition M (A : Type) : Type := Builder -> outcome A * Builder * list event.

Definition ret {A} (a : A) : M A := fun self => (Returned a, self, []).

Definition bind {A B} (m : M A) (k : A -> M B) : M B := fun self =>
  match m self with
  | (Returned a, self1, t1) =>
      match k a self1 with
      | (o, self2, t2) => (o, self2, t1 ++ t2)
      end
  | (Raised e, self1, t1) => (Raised e, self1, t1)
  end.

Definition raise {A} (e : string) : M A := fun self => (Raised e, self, []).

Definition call (e : event) : M unit := fun self => (Returned tt, self, [e]).

Definition attr {A} (f : Builder -> A) : M A := fun self => (Returned (f self), self, []).

Definition assign (f : Builder -> Builder) : M unit := fun self => (Returned tt, f self, []).

(** [try: m except: h] *)
Definition try_except {A} (m : M A) (h : string -> M A) : M A := fun self =>
  match m self with
  | (Returned a, self1, t1) => (Returned a, self1, t1)
  | (Raised e, self1, t1) =>
      match h e self1 with
      | (o, self2, t2) => (o, self2, t1 ++ t2)
      end
  end.

(** The answer of a collaborator, as the value returned or an exception. *)
Definition expect {A} (a : answer A) (exc : string) : M A :=
  match a with
  | Ok v => ret v
  | Failed => raise exc
  end.

#[global] Instance M_ret : MRet M := @ret.
#[global] Instance M_bind : MBind M := fun A B k m => bind m k.

(** [l.remove(x)]: drops the first item that is [x]; ValueError ([None])
    when there is none. *)
Fixpoint list_remove {A} (same : A -> A -> bool) (x : A) (l : list A)
  : option (list A) :=
  match l with
  | [] => None
  | y :: l' =>
      if same y x then Some l'
      else match list_remove same x l' with
           | None => None
           | Some r => Some (y :: r)
           end
  end.

(** *** [getBuilderId] *)

(** [if self._builderid:] holds for a cached id other than 0. *)
Definition getBuilderId (w : World) : M nat :=
  cached ← attr _builderid;
  match cached with
  | Some (S n) => ret (S n)
  | _ =>
      nm ← attr name;
      call (data_findBuilderId nm);;
      builderid ← expect (on_findBuilderId w nm) "findBuilderId";
      assign (set__builderid (Some builderid));;
      ret builderid
  end.

(** *** [updateBigStatus] *)

Definition setBigState (w : World) (state : string) : M unit :=
  call (status_setBigState state);;
  expect (on_setBigState w state) "setBigState".

Definition updateBigStatus (w : World) : M unit :=
  try_except
    (status ← attr builder_status;
     match status with
     | None => ret tt
     | Some _ =>
         sl ← attr slaves;
         bl ← attr building;
         ob ← attr old_building;
         match sl with
         | [] => setBigState w "offline"
         | _ :: _ =>
             match bl, ob with
             | [], [] => setBigState w "idle"
             | _, _ => setBigState w "building"
             end
         end
     end)
    (fun _ => call (log_err "while trying to update status of builder")).

(** *** [_startBuildFor] and [maybeStartBuild] *)

(** [cleanups.append(fn)] *)
Definition append (cleanups : list cleanup) (fn : cleanup) : M (list cleanup) :=
  call (cleanups_append fn);;
  ret (cleanups ++ [fn]).

(** The body of a cleanup closure. *)
Definition run_cleanup (w : World) (fn : cleanup) : M unit :=
  match fn with
  | undo_updateBigStatus => updateBigStatus w
  | undo_releaseLocks s =>
      call (slave_releaseLocks s);;
      expect (on_releaseLocks w) "releaseLocks"
  | undo_building_remove b =>
      bl ← attr building;
      match list_remove build_is b bl with
      | None => raise "ValueError"
      | Some bl' => assign (set_building bl')
      end
  | undo_buildFinished sb =>
      call (sb_buildFinished sb);;
      expect (on_buildFinished w) "buildFinished"
  end.

(** [while cleanups: fn = cleanups.pop(); fn()], on the stack read from its
    top (the end of the Python list). *)
Fixpoint pop_all (w : World) (top_first : list cleanup) : M unit :=
  match top_first with
  | [] => ret tt
  | fn :: below =>
      call (cleanups_pop fn);;
      run_cleanup w fn;;
      pop_all w below
  end.

(** The local function [run_cleanups]: one [try] around the whole loop. *)
Definition run_cleanups (w : World) (cleanups : list cleanup) : M unit :=
  try_except (pop_all w (rev cleanups))
    (fun _ => call (log_err "while running run_cleanups")).

(** Modelled from the spec: the build factory and the [Build] class are not
    in these files.  The spec has the Build constructed from the configured
    factory with the request list, and an in-flight build hold [requests[]]:
    the new Build is a new object that holds the requests it was made from. *)
Definition newBuild (oid : nat) (buildrequests : list BuildRequest) : Build :=
  {| build_oid := oid; requests := buildrequests |}.

(** The slave builder handed in is attached: [slavebuilder.slave] is a
    slave, not [None].  [build.startBuild] hands out the Deferred of the
    whole build, to which [buildFinished] is added as a callback; the build
    is still running when the method returns. *)
Definition _startBuildFor (w : World) (slavebuilder : SlaveBuilder)
    (buildrequests : list BuildRequest) : M bool :=
  let buildslaveid := buildslaveid (slave slavebuilder) in
  builderid ← getBuilderId w;
  let cleanups := [] in
  cleanups ← append cleanups undo_updateBigStatus;
  builderid ← getBuilderId w;
  cfg ← attr config;
  match cfg with
  | None => raise "AttributeError"
  | Some cfg =>
  call (factory_newBuild buildrequests);;
  oid ← expect (on_newBuild w) "newBuild";
  let build := newBuild oid buildrequests in
  call (build_setBuilder build);;
  call (log_msg "starting build using slave");;
  call (build_setLocks (locks cfg));;
  cleanups ← append cleanups (undo_releaseLocks (slave slavebuilder));
  (if bool_decide (0 < length (env cfg))
   then call (build_setSlaveEnvironment (env cfg)) else ret tt);;
  bl ← attr building;
  assign (set_building (bl ++ [build]));;
  cleanups ← append cleanups (undo_building_remove build);
  updateBigStatus w;;
  ready ← try_except
    (call (sb_prepare slavebuilder build);;
     expect (on_prepare w) "prepare")
    (fun _ => call (log_err "while preparing slavebuilder:");; ret false);
  if negb ready then
    call (log_msg "slave can't build after all; re-queueing the request");;
    run_cleanups w cleanups;;
    ret false
  else
  call (log_msg "starting build.. pinging the slave");;
  ping_success ← try_except
    (call (sb_ping slavebuilder);;
     expect (on_ping w) "ping")
    (fun _ => call (log_err "while pinging slave before build:");; ret false);
  if negb ping_success then
    call (log_msg "slave ping failed; re-queueing the request");;
    run_cleanups w cleanups;;
    ret false
  else
  call (sb_buildStarted slavebuilder);;
  cleanups ← append cleanups (undo_buildFinished slavebuilder);
  nm ← attr name;
  told ← try_except
    (call (conn_remoteStartBuild (slave slavebuilder) nm);;
     expect (on_remoteStartBuild w) "remoteStartBuild";;
     ret true)
    (fun _ =>
       call (log_err "while calling remote startBuild:");;
       run_cleanups w cleanups;;
       ret false);
  if negb told then ret false else
  status ← attr builder_status;
  match status with
  | None => raise "AttributeError"
  | Some _ =>
  call status_newBuild;;
  recorded ← try_except
    (match last (requests build) with
     | None => raise "IndexError"
     | Some req =>
         call (db_addBuild builderid (br_id req) buildslaveid (masterid w)
                 ["created"] (on_addBuild w));;
         row ← expect (on_addBuild w) "addBuild";
         ret (Some (req, [fst row]))
     end)
    (fun _ =>
       call (log_err "while adding rows to build table:");;
       run_cleanups w cleanups;;
       ret None);
  match recorded with
  | None => ret false
  | Some (req, bids) =>
  if negb (conn_at_handoff w) then
    call (log_msg "slave disappeared before build could start");;
    run_cleanups w cleanups;;
    ret false
  else
  call (status_build_started (br_id req) nm);;
  call (build_startBuild build slavebuilder);;
  updateBigStatus w;;
  ret true
  end
  end
  end.

Definition maybeStartBuild (w : World) (slavebuilder : SlaveBuilder)
    (breqs : list BuildRequest) : M bool :=
  r ← attr running;
  if negb r then ret false
  else
    build_started ← _startBuildFor w slavebuilder breqs;
    ret build_started.

(** *** [reclaimAllBuilds] *)

(** [brids.update([br.id for br in b.requests])] *)
Definition update_brids (brids : gset nat) (b : Build) : gset nat :=
  brids ∪ list_to_set (map br_id (requests b)).

(** [d.addErrback(log.err, ...)]: when the Deferred of
    [reclaimBuildRequests] fires with a Failure, the failure is logged. *)
Definition reclaimAllBuilds (w : World) : M unit :=
  bl ← attr building;
  ob ← attr old_building;
  let brids := foldl update_brids (foldl update_brids ∅ bl) ob in
  if bool_decide (brids = ∅) then ret tt
  else
    call (db_reclaimBuildRequests brids);;
    match on_reclaimBuildRequests w with
    | Ok _ => ret tt
    | Failed => call (log_err "while re-claiming running BuildRequests")
    end.

(** *** [reconfigService] *)

(** The loop over [new_config.builders]: the first entry with this builder's
    name. *)
Definition find_config (nm : string) (bs : list BuilderConfig)
  : option BuilderConfig :=
  List.find (fun builder_config => bool_decide (cfg_name builder_config = nm)) bs.

(** When no entry has the builder's name, [found_config] is unbound at the
    [assert], and the method raises there. *)
Definition reconfigService (w : World) (new_config : MasterConfig) : M unit :=
  nm ← attr name;
  match find_config nm (builders new_config) with
  | None => raise "NameError"
  | Some builder_config =>
      status ← attr builder_status;
      match status with
      | None =>
          call (status_builderAdded (cfg_name builder_config)
                  (builddir builder_config) (category builder_config)
                  (description builder_config));;
          assign (set_builder_status (Some (cfg_name builder_config)))
      | Some _ => ret tt
      end;;
      assign (set_config (Some builder_config));;
      getBuilderId w;;
      call (status_setDescription (description builder_config));;
      call (status_setCategory (category builder_config));;
      call (status_setSlavenames (slavenames builder_config));;
      call (status_setCacheSize (caches_Builds new_config));;
      let new_slavenames := slavenames builder_config in
      sl ← attr slaves;
      assign (set_slaves
                (filter (fun s => slavename (slave s) ∈ new_slavenames) sl))
  end.

(** *** [attached] and [detached] *)

(** [self.builder_status.addPointEvent(text)] *)
Definition addPointEvent (text : list string) : M unit :=
  status ← attr builder_status;
  match status with
  | None => raise "AttributeError"
  | Some _ => call (status_addPointEvent text)
  end.

(** What the Deferred returned by [attached] fires with. *)
Inductive attach_result : Type :=
| fired_self
| fired_None.

Definition _attached (w : World) (sb : SlaveBuilder) : M attach_result :=
  addPointEvent ["connect"; slavename (slave sb)];;
  att ← attr attaching_slaves;
  match list_remove sb_is sb att with
  | None => raise "ValueError"
  | Some att' =>
      assign (set_attaching_slaves att');;
      sl ← attr slaves;
      assign (set_slaves (sl ++ [sb]));;
      updateBigStatus w;;
      ret fired_self
  end.

Definition _not_attached (slave0 : BuildSlave) : M attach_result :=
  call (log_err "slave failed to attach");;
  addPointEvent ["failed"; "connect"; slavename slave0];;
  ret fired_None.

(** [for s in self.attaching_slaves + self.slaves: if s.slave == slave] *)
Definition slot_of (slave0 : BuildSlave) (slots : list SlaveBuilder)
  : option SlaveBuilder :=
  List.find (fun s => slave_is (slave s) slave0) slots.

(** [d = sb.attached(slave, commands)] is a Deferred, and [on_attached] is
    how it fires: with a Failure, the errback [_not_attached] runs.  The
    errback, added after the callback, also receives a failure of
    [_attached]. *)
Definition attached (w : World) (slave0 : BuildSlave) : M attach_result :=
  att ← attr attaching_slaves;
  sl ← attr slaves;
  match slot_of slave0 (att ++ sl) with
  | Some _ => ret fired_self
  | None =>
      let sb := {| sb_oid := new_slavebuilder w; slave := slave0 |} in
      assign (set_attaching_slaves (att ++ [sb]));;
      call (sb_attached sb);;
      try_except
        (expect (on_attached w) "attach";;
         _attached w sb)
        (fun _ => _not_attached slave0)
  end.

(** [if sb in l: l.remove(sb)] is [l.remove(sb)] where it does not raise. *)
Definition detached (w : World) (slave0 : BuildSlave) : M unit :=
  att ← attr attaching_slaves;
  sl ← attr slaves;
  match slot_of slave0 (att ++ sl) with
  | None =>
      call (log_msg "WEIRD: Builder.detached not in attaching_slaves or slaves")
  | Some sb =>
      match list_remove sb_is sb att with
      | Some att' => assign (set_attaching_slaves att')
      | None => ret tt
      end;;
      match list_remove sb_is sb sl with
      | Some sl' => assign (set_slaves sl')
      | None => ret tt
      end;;
      addPointEvent ["disconnect"; slavename slave0];;
      call (sb_detached sb);;
      updateBigStatus w
  end.

(** *** [buildFinished] *)

(** The body of a [complete] message. *)
Definition complete_msg (br : BuildRequest) (builderid : nat) (results : Z)
    (complete_at_epoch : Z) : message :=
  <["brid" := VInt (Z.of_nat (br_id br))]>
  (<["bsid" := VInt (Z.of_nat (br_bsid br))]>
  (<["buildername" := VStr (br_buildername br)]>
  (<["builderid" := VInt (Z.of_nat builderid)]>
  (<["complete_at" := VInt complete_at_epoch]>
  (<["results" := VInt results]> ∅))))).

Definition complete_key (br : BuildRequest) (builderid : nat) : list string :=
  ["buildrequest"; str_nat (br_bsid br); str_nat builderid;
   str_nat (br_id br); "complete"].

(** The first loop of [_notify_completions]: a message for each request.
    A [produce] that raises ends the loop. *)
Fixpoint send_messages (w : World) (builderid : nat) (results : Z)
    (complete_at_epoch : Z)
    (requests : list BuildRequest) : M unit :=
  match requests with
  | [] => ret tt
  | br :: rest =>
      call (mq_produce (complete_key br builderid)
              (complete_msg br builderid results complete_at_epoch));;
      expect (on_produce w (complete_key br builderid)) "produce";;
      send_messages w builderid results complete_at_epoch rest
  end.

(** The second loop: one call for each request with a bsid not seen yet. *)
Fixpoint check_buildsets (w : World) (seen_bsids : gset nat)
    (requests : list BuildRequest) : M unit :=
  match requests with
  | [] => ret tt
  | br :: rest =>
      if bool_decide (br_bsid br ∈ seen_bsids) then
        check_buildsets w seen_bsids rest
      else
        call (data_maybeBuildsetComplete (br_bsid br));;
        expect (on_maybeBuildsetComplete w (br_bsid br)) "maybeBuildsetComplete";;
        check_buildsets w ({[br_bsid br]} ∪ seen_bsids) rest
  end.

Definition _notify_completions (w : World) (requests : list BuildRequest)
    (results : Z) (complete_at_epoch : Z) : M unit :=
  builderid ← getBuilderId w;
  send_messages w builderid results complete_at_epoch requests;;
  check_buildsets w ∅ requests.

(** [self._msg_buildrequests_unclaimed]: [Builder] and its base classes
    define no such method (the source says so: "XXX method does not exist");
    looking the attribute up raises. *)
Definition _msg_buildrequests_unclaimed (requests : list BuildRequest) : M unit :=
  raise "AttributeError".

(** The Deferred of [unclaimBuildRequests] with the callback [notify]
    added: a Failure of the one or an exception of the other is what the
    Deferred returned fires with. *)
Definition _resubmit_buildreqs (w : World) (build : Build) : M unit :=
  let brids := map br_id (requests build) in
  call (db_unclaimBuildRequests brids);;
  expect (on_unclaimBuildRequests w) "unclaimBuildRequests";;
  _msg_buildrequests_unclaimed (requests build).

Section completion.

(** [buildbot.status.builder.RETRY], a constant defined outside these
    files. *)
Variable RETRY : Z.

(** [results] is [build.build_status.getResults()], and [sb_slave] is
    [sb.slave], which is [None] once the slave builder is detached.  The
    datetime [complete_at] is kept as its epoch.  The Deferreds of
    [finishBuild], of [_resubmit_buildreqs] and of [completeBuildRequests]
    (with [_notify_completions] as its callback) each get an errback that
    logs: when one fires with a Failure, the failure is logged and the
    method goes on. *)
Definition buildFinished (w : World) (build : Build) (results : Z)
    (sb_slave : option BuildSlave) (bids : list nat) : M unit :=
  match bids with
  | [] => raise "IndexError"
  | bid :: _ =>
  call (db_finishBuild bid results);;
  match on_finishBuild w with
  | Ok _ => ret tt
  | Failed => call (log_err "while marking builds as finished (ignored)")
  end;;
  bl ← attr building;
  match list_remove build_is build bl with
  | None => raise "ValueError"
  | Some bl' =>
  assign (set_building bl');;
  (if bool_decide (results = RETRY) then
     try_except (_resubmit_buildreqs w build)
       (fun _ => call (log_err "while resubmitting a build request"))
   else
     let complete_at_epoch := seconds w in
     let complete_at := complete_at_epoch in
     let brids := map br_id (requests build) in
     try_except
       (call (db_completeBuildRequests brids results complete_at);;
        expect (on_completeBuildRequests w) "completeBuildRequests";;
        _notify_completions w (requests build) results complete_at_epoch)
       (fun _ => call (log_err "while marking build requests as completed")));;
  match sb_slave with
  | Some s =>
      call (slave_releaseLocks s);;
      expect (on_releaseLocks w) "releaseLocks"
  | None => ret tt
  end;;
  updateBigStatus w
  end
  end.

End completion.

(** *** Reading a builder and a trace *)

(** The slave builders the builder holds, attaching or attached. *)
Definition registry (self : Builder) : list SlaveBuilder :=
  attaching_slaves self ++ slaves self.

(** The slave builders of the registry that refer to a slave. *)
Definition slots_of (slave0 : BuildSlave) (self : Builder) : list SlaveBuilder :=
  List.filter (fun s => slave_is (slave s) slave0) (registry self).

(** [n] calls of [attached] for the same slave, one after the other. *)
Fixpoint attached_again (n : nat) (w : World) (slave0 : BuildSlave)
  : M attach_result :=
  match n with
  | O => ret fired_self
  | S n' => attached w slave0;; attached_again n' w slave0
  end.

(** The states pushed to the status sink. *)
Definition big_states (t : list event) : list string :=
  omap (fun e => match e with status_setBigState s => Some s | _ => None end) t.

(** The closures pushed on the cleanup stack, and those popped and called,
    in the order in which it happened. *)
Definition registered (t : list event) : list cleanup :=
  omap (fun e => match e with cleanups_append fn => Some fn | _ => None end) t.
Definition unwound (t : list event) : list cleanup :=
  omap (fun e => match e with cleanups_pop fn => Some fn | _ => None end) t.

(** Calls to the stores: the build table and the request table. *)
Definition is_store_call (e : event) : bool :=
  match e with
  | db_addBuild _ _ _ _ _ _ | db_finishBuild _ _
  | db_completeBuildRequests _ _ _ | db_unclaimBuildRequests _
  | db_reclaimBuildRequests _ => true
  | _ => false
  end.
Definition store_calls (t : list event) : list event :=
  List.filter is_store_call t.

(** Calls that change which requests are claimed, or by whom. *)
Definition is_claim_call (e : event) : bool :=
  match e with
  | db_completeBuildRequests _ _ _ | db_unclaimBuildRequests _
  | db_reclaimBuildRequests _ => true
  | _ => false
  end.
Definition claim_calls (t : list event) : list event :=
  List.filter is_claim_call t.

(** Calls to [master.db.builds.addBuild]. *)
Definition is_addBuild (e : event) : bool :=
  match e with
  | db_addBuild _ _ _ _ _ _ => true
  | _ => false
  end.
Definition addBuild_calls (t : list event) : list event :=
  List.filter is_addBuild t.

(** Calls to the slave builder and to the remote: prepare, ping and
    remoteStartBuild. *)
Definition is_worker_call (e : event) : bool :=
  match e with
  | sb_prepare _ _ | sb_ping _ | conn_remoteStartBuild _ _ => true
  | _ => false
  end.
Definition worker_calls (t : list event) : list event :=
  List.filter is_worker_call t.

(** What a completion makes known: the calls to the request table, the
    messages and the buildset checks. *)
Definition is_completion_call (e : event) : bool :=
  match e with
  | db_completeBuildRequests _ _ _ | db_unclaimBuildRequests _
  | mq_produce _ _ | data_maybeBuildsetComplete _ => true
  | _ => false
  end.
Definition completion_calls (t : list event) : list event :=
  List.filter is_completion_call t.

(** The builder id [getBuilderId] resolves to: the cached id, or what the
    registry of builders answers for the builder's name. *)
Definition resolved_builderid (w : World) (self : Builder) : option nat :=
  match _builderid self with
  | Some (S n) => Some (S n)
  | _ =>
      match on_findBuilderId w (name self) with
      | Ok builderid => Some builderid
      | Failed => None
      end
  end.

(** The state of the spec's StatusAggregator, in the spec's words: OFFLINE
    if the registry is empty, else BUILDING if any build is in flight, else
    IDLE.  The registry holds the slots of both collections. *)
Definition StatusAggregator_state (self : Builder) : string :=
  match registry self with
  | [] => "offline"
  | _ :: _ =>
      match (building self ++ old_building self)%list with
      | [] => "idle"
      | _ :: _ => "building"
      end
  end.

(** Two builders hold the same slave builders and the same inherited
    builds. *)
Definition same_registry (a b : Builder) : Prop :=
  old_building a = old_building b
  /\ attaching_slaves a = attaching_slaves b
  /\ slaves a = slaves b.

(** The events of [run_cleanups]: a closure popped, what the closures call,
    and bookkeeping. *)
Definition is_cleanup_event (e : event) : bool :=
  match e with
  | cleanups_pop _ | slave_releaseLocks _ | sb_buildFinished _
  | status_setBigState _ | log_err _ | log_msg _ => true
  | _ => false
  end.

(** The new Build is not one of the builds in [building]. *)
Definition new_build_is_new (w : World) (self : Builder) : Prop :=
  forall oid, on_newBuild w = Ok oid ->
    Forall (fun b => build_oid b <> oid) (building self).

(** The events of [updateBigStatus]: a state pushed, and log lines. *)
Definition is_status_event (e : event) : bool :=
  match e with
  | status_setBigState _ | log_err _ | log_msg _ => true
  | _ => false
  end.

(** Events that none of the readings above keeps, but [big_states]: log
    lines, a state pushed to the status sink, a lookup of the builder id. *)
Definition is_bookkeeping (e : event) : bool :=
  match e with
  | status_setBigState _ | log_err _ | log_msg _ | data_findBuilderId _ => true
  | _ => false
  end.

(** *** [getMergeRequestsFn] *)

(** A [mergeRequests] setting: [None], [False], [True] or a callable. *)
Inductive mergeRequests_setting : Type :=
| setting_None
| setting_False
| setting_True
| setting_callable (fn : nat).

(** What [getMergeRequestsFn] returns when it is not [None]. *)
Inductive mergeRequests_function : Type :=
| _defaultMergeRequestFn
| configured (fn : nat).

(** The arguments are [self.config.mergeRequests] and
    [self.master.config.mergeRequests]. *)
Definition getMergeRequestsFn
    (config_mergeRequests master_mergeRequests : mergeRequests_setting)
  : option mergeRequests_function :=
  let mergeRequests_fn := config_mergeRequests in
  let mergeRequests_fn :=
    match mergeRequests_fn with
    | setting_None => master_mergeRequests
    | _ => mergeRequests_fn
    end in
  let mergeRequests_fn :=
    match mergeRequests_fn with
    | setting_None => setting_True
    | _ => mergeRequests_fn
    end in
  match mergeRequests_fn with
  | setting_False => None
  | setting_True => Some _defaultMergeRequestFn
  | setting_callable fn => Some (configured fn)
  | setting_None => None
  end.

(** *** [getBuild] *)

(** [b.build_status and b.build_status.number == number]; [number_of b] is
    the number of [b.build_status], [None] when the build has no status
    yet. *)
Definition has_number (number_of : Build -> option nat) (number : nat)
    (b : Build) : bool :=
  match number_of b with
  | Some n => bool_decide (n = number)
  | None => false
  end.

Definition getBuild (number_of : Build -> option nat) (number : nat)
    (self : Builder) : option Build :=
  match List.find (has_number number_of number) (building self) with
  | Some b => Some b
  | None => List.find (has_number number_of number) (old_building self)
  end.

(** *** [getOldestRequestTime] *)

(** A row of [getBuildRequests]; [submitted_at] is kept as its epoch. *)
Record brdict : Type := {
  brdict_brid : nat;
  submitted_at : Z
}.

(** The argument is what
    [master.db.buildrequests.getBuildRequests(buildername=self.name,
    claimed=False)] answers. *)
Definition getOldestRequestTime (on_getBuildRequests : answer (list brdict))
  : outcome (option Z) :=
  match on_getBuildRequests with
  | Failed => Raised "getBuildRequests"
  | Ok [] => Returned None
  | Ok unclaimed =>
      match merge_sort Z.le (map submitted_at unclaimed) with
      | [] => Raised "IndexError"
      | oldest :: _ => Returned (Some oldest)
      end
  end.

(** *** [addLatentSlave] *)

(** The calls of [addLatentSlave]: one to the status, one to the
    botmaster. *)
Inductive registry_call : Type :=
| builder_event (e : event)
| botmaster_maybeStartBuildsForBuilder (name : string).

(** [for s in self.slaves: if s == slave] compares each slave builder with
    the slave itself, by identity: the identities of slave builders and of
    slaves name objects of one heap.  [latent] is
    [ILatentBuildSlave.providedBy(slave)]. *)
Definition addLatentSlave (w : World) (latent : bool) (slave0 : BuildSlave)
    (self : Builder) : outcome unit * Builder * list registry_call :=
  if negb latent then (Raised "AssertionError", self, [])
  else if existsb (fun s => bool_decide (sb_oid s = slave_oid slave0))
            (slaves self)
  then (Returned tt, self, [])
  else
    let sb := {| sb_oid := new_slavebuilder w; slave := slave0 |} in
    match builder_status self with
    | None => (Raised "AttributeError", self, [])
    | Some _ =>
        (Returned tt, set_slaves (slaves self ++ [sb]) self,
         [builder_event
            (status_addPointEvent ["added"; "latent"; slavename slave0]);
          botmaster_maybeStartBuildsForBuilder (name self)])
    end.

(** *** [BuilderControl] *)

Module BuilderControl.

(** [res] is the result of the DeferredList: for each slave a pair whose
    second component is what the ping fired with, kept as its truth
    value. *)
Fixpoint _gatherPingResults (res : list (bool * bool)) : bool :=
  match res with
  | [] => true
  | (ignored, success) :: res' =>
      if negb success then false else _gatherPingResults res'
  end.

(** [for s in self.original.slaves: dl.append(s.ping(builder_status))] *)
Fixpoint ping_each (sl : list SlaveBuilder) : M unit :=
  match sl with
  | [] => ret tt
  | s :: sl' => call (sb_ping s);; ping_each sl'
  end.

(** [delivered s] is the pair the DeferredList holds for the ping of [s]. *)
Definition ping (delivered : SlaveBuilder -> bool * bool) : M bool :=
  sl ← attr slaves;
  match sl with
  | [] =>
      addPointEvent ["ping"; "no slave"];;
      ret false
  | _ :: _ =>
      ping_each sl;;
      ret (_gatherPingResults (map delivered sl))
  end.

End BuilderControl.

(** *** More readings of a trace *)

(** The calls of a start, from prepare to the launch of the build. *)
Definition is_handoff_call (e : event) : bool :=
  match e with
  | sb_prepare _ _ | sb_ping _ | sb_buildStarted _
  | conn_remoteStartBuild _ _ | status_newBuild
  | db_addBuild _ _ _ _ _ _ | status_build_started _ _
  | build_startBuild _ _ => true
  | _ => false
  end.
Definition handoff_calls (t : list event) : list event :=
  List.filter is_handoff_call t.

(** The calls that change the state of a slave builder:
    [buildStarted()] and [buildFinished()]. *)
Definition is_slot_transition (e : event) : bool :=
  match e with
  | sb_buildStarted _ | sb_buildFinished _ => true
  | _ => false
  end.
Definition slot_transitions (t : list event) : list event :=
  List.filter is_slot_transition t.




(** Calls to [master.status.builderAdded]. *)
Definition is_builderAdded (e : event) : bool :=
  match e with
  | status_builderAdded _ _ _ _ => true
  | _ => false
  end.
Definition builderAdded_calls (t : list event) : list event :=
  List.filter is_builderAdded t.

End builder.

(** ** Scenarios

    The builder "compile" of the spec's scenarios, with one slave "w1", and
    worlds in which the collaborators answer as the scenarios say. *)

Module scenario.
Import builder.

Definition w1 : BuildSlave :=
  {| slave_oid := 1; slavename := "w1"; buildslaveid := 11 |}.
Definition w2 : BuildSlave :=
  {| slave_oid := 2; slavename := "w2"; buildslaveid := 12 |}.
Definition slot1 : SlaveBuilder := {| sb_oid := 21; slave := w1 |}.
Definition slot2 : SlaveBuilder := {| sb_oid := 22; slave := w2 |}.

Definition compile_config : BuilderConfig :=
  {| cfg_name := "compile"; builddir := "compile-dir"; category := "ci";
     description := "compiles"; slavenames := ["w1"]; locks := [];
     env := [] |}.

Definition new_config : MasterConfig :=
  {| builders := [compile_config]; caches_Builds := 15 |}.

(** The builder after its first reconfig, with "w1" attached and idle. *)
Definition compile : Builder :=
  {| name := "compile"; _builderid := Some 3; building := [];
     old_building := []; attaching_slaves := []; slaves := [slot1];
     config := Some compile_config; builder_status := Some "compile";
     running := true |}.

(** Every collaborator answers; the connection is still there at handoff. *)
Definition fair : World :=
  {| masterid := 9; seconds := 1000;
     on_findBuilderId := fun _ => Ok 3;
     on_setBigState := fun _ => Ok tt;
     on_newBuild := Ok 50;
     on_prepare := Ok true;
     on_ping := Ok true;
     on_remoteStartBuild := Ok tt;
     on_addBuild := Ok (100, 1);
     conn_at_handoff := true;
     on_releaseLocks := Ok tt;
     on_buildFinished := Ok tt;
     new_slavebuilder := 60;
     on_attached := Ok tt;
     on_finishBuild := Ok tt;
     on_completeBuildRequests := Ok tt;
     on_unclaimBuildRequests := Ok tt;
     on_reclaimBuildRequests := Ok tt;
     on_maybeBuildsetComplete := fun _ => Ok tt;
     on_produce := fun _ => Ok tt |}.

(** As [fair], but the slave's connection is gone when the build row has
    been written. *)
Definition conn_lost : World :=
  {| masterid := 9; seconds := 1000;
     on_findBuilderId := fun _ => Ok 3;
     on_setBigState := fun _ => Ok tt;
     on_newBuild := Ok 50;
     on_prepare := Ok true;
     on_ping := Ok true;
     on_remoteStartBuild := Ok tt;
     on_addBuild := Ok (100, 1);
     conn_at_handoff := false;
     on_releaseLocks := Ok tt;
     on_buildFinished := Ok tt;
     new_slavebuilder := 60;
     on_attached := Ok tt;
     on_finishBuild := Ok tt;
     on_completeBuildRequests := Ok tt;
     on_unclaimBuildRequests := Ok tt;
     on_reclaimBuildRequests := Ok tt;
     on_maybeBuildsetComplete := fun _ => Ok tt;
     on_produce := fun _ => Ok tt |}.

(** As [fair], but the remote refuses to start the build, and then the
    slave builder's [buildFinished], called to undo [buildStarted], raises. *)
Definition stuck : World :=
  {| masterid := 9; seconds := 1000;
     on_findBuilderId := fun _ => Ok 3;
     on_setBigState := fun _ => Ok tt;
     on_newBuild := Ok 50;
     on_prepare := Ok true;
     on_ping := Ok true;
     on_remoteStartBuild := Failed;
     on_addBuild := Ok (100, 1);
     conn_at_handoff := true;
     on_releaseLocks := Ok tt;
     on_buildFinished := Failed;
     new_slavebuilder := 60;
     on_attached := Ok tt;
     on_finishBuild := Ok tt;
     on_completeBuildRequests := Ok tt;
     on_unclaimBuildRequests := Ok tt;
     on_reclaimBuildRequests := Ok tt;
     on_maybeBuildsetComplete := fun _ => Ok tt;
     on_produce := fun _ => Ok tt |}.

(** As [fair], but the build factory raises. *)
Definition no_build : World :=
  {| masterid := 9; seconds := 1000;
     on_findBuilderId := fun _ => Ok 3;
     on_setBigState := fun _ => Ok tt;
     on_newBuild := Failed;
     on_prepare := Ok true;
     on_ping := Ok true;
     on_remoteStartBuild := Ok tt;
     on_addBuild := Ok (100, 1);
     conn_at_handoff := true;
     on_releaseLocks := Ok tt;
     on_buildFinished := Ok tt;
     new_slavebuilder := 60;
     on_attached := Ok tt;
     on_finishBuild := Ok tt;
     on_completeBuildRequests := Ok tt;
     on_unclaimBuildRequests := Ok tt;
     on_reclaimBuildRequests := Ok tt;
     on_maybeBuildsetComplete := fun _ => Ok tt;
     on_produce := fun _ => Ok tt |}.

(** As [fair], but the request table fails to mark requests complete. *)
Definition store_down : World :=
  {| masterid := 9; seconds := 1000;
     on_findBuilderId := fun _ => Ok 3;
     on_setBigState := fun _ => Ok tt;
     on_newBuild := Ok 50;
     on_prepare := Ok true;
     on_ping := Ok true;
     on_remoteStartBuild := Ok tt;
     on_addBuild := Ok (100, 1);
     conn_at_handoff := true;
     on_releaseLocks := Ok tt;
     on_buildFinished := Ok tt;
     new_slavebuilder := 60;
     on_attached := Ok tt;
     on_finishBuild := Ok tt;
     on_completeBuildRequests := Failed;
     on_unclaimBuildRequests := Ok tt;
     on_reclaimBuildRequests := Ok tt;
     on_maybeBuildsetComplete := fun _ => Ok tt;
     on_produce := fun _ => Ok tt |}.

Definition req42 : BuildRequest :=
  {| br_id := 42; br_bsid := 7; br_buildername := "compile" |}.
Definition req10 : BuildRequest :=
  {| br_id := 10; br_bsid := 3; br_buildername := "compile" |}.
Definition req11 : BuildRequest :=
  {| br_id := 11; br_bsid := 3; br_buildername := "compile" |}.

(** The build of requests 10 and 11, in flight on "w1". *)
Definition build_10_11 : Build :=
  {| build_oid := 50; requests := [req10; req11] |}.
Definition compile_building : Builder := set_building [build_10_11] compile.

(** "w2" is still attaching and no slave is available. *)
Definition compile_attaching : Builder :=
  set_attaching_slaves [slot2] (set_slaves [] compile).

(** "w2", no longer configured, is attaching while "w1" is available. *)
Definition compile_two : Builder := set_attaching_slaves [slot2] compile.

(** As [fair], but the handshake of a slave builder with its slave fails. *)
Definition handshake_fails : World :=
  {| masterid := 9; seconds := 1000;
     on_findBuilderId := fun _ => Ok 3;
     on_setBigState := fun _ => Ok tt;
     on_newBuild := Ok 50;
     on_prepare := Ok true;
     on_ping := Ok true;
     on_remoteStartBuild := Ok tt;
     on_addBuild := Ok (100, 1);
     conn_at_handoff := true;
     on_releaseLocks := Ok tt;
     on_buildFinished := Ok tt;
     new_slavebuilder := 60;
     on_attached := Failed;
     on_finishBuild := Ok tt;
     on_completeBuildRequests := Ok tt;
     on_unclaimBuildRequests := Ok tt;
     on_reclaimBuildRequests := Ok tt;
     on_maybeBuildsetComplete := fun _ => Ok tt;
     on_produce := fun _ => Ok tt |}.

(** As [fair], but the registry of builders does not answer. *)
Definition no_registry : World :=
  {| masterid := 9; seconds := 1000;
     on_findBuilderId := fun _ => Failed;
     on_setBigState := fun _ => Ok tt;
     on_newBuild := Ok 50;
     on_prepare := Ok true;
     on_ping := Ok true;
     on_remoteStartBuild := Ok tt;
     on_addBuild := Ok (100, 1);
     conn_at_handoff := true;
     on_releaseLocks := Ok tt;
     on_buildFinished := Ok tt;
     new_slavebuilder := 60;
     on_attached := Ok tt;
     on_finishBuild := Ok tt;
     on_completeBuildRequests := Ok tt;
     on_unclaimBuildRequests := Ok tt;
     on_reclaimBuildRequests := Ok tt;
     on_maybeBuildsetComplete := fun _ => Ok tt;
     on_produce := fun _ => Ok tt |}.

(** The builder "compile" as [__init__] leaves it, before its first
    reconfig. *)
Definition fresh : Builder :=
  {| name := "compile"; _builderid := None; building := [];
     old_building := []; attaching_slaves := []; slaves := [];
     config := None; builder_status := None; running := false |}.

(** As [fair], but the message queue raises at every [produce]. *)
Definition queue_full : World :=
  {| masterid := 9; seconds := 1000;
     on_findBuilderId := fun _ => Ok 3;
     on_setBigState := fun _ => Ok tt;
     on_newBuild := Ok 50;
     on_prepare := Ok true;
     on_ping := Ok true;
     on_remoteStartBuild := Ok tt;
     on_addBuild := Ok (100, 1);
     conn_at_handoff := true;
     on_releaseLocks := Ok tt;
     on_buildFinished := Ok tt;
     new_slavebuilder := 60;
     on_attached := Ok tt;
     on_finishBuild := Ok tt;
     on_completeBuildRequests := Ok tt;
     on_unclaimBuildRequests := Ok tt;
     on_reclaimBuildRequests := Ok tt;
     on_maybeBuildsetComplete := fun _ => Ok tt;
     on_produce := fun _ => Failed |}.

(** "w3", attached like "w1" but no longer configured. *)
Definition w3 : BuildSlave :=
  {| slave_oid := 3; slavename := "w3"; buildslaveid := 13 |}.
Definition slot3 : SlaveBuilder := {| sb_oid := 23; slave := w3 |}.

(** "w1" and "w3" are available, "w2" is attaching. *)
Definition compile_three : Builder :=
  set_attaching_slaves [slot2] (set_slaves [slot1; slot3] compile).

(** Two builds in flight, the first of which is the object the factory of
    [fair] hands out. *)
Definition build_51 : Build := {| build_oid := 51; requests := [req42] |}.
Definition compile_two_builds : Builder :=
  set_building [build_10_11; build_51] compile.

(** As [fair], but the slave is not ready. *)
Definition not_ready : World :=
  {| masterid := 9; seconds := 1000;
     on_findBuilderId := fun _ => Ok 3;
     on_setBigState := fun _ => Ok tt;
     on_newBuild := Ok 50;
     on_prepare := Ok false;
     on_ping := Ok true;
     on_remoteStartBuild := Ok tt;
     on_addBuild := Ok (100, 1);
     conn_at_handoff := true;
     on_releaseLocks := Ok tt;
     on_buildFinished := Ok tt;
     new_slavebuilder := 60;
     on_attached := Ok tt;
     on_finishBuild := Ok tt;
     on_completeBuildRequests := Ok tt;
     on_unclaimBuildRequests := Ok tt;
     on_reclaimBuildRequests := Ok tt;
     on_maybeBuildsetComplete := fun _ => Ok tt;
     on_produce := fun _ => Ok tt |}.

(** The resource type of build requests, as [_notify_completions] keys its
    messages. *)
Definition buildrequest_rtype : base.ResourceType :=
  {| base.name := "buildrequest"; base.keyFields := ["bsid"; "builderid"; "brid"] |}.

(** A store with one build, number 1 of builder 3, whose id is 100, and one
    step of that build, whose id is 7. *)
Definition store : base.db :=
  {| base.on_getBuildByNumber := fun builderid number =>
       if bool_decide (builderid = VInt 3 /\ number = VInt 1)
       then Some {[ "id" := VInt 100 ]} else None;
     base.on_getStepByBuild := fun buildid number name0 =>
       if bool_decide (buildid = VInt 100 /\ number = VInt 0)
       then Some {[ "id" := VInt 7 ]} else None |}.

(** The keyword arguments of a path that names a step by its builder, the
    number of its build and its own number. *)
Definition step_kwargs : message :=
  {[ "builderid" := VInt 3; "build_number" := VInt 1;
     "step_number" := VInt 0 ]}.

(** [ListResult(values, total=len(values))] *)
Definition counted (values : list nat) : base.ListResult nat :=
  {| base.data := values; base.offset := None;
     base.total := Some (length values); base.limit := None |}.

End scenario.

(** ** Properties of [produceEvent] *)

Section produceEvent_facts.
Import base.

Lemma key_values_Forall2 (msg : message) (ks : list string) (vs : list pyval) :
  Forall2 (fun k v => msg !! k = Some v) ks vs ->
  key_values msg ks = Some (map py_str vs).
Proof.
  induction 1 as [|k v ks vs Hk _ IH]; simpl.
  - reflexivity.
  - rewrite Hk, IH. reflexivity.
Qed.

Lemma key_values_missing (msg : message) (ks : list string) (k : string) :
  k ∈ ks -> msg !! k = None -> key_values msg ks = None.
Proof.
  intros Hin Hk. induction ks as [|k' ks IH]; simpl.
  - inversion Hin.
  - apply elem_of_cons in Hin as [->|Hin].
    + rewrite Hk. reflexivity.
    + rewrite (IH Hin). destruct (msg !! k'); reflexivity.
Qed.

(** C8: when [vs] are the values of the message at the key fields, in the
    order of [keyFields], [produceEvent] returns after exactly one call
    [mq.produce(routingKey, msg)] whose routing key is the resource name,
    then [str] of each of these values in that order, then the event name. *)
Theorem produceEvent_routingKey (rt : ResourceType) (msg : message)
    (event : string) (vs : list pyval) :
  Forall2 (fun k v => msg !! k = Some v) (keyFields rt) vs ->
  produceEvent rt msg event
  = (Returned tt, [produce ([name rt] ++ map py_str vs ++ [event]) msg]).
Proof.
  intros Hvs. unfold produceEvent, routingKey.
  rewrite (key_values_Forall2 _ _ _ Hvs). reflexivity.
Qed.

Lemma produceEvent_routingKey_witness :
  produceEvent scenario.buildrequest_rtype
    (builder.complete_msg scenario.req42 3 0 1000) "complete"
  = (Returned tt,
     [produce ["buildrequest"; "7"; "3"; "42"; "complete"]
        (builder.complete_msg scenario.req42 3 0 1000)]).
Proof.
  apply (produceEvent_routingKey scenario.buildrequest_rtype
           (builder.complete_msg scenario.req42 3 0 1000) "complete"
           [VInt 7; VInt 3; VInt 42]).
  repeat constructor.
Defined.

(** A message that lacks a key field is not published. *)
Lemma produceEvent_KeyError (rt : ResourceType) (msg : message)
    (event k : string) :
  k ∈ keyFields rt -> msg !! k = None ->
  produceEvent rt msg event = (Raised "KeyError", []).
Proof.
  intros Hin Hk. unfold produceEvent, routingKey.
  rewrite (key_values_missing _ _ _ Hin Hk). reflexivity.
Qed.

(** The key [_notify_completions] builds by hand for a [complete] message
    is the routing key [produceEvent] computes for it, for a resource type
    "buildrequest" keyed by bsid, builderid and brid. *)
Lemma complete_key_is_routingKey (br : builder.BuildRequest) (builderid : nat)
    (results complete_at_epoch : Z) :
  routingKey scenario.buildrequest_rtype
    (builder.complete_msg br builderid results complete_at_epoch) "complete"
  = Some (builder.complete_key br builderid).
Proof. reflexivity. Qed.

End produceEvent_facts.

(** ** More properties of [buildbot/data/base.py] *)

Section data_facts.
Import base.

Lemma key_values_cases (msg : message) (ks : list string) :
  match key_values msg ks with
  | Some vs => Forall (fun k => is_Some (msg !! k)) ks
  | None => Exists (fun k => msg !! k = None) ks
  end.
Proof.
  induction ks as [|k ks IH]; simpl; [constructor|].
  destruct (msg !! k) as [v|] eqn:Hk; [|apply Exists_cons_hd; exact Hk].
  destruct (key_values msg ks).
  - constructor; [rewrite Hk; eexists; reflexivity|exact IH].
  - apply Exists_cons_tl. exact IH.
Qed.

(** X22: [produceEvent] either returns after exactly one call to
    [mq.produce], and then the message has every key field, or raises
    KeyError without having called the message queue, and then the message
    lacks a key field.  What is published is the message itself. *)
Theorem produceEvent_publishes_or_raises (rt : ResourceType) (msg : message)
    (event : string) :
  (Forall (fun k => is_Some (msg !! k)) (keyFields rt)
   /\ exists key, produceEvent rt msg event = (Returned tt, [produce key msg]))
  \/ (Exists (fun k => msg !! k = None) (keyFields rt)
      /\ produceEvent rt msg event = (Raised "KeyError", [])).
Proof.
  unfold produceEvent, routingKey.
  pose proof (key_values_cases msg (keyFields rt)) as H.
  destruct (key_values msg (keyFields rt)) as [vs|].
  - left. split; [exact H|]. eexists. reflexivity.
  - right. split; [exact H|reflexivity].
Qed.

(** [str] of an integer determines the integer. *)
Lemma to_int_not_nil (z : Z) :
  Z.to_int z <> Decimal.Pos Decimal.Nil /\ Z.to_int z <> Decimal.Neg Decimal.Nil.
Proof.
  destruct z as [|p|p]; simpl; split; try discriminate.
  - intros [= H]. exact (Unsigned.to_uint_nonnil p H).
  - intros [= H]. exact (Unsigned.to_uint_nonnil p H).
Qed.

Lemma py_str_int_inj (a b : Z) : py_str (VInt a) = py_str (VInt b) -> a = b.
Proof.
  simpl. intros H. apply (f_equal NilZero.int_of_string) in H.
  destruct (to_int_not_nil a) as [Ha1 Ha2].
  destruct (to_int_not_nil b) as [Hb1 Hb2].
  rewrite !NilZero.isi in H by assumption.
  injection H as H. exact (DecimalZ.to_int_inj _ _ H).
Qed.

Lemma key_values_ints (msg : message) (ks : list string) (zs : list Z) :
  Forall2 (fun k z => msg !! k = Some (VInt z)) ks zs ->
  key_values msg ks = Some (map (fun z => py_str (VInt z)) zs).
Proof.
  induction 1 as [|k z ks zs Hk _ IH]; simpl; [reflexivity|].
  rewrite Hk, IH. reflexivity.
Qed.

Lemma map_py_str_int_inj (zs zs' : list Z) :
  map (fun z => py_str (VInt z)) zs = map (fun z => py_str (VInt z)) zs' ->
  zs = zs'.
Proof.
  revert zs'. induction zs as [|z zs IH]; intros [|z' zs']; simpl;
    try discriminate; [reflexivity|].
  intros [= Hz Hzs]. f_equal; [exact (py_str_int_inj _ _ Hz)|exact (IH _ Hzs)].
Qed.

(** X23: routing keys do not collide.  When the key fields of two messages
    of one resource type hold integers, [produceEvent] gives them the same
    routing key only if the two messages agree on every key field and the
    two events are the same. *)
Theorem routingKey_determines_ids (rt : ResourceType) (msg msg' : message)
    (event event' : string) (zs zs' : list Z) :
  Forall2 (fun k z => msg !! k = Some (VInt z)) (keyFields rt) zs ->
  Forall2 (fun k z => msg' !! k = Some (VInt z)) (keyFields rt) zs' ->
  routingKey rt msg event = routingKey rt msg' event' ->
  zs = zs' /\ event = event'.
Proof.
  intros Hz Hz'. unfold routingKey.
  rewrite (key_values_ints _ _ _ Hz), (key_values_ints _ _ _ Hz').
  intros [= H].
  assert (Hlen : length zs = length zs').
  { rewrite <- (Forall2_length _ _ _ Hz), <- (Forall2_length _ _ _ Hz').
    reflexivity. }
  apply app_inj_1 in H as [H1 H2]; [|rewrite !length_map; exact Hlen].
  split; [exact (map_py_str_int_inj _ _ H1)|]. injection H2 as ->. reflexivity.
Qed.

Lemma routingKey_determines_ids_witness :
  [7; 3; 42]%Z = [7; 3; 42]%Z /\ "complete" = "complete".
Proof.
  apply (routingKey_determines_ids scenario.buildrequest_rtype
           (builder.complete_msg scenario.req42 3 0 1000)
           (builder.complete_msg scenario.req42 3 1 2000)
           "complete" "complete" [7; 3; 42]%Z [7; 3; 42]%Z).
  - repeat constructor.
  - repeat constructor.
  - reflexivity.
Defined.

(** *** [ListResult]

    X24: two ListResults that both compare equal to one plain list have the
    same items, and neither has an offset or a limit; yet they compare equal
    to each other exactly when their totals are the same, and [!=] holds
    between them exactly when the totals differ.  A ListResult whose total
    is [None] and one whose total is the length of the list are both equal
    to the list and not to each other. *)
Theorem ListResult_equal_to_one_list {A} `{EqDecision A}
    (lr lr' : ListResult A) (l : list A) :
  __eq__ lr (inr l) = true ->
  __eq__ lr' (inr l) = true ->
  data lr = data lr'
  /\ offset lr = None /\ limit lr = None
  /\ offset lr' = None /\ limit lr' = None
  /\ (__eq__ lr (inl lr') = true <-> total lr = total lr')
  /\ (__ne__ lr (inl lr') = true <-> total lr <> total lr').
Proof.
  unfold __ne__, __eq__. intros H1 H2.
  apply andb_prop in H1 as [H1 _]. apply andb_prop in H1 as [Hd H1].
  apply andb_prop in H1 as [Ho Hl].
  apply andb_prop in H2 as [H2 _]. apply andb_prop in H2 as [Hd' H2].
  apply andb_prop in H2 as [Ho' Hl'].
  apply bool_decide_eq_true in Hd, Ho, Hl, Hd', Ho', Hl'.
  rewrite Hl in Ho. rewrite Hl' in Ho'.
  split; [congruence|]. do 4 (split; [assumption|]).
  rewrite Hd, Hd', Ho, Ho', Hl, Hl'.
  rewrite !bool_decide_eq_true_2 by reflexivity. simpl.
  rewrite andb_true_r. split; [apply bool_decide_eq_true|].
  rewrite negb_true_iff. apply bool_decide_eq_false.
Qed.

Lemma ListResult_equal_to_one_list_witness :
  __eq__ (ListResult_of [1; 2]) (inr [1; 2]) = true
  /\ __eq__ (scenario.counted [1; 2]) (inr [1; 2]) = true
  /\ __eq__ (ListResult_of [1; 2]) (inl (scenario.counted [1; 2])) = false
  /\ data (ListResult_of [1; 2]) = data (scenario.counted [1; 2])
  /\ offset (ListResult_of [1; 2]) = None
  /\ limit (ListResult_of [1; 2]) = None
  /\ offset (scenario.counted [1; 2]) = None
  /\ limit (scenario.counted [1; 2]) = None
  /\ (__eq__ (ListResult_of [1; 2]) (inl (scenario.counted [1; 2])) = true
      <-> total (ListResult_of [1; 2]) = total (scenario.counted [1; 2]))
  /\ (__ne__ (ListResult_of [1; 2]) (inl (scenario.counted [1; 2])) = true
      <-> total (ListResult_of [1; 2]) <> total (scenario.counted [1; 2])).
Proof.
  split; [reflexivity|]. split; [reflexivity|]. split; [reflexivity|].
  apply (ListResult_equal_to_one_list (ListResult_of [1; 2])
           (scenario.counted [1; 2]) [1; 2]); reflexivity.
Defined.

(** *** [BuildNestingMixin] *)

Lemma kwargs_get_insert_ne (kwargs : message) (k k' : string) (v : pyval) :
  k <> k' -> kwargs_get (<[k := v]> kwargs) k' = kwargs_get kwargs k'.
Proof. intros Hne. unfold kwargs_get. rewrite lookup_insert_ne by exact Hne. reflexivity. Qed.

(** X25: when the keyword arguments hold [buildid], or both [builderid]
    and [build_number], and the rows of the build store carry an [id],
    [getBuildid] does not raise.  With [buildid] it returns it without a
    query; otherwise it asks the store once, for that builder and number,
    and returns the [id] of the row found, or [None] when there is no
    row. *)
Theorem getBuildid_returns (d : db) (kwargs : message) :
  (forall a n b, on_getBuildByNumber d a n = Some b -> b <> ∅ ->
                 is_Some (b !! "id")) ->
  (is_Some (kwargs !! "buildid")
   \/ (is_Some (kwargs !! "builderid") /\ is_Some (kwargs !! "build_number"))) ->
  exists v t,
    getBuildid d kwargs = (Returned v, t)
    /\ (kwargs !! "buildid" = Some v /\ t = []
        \/ exists a n,
             kwargs !! "buildid" = None
             /\ kwargs !! "builderid" = Some a
             /\ kwargs !! "build_number" = Some n
             /\ t = [getBuildByNumber a n]
             /\ match on_getBuildByNumber d a n with
                | Some b => if bool_decide (b = ∅) then v = VNone
                            else b !! "id" = Some v
                | None => v = VNone
                end).
Proof.
  intros Hrows Hkeys. unfold getBuildid.
  destruct (kwargs !! "buildid") as [v|] eqn:Hv.
  { exists v, []. split; [reflexivity|]. left. split; reflexivity. }
  destruct Hkeys as [[x Hx]|[[a Ha] [n Hn]]]; [discriminate|].
  rewrite Ha, Hn. unfold falsy.
  destruct (on_getBuildByNumber d a n) as [b|] eqn:Hrow.
  - case_bool_decide as Hempty.
    + exists VNone, [getBuildByNumber a n]. split; [reflexivity|]. right.
      exists a, n. rewrite Hrow, bool_decide_eq_true_2 by exact Hempty.
      repeat split.
    + destruct (Hrows a n b Hrow Hempty) as [i Hi]. rewrite Hi.
      exists i, [getBuildByNumber a n]. split; [reflexivity|]. right.
      exists a, n. rewrite Hrow, bool_decide_eq_false_2 by exact Hempty.
      repeat split. exact Hi.
  - exists VNone, [getBuildByNumber a n]. split; [reflexivity|]. right.
    exists a, n. rewrite Hrow. repeat split.
Qed.

Lemma getBuildid_returns_witness :
  exists v t,
    getBuildid scenario.store scenario.step_kwargs = (Returned v, t)
    /\ (scenario.step_kwargs !! "buildid" = Some v /\ t = []
        \/ exists a n,
             scenario.step_kwargs !! "buildid" = None
             /\ scenario.step_kwargs !! "builderid" = Some a
             /\ scenario.step_kwargs !! "build_number" = Some n
             /\ t = [getBuildByNumber a n]
             /\ match on_getBuildByNumber scenario.store a n with
                | Some b => if bool_decide (b = ∅) then v = VNone
                            else b !! "id" = Some v
                | None => v = VNone
                end).
Proof.
  apply (getBuildid_returns scenario.store scenario.step_kwargs).
  - intros a n b Hrow _. simpl in Hrow.
    destruct (bool_decide _); [|discriminate].
    injection Hrow as <-. eexists. reflexivity.
  - right. split; eexists; reflexivity.
Defined.

(** X26: [getStepid] uses the build only through [getBuildid]: when
    [getBuildid] returns a build id for the keyword arguments, [getStepid]
    gives the same result whether or not that id is passed as [buildid];
    without a [stepid], passing it only saves the query that [getBuildid]
    made. *)
Theorem getStepid_with_resolved_build (d : db) (kwargs : message)
    (buildid : pyval) (t : list db_call) :
  getBuildid d kwargs = (Returned buildid, t) ->
  fst (getStepid d (<["buildid" := buildid]> kwargs)) = fst (getStepid d kwargs)
  /\ (kwargs !! "stepid" = None ->
      snd (getStepid d kwargs)
      = t ++ snd (getStepid d (<["buildid" := buildid]> kwargs))).
Proof.
  intros Hb. unfold getStepid.
  rewrite lookup_insert_ne by discriminate.
  destruct (kwargs !! "stepid") as [stepid|]; [split; [reflexivity|discriminate]|].
  rewrite Hb.
  assert (Hb' : getBuildid d (<["buildid" := buildid]> kwargs)
                = (Returned buildid, [])).
  { unfold getBuildid. rewrite lookup_insert_eq. reflexivity. }
  rewrite Hb'. rewrite !kwargs_get_insert_ne by discriminate.
  case_bool_decide; [split; [reflexivity|intros _; rewrite app_nil_r; reflexivity]|].
  destruct (falsy _); [split; [reflexivity|reflexivity]|].
  destruct (on_getStepByBuild _ _ _ _) as [s|]; [|split; reflexivity].
  destruct (s !! "id"); split; reflexivity.
Qed.

Lemma getStepid_with_resolved_build_witness :
  getBuildid scenario.store scenario.step_kwargs
  = (Returned (VInt 100), [getBuildByNumber (VInt 3) (VInt 1)])
  /\ fst (getStepid scenario.store scenario.step_kwargs) = Returned (VInt 7)
  /\ fst (getStepid scenario.store
            (<["buildid" := VInt 100]> scenario.step_kwargs))
     = fst (getStepid scenario.store scenario.step_kwargs)
  /\ (scenario.step_kwargs !! "stepid" = None ->
      snd (getStepid scenario.store scenario.step_kwargs)
      = [getBuildByNumber (VInt 3) (VInt 1)]
        ++ snd (getStepid scenario.store
                  (<["buildid" := VInt 100]> scenario.step_kwargs))).
Proof.
  split; [reflexivity|]. split; [reflexivity|].
  apply (getStepid_with_resolved_build scenario.store scenario.step_kwargs
           (VInt 100) [getBuildByNumber (VInt 3) (VInt 1)]).
  reflexivity.
Defined.

(** *** [getEndpoints] *)

Lemma getEndpoints_loop_run (cs : list (nat * bool)) :
  forall done : list endpoint_item,
  (Forall (fun c => snd c = true) cs
   /\ getEndpoints_loop (seq (length done) (length cs))
        (done ++ map (fun c => class_object (fst c) (snd c)) cs)
      = (Returned (done ++ map (fun c => instance (fst c)) cs), map fst cs))
  \/ (exists pre cls post,
        cs = pre ++ (cls, false) :: post
        /\ Forall (fun c => snd c = true) pre
        /\ getEndpoints_loop (seq (length done) (length cs))
             (done ++ map (fun c => class_object (fst c) (snd c)) cs)
           = (Raised "TypeError", map fst pre)).
Proof.
  induction cs as [|[cls ok] cs IH]; intros done.
  - left. split; [constructor|]. simpl. reflexivity.
  - cbn [length seq map getEndpoints_loop fst snd].
    rewrite list_lookup_middle by reflexivity.
    destruct ok.
    + assert (Hins : <[length done := instance cls]>
                       (done ++ class_object cls true
                          :: map (fun c => class_object (fst c) (snd c)) cs)
                     = (done ++ [instance cls])
                       ++ map (fun c => class_object (fst c) (snd c)) cs).
      { rewrite insert_app_r_alt by lia. rewrite Nat.sub_diag. simpl.
        rewrite <- app_assoc. reflexivity. }
      rewrite Hins.
      assert (Hlen : S (length done) = length (done ++ [instance cls])).
      { rewrite length_app. simpl. lia. }
      rewrite Hlen.
      destruct (IH (done ++ [instance cls]))
        as [[Hall Hrun]|(pre & c & post & -> & Hpre & Hrun)]; rewrite Hrun.
      * left. split; [constructor; [reflexivity|exact Hall]|].
        rewrite <- app_assoc. reflexivity.
      * right. exists ((cls, true) :: pre), c, post.
        split; [reflexivity|]. split; [constructor; [reflexivity|exact Hpre]|].
        reflexivity.
    + right. exists [], cls, cs. split; [reflexivity|].
      split; [constructor|reflexivity].
Qed.

(** X29: [getEndpoints], on a list of classes, either returns the instances
    made from the classes, one for each class and in the same order, every
    class being a subclass of [Endpoint]; or raises TypeError at the first
    class that is not a subclass of [Endpoint], having instantiated exactly
    the classes before it. *)
Theorem getEndpoints_instantiates (cs : list (nat * bool)) :
  (Forall (fun c => snd c = true) cs
   /\ getEndpoints (map (fun c => class_object (fst c) (snd c)) cs)
      = (Returned (map (fun c => instance (fst c)) cs), map fst cs))
  \/ (exists pre cls post,
        cs = pre ++ (cls, false) :: post
        /\ Forall (fun c => snd c = true) pre
        /\ getEndpoints (map (fun c => class_object (fst c) (snd c)) cs)
           = (Raised "TypeError", map fst pre)).
Proof.
  unfold getEndpoints. rewrite length_map.
  exact (getEndpoints_loop_run cs []).
Qed.
End data_facts.

(** ** Running the monad in a proof *)

(** Unfold the monad down to matches on what is not known. *)
Ltac run_monad :=
  cbv beta iota zeta delta
    [mbind builder.M_bind mret builder.M_ret builder.bind builder.ret
     builder.raise builder.call builder.attr builder.assign
     builder.try_except builder.expect].
Ltac run_monad_in H :=
  cbv beta iota zeta delta
    [mbind builder.M_bind mret builder.M_ret builder.bind builder.ret
     builder.raise builder.call builder.attr builder.assign
     builder.try_except builder.expect] in H.

(** Run the monad and read the attributes that were just assigned. *)
Ltac run :=
  repeat (progress
    (run_monad;
     cbn [builder.name builder._builderid builder.building
          builder.old_building builder.attaching_slaves builder.slaves
          builder.config builder.builder_status builder.running
          builder.set__builderid builder.set_building
          builder.set_attaching_slaves builder.set_slaves builder.set_config
          builder.set_builder_status app fst snd negb])).

(** ** Properties of the builder *)

Section builder_facts.
Import builder.

(** *** [updateBigStatus] *)

(** [updateBigStatus] returns, changes no attribute, and pushes the state
    it derives from [slaves], [building] and [old_building], when there is a
    status object to push it to. *)
Lemma updateBigStatus_run (w : World) (self : Builder) :
  exists t, updateBigStatus w self = (Returned tt, self, t)
            /\ Forall (fun e => is_status_event e = true) t
            /\ big_states t =
               match builder_status self with
               | None => []
               | Some _ =>
                   match slaves self with
                   | [] => ["offline"]
                   | _ :: _ =>
                       match building self, old_building self with
                       | [], [] => ["idle"]
                       | _, _ => ["building"]
                       end
                   end
               end.
Proof.
  unfold updateBigStatus, setBigState. run_monad.
  destruct (builder_status self);
    [|eexists; split; [reflexivity|split; [constructor|reflexivity]]].
  destruct (slaves self).
  - destruct (on_setBigState w "offline") as [[]|]; cbn;
      eexists; (split; [reflexivity|split; [repeat constructor|reflexivity]]).
  - destruct (building self), (old_building self).
    all: match goal with |- context [on_setBigState ?w0 ?s] =>
           destruct (on_setBigState w0 s) as [[]|] end; cbn.
    all: eexists; (split; [reflexivity|split; [repeat constructor|reflexivity]]).
Qed.

(** C10 (as amended): [updateBigStatus] never raises and changes no
    attribute.  Before the first reconfig, when there is no status object, it
    pushes nothing.  Otherwise it pushes exactly one state: "offline" when
    [slaves] is empty (slave builders that are still attaching do not count),
    else "building" when [building] or [old_building] holds a build, else
    "idle". *)
Theorem updateBigStatus_pushes (w : World) (self : Builder) :
  exists t, updateBigStatus w self = (Returned tt, self, t)
            /\ big_states t =
               match builder_status self with
               | None => []
               | Some _ =>
                   match slaves self with
                   | [] => ["offline"]
                   | _ :: _ =>
                       match building self, old_building self with
                       | [], [] => ["idle"]
                       | _, _ => ["building"]
                       end
                   end
               end.
Proof.
  destruct (updateBigStatus_run w self) as (t & Hrun & _ & Ht).
  exists t. split; assumption.
Qed.

(** C10 as stated fails: with a slave builder attaching and none attached,
    the registry is not empty and no build is in flight, so the state would
    be "idle"; [updateBigStatus] pushes "offline". *)
Lemma updateBigStatus_offline_while_attaching :
  exists t,
    updateBigStatus scenario.fair scenario.compile_attaching
    = (Returned tt, scenario.compile_attaching, t)
    /\ registry scenario.compile_attaching = [scenario.slot2]
    /\ StatusAggregator_state scenario.compile_attaching = "idle"
    /\ big_states t = ["offline"]
    /\ big_states t <> [StatusAggregator_state scenario.compile_attaching].
Proof.
  eexists. split; [reflexivity|].
  split; [reflexivity|]. split; [reflexivity|]. split; [reflexivity|].
  discriminate.
Qed.

(** *** [attached] and [detached] *)

Lemma find_none_filter {A} (f : A -> bool) (l : list A) :
  List.find f l = None -> List.filter f l = [].
Proof.
  induction l as [|x l IH]; simpl; [reflexivity|].
  destruct (f x); [discriminate|]. exact IH.
Qed.

Lemma list_remove_fresh {A} (same : A -> A -> bool) (x : A) (l : list A) :
  same x x = true ->
  Forall (fun y => same y x = false) l ->
  list_remove same x (l ++ [x]) = Some l.
Proof.
  intros Hx. induction 1 as [|y l Hy _ IH]; simpl.
  - rewrite Hx. reflexivity.
  - rewrite Hy, IH. reflexivity.
Qed.

Lemma attached_known (w : World) (slave0 : BuildSlave) (self : Builder)
    (s : SlaveBuilder) :
  slot_of slave0 (registry self) = Some s ->
  attached w slave0 self = (Returned fired_self, self, []).
Proof.
  intros Hs. unfold attached. run_monad.
  unfold registry in Hs. rewrite Hs. reflexivity.
Qed.

Lemma attached_again_known (n : nat) (w : World) (slave0 : BuildSlave)
    (self : Builder) (s : SlaveBuilder) :
  slot_of slave0 (registry self) = Some s ->
  attached_again n w slave0 self = (Returned fired_self, self, []).
Proof.
  intros Hs. induction n as [|n IH]; simpl.
  - reflexivity.
  - run_monad. rewrite (attached_known w slave0 self s Hs).
    run_monad_in IH. rewrite IH. reflexivity.
Qed.

(** C7: when a slave builder of [attaching_slaves] or [slaves] already
    refers to the slave, [attached] returns a Deferred fired with the builder,
    changes no attribute and makes no call: no slave builder is created, no
    handshake is run, no status event is emitted.  So does any number of
    calls in a row: the registry stays what it was, and a slave that had one
    slave builder still has that one. *)
Theorem attached_already_attached (w : World) (slave0 : BuildSlave)
    (self : Builder) (s : SlaveBuilder) (n : nat) :
  slot_of slave0 (registry self) = Some s ->
  attached w slave0 self = (Returned fired_self, self, [])
  /\ attached_again n w slave0 self = (Returned fired_self, self, []).
Proof.
  intros Hs. split.
  - exact (attached_known w slave0 self s Hs).
  - exact (attached_again_known n w slave0 self s Hs).
Qed.

Lemma attached_already_attached_witness :
  slot_of scenario.w1 (registry scenario.compile) = Some scenario.slot1
  /\ slots_of scenario.w1 scenario.compile = [scenario.slot1]
  /\ attached scenario.fair scenario.w1 scenario.compile
     = (Returned fired_self, scenario.compile, [])
  /\ attached_again 2 scenario.fair scenario.w1 scenario.compile
     = (Returned fired_self, scenario.compile, []).
Proof.
  split; [reflexivity|]. split; [reflexivity|].
  apply (attached_already_attached scenario.fair scenario.w1 scenario.compile
           scenario.slot1 2).
  reflexivity.
Defined.

(** The first [attached] for a slave adds exactly one slave builder for it,
    however the handshake ends. *)
Lemma attached_new_slot (w : World) (slave0 : BuildSlave) (self : Builder) :
  slot_of slave0 (registry self) = None ->
  Forall (fun s => sb_oid s <> new_slavebuilder w) (attaching_slaves self) ->
  exists o self1 t,
    attached w slave0 self = (o, self1, t)
    /\ slots_of slave0 self1
       = [{| sb_oid := new_slavebuilder w; slave := slave0 |}].
Proof.
  intros Hnone Hfresh.
  pose proof (find_none_filter _ _ Hnone) as Hfil.
  unfold registry in Hnone, Hfil.
  rewrite List.filter_app in Hfil. apply app_eq_nil in Hfil as [Ha Hs].
  set (sb := {| sb_oid := new_slavebuilder w; slave := slave0 |}).
  assert (Hsb : slave_is (slave sb) slave0 = true).
  { unfold slave_is. apply bool_decide_eq_true. reflexivity. }
  assert (Hrem : list_remove sb_is sb (attaching_slaves self ++ [sb])
                 = Some (attaching_slaves self)).
  { apply list_remove_fresh.
    - unfold sb_is. apply bool_decide_eq_true. reflexivity.
    - eapply Forall_impl; [exact Hfresh|]. intros y Hy. unfold sb_is.
      apply bool_decide_eq_false. exact Hy. }
  unfold attached, _attached, _not_attached, addPointEvent. run.
  rewrite Hnone. fold sb. run.
  destruct (builder_status self) eqn:Hst; destruct (on_attached w) as [[]|];
    repeat first [progress run | rewrite Hst | rewrite Hrem].
  all: try match goal with |- context [updateBigStatus ?w0 ?S] =>
         destruct (updateBigStatus_run w0 S) as (tu & -> & _) end.
  all: run; do 3 eexists; (split; [reflexivity|]).
  all: unfold slots_of, registry;
       cbn [attaching_slaves set_attaching_slaves slaves set_slaves].
  all: rewrite ?List.filter_app, ?Ha, ?Hs; subst sb; simpl in *;
       rewrite Hsb; reflexivity.
Qed.

(** Scenario 5 of the spec: [attached] twice for the same slave leaves one
    slave builder for it, and one "connect" event in all. *)
Example attached_twice :
  exists self1 self2,
    attached scenario.fair scenario.w2 scenario.compile
    = (Returned fired_self, self1,
       [sb_attached {| sb_oid := 60; slave := scenario.w2 |};
        status_addPointEvent ["connect"; "w2"];
        status_setBigState "idle"])
    /\ attached scenario.fair scenario.w2 self1 = (Returned fired_self, self2, [])
    /\ length (slots_of scenario.w2 self2) = 1.
Proof. do 2 eexists. repeat split. Qed.

(** C9: when no slave builder of [attaching_slaves] or [slaves] refers to
    the slave, [detached] returns without raising, changes no attribute, and
    calls nothing but [log.msg]: no "disconnect" event is emitted. *)
Theorem detached_unknown_slave (w : World) (slave0 : BuildSlave)
    (self : Builder) :
  slot_of slave0 (registry self) = None ->
  detached w slave0 self
  = (Returned tt, self,
     [log_msg "WEIRD: Builder.detached not in attaching_slaves or slaves"]).
Proof.
  intros Hnone. unfold detached. run.
  unfold registry in Hnone. rewrite Hnone. reflexivity.
Qed.

Lemma detached_unknown_slave_witness :
  slot_of scenario.w2 (registry scenario.compile) = None
  /\ detached scenario.fair scenario.w2 scenario.compile
     = (Returned tt, scenario.compile,
        [log_msg "WEIRD: Builder.detached not in attaching_slaves or slaves"]).
Proof.
  split; [reflexivity|].
  apply (detached_unknown_slave scenario.fair scenario.w2 scenario.compile).
  reflexivity.
Defined.

(** Scenario 6 of the spec: a slave that detaches is dropped from [slaves]
    and a "disconnect" event is emitted; no build is touched. *)
Example detached_attached_slave :
  detached scenario.fair scenario.w1 scenario.compile_building
  = (Returned tt, set_slaves [] scenario.compile_building,
     [status_addPointEvent ["disconnect"; "w1"];
      sb_detached scenario.slot1;
      status_setBigState "offline"]).
Proof. reflexivity. Qed.

(** *** [getBuilderId] *)

Lemma getBuilderId_run (w : World) (self : Builder) :
  getBuilderId w self =
  match _builderid self with
  | Some (S n) => (Returned (S n), self, [])
  | _ =>
      match on_findBuilderId w (name self) with
      | Ok builderid =>
          (Returned builderid, set__builderid (Some builderid) self,
           [data_findBuilderId (name self)])
      | Failed =>
          (Raised "findBuilderId", self, [data_findBuilderId (name self)])
      end
  end.
Proof.
  unfold getBuilderId. run.
  destruct (_builderid self) as [[|n]|];
    try reflexivity; destruct (on_findBuilderId w (name self)); reflexivity.
Qed.

(** *** [reclaimAllBuilds] *)

Lemma elem_of_request_ids (x : nat) (reqs : list BuildRequest) :
  x ∈ map br_id reqs <-> exists br, br ∈ reqs /\ br_id br = x.
Proof.
  rewrite list_elem_of_In, in_map_iff. split.
  - intros (br & Hid & Hbr). exists br. rewrite list_elem_of_In. tauto.
  - intros (br & Hbr & Hid). exists br. rewrite <- list_elem_of_In. tauto.
Qed.

Lemma foldl_update_brids (bs : list Build) (acc : gset nat) (x : nat) :
  x ∈ foldl update_brids acc bs
  <-> x ∈ acc \/ exists b br, b ∈ bs /\ br ∈ requests b /\ br_id br = x.
Proof.
  revert acc. induction bs as [|b bs IH]; intros acc; simpl.
  - split; [tauto|]. intros [H|(b & br & Hb & _)]; [exact H|inversion Hb].
  - rewrite IH. unfold update_brids.
    rewrite elem_of_union, elem_of_list_to_set, elem_of_request_ids.
    split.
    + intros [[H|(br & Hbr & Hid)]|(b' & br & Hb' & Hbr & Hid)].
      * left. exact H.
      * right. exists b, br. split; [apply list_elem_of_here|]. tauto.
      * right. exists b', br. split; [apply list_elem_of_further, Hb'|]. tauto.
    + intros [H|(b' & br & Hb' & Hbr & Hid)].
      * left. left. exact H.
      * apply elem_of_cons in Hb' as [->|Hb'].
        -- left. right. exists br. tauto.
        -- right. exists b', br. tauto.
Qed.

(** The periodic reclaim never raises and changes no attribute; when it
    calls [reclaimBuildRequests], it is with exactly the ids of the requests
    of the builds in [building] and [old_building]. *)
Lemma reclaimAllBuilds_run (w : World) (self : Builder) :
  exists t,
    reclaimAllBuilds w self = (Returned tt, self, t)
    /\ forall brids, db_reclaimBuildRequests brids ∈ t ->
       forall x, x ∈ brids <->
         exists b br, b ∈ building self ++ old_building self
                      /\ br ∈ requests b /\ br_id br = x.
Proof.
  unfold reclaimAllBuilds. run. case_bool_decide as Hempty.
  - eexists. split; [reflexivity|]. intros brids Hin. inversion Hin.
  - assert (Hids : forall brids,
      db_reclaimBuildRequests brids
        ∈ [db_reclaimBuildRequests
             (foldl update_brids (foldl update_brids ∅ (building self))
                (old_building self))] ->
      forall x, x ∈ brids <->
        exists b br, b ∈ building self ++ old_building self
                     /\ br ∈ requests b /\ br_id br = x).
    { intros brids Hin x. apply list_elem_of_singleton in Hin.
      injection Hin as ->. rewrite !foldl_update_brids.
      split.
      - intros [[H|(b & br & Hb & Hr)]|(b & br & Hb & Hr)].
        + inversion H.
        + exists b, br. rewrite elem_of_app. tauto.
        + exists b, br. rewrite elem_of_app. tauto.
      - intros (b & br & Hb & Hr). apply elem_of_app in Hb as [Hb|Hb].
        + left. right. exists b, br. tauto.
        + right. exists b, br. tauto. }
    destruct (on_reclaimBuildRequests w) as [[]|]; run;
      eexists; (split; [reflexivity|]); intros brids Hin;
      apply Hids; [exact Hin|].
    apply elem_of_cons in Hin as [Hin|Hin]; [rewrite Hin; apply list_elem_of_here|].
    apply list_elem_of_singleton in Hin. discriminate Hin.
Qed.

(** *** [reconfigService] *)

(** C6 (as amended): when the new configuration has an entry for the
    builder and the builder id resolves, [reconfigService] returns; after
    it, [slaves] holds exactly the slave builders it held before whose slave
    name is in the entry's [slavenames], in the same order, and
    [attaching_slaves] is as it was: a slave builder that is still attaching
    is kept whatever its slave's name. *)
Theorem reconfigService_prunes_slaves (w : World) (new_config : MasterConfig)
    (self : Builder) (builder_config : BuilderConfig) (builderid : nat) :
  find_config (name self) (builders new_config) = Some builder_config ->
  resolved_builderid w self = Some builderid ->
  exists self' t,
    reconfigService w new_config self = (Returned tt, self', t)
    /\ slaves self'
       = filter (fun s => slavename (slave s) ∈ slavenames builder_config)
           (slaves self)
    /\ (forall s, s ∈ slaves self' <->
                  s ∈ slaves self
                  /\ slavename (slave s) ∈ slavenames builder_config)
    /\ attaching_slaves self' = attaching_slaves self.
Proof.
  intros Hcfg Hid. unfold reconfigService. run. rewrite Hcfg.
  unfold resolved_builderid in Hid.
  destruct (builder_status self); run; rewrite getBuilderId_run; run.
  all: destruct (_builderid self) as [[|n]|];
       try destruct (on_findBuilderId w (name self)); try discriminate; run.
  all: do 2 eexists; split; [reflexivity|]; run.
  all: split; [reflexivity|]; split; [|reflexivity].
  all: intros sb0; rewrite list_elem_of_filter; tauto.
Qed.

Lemma reconfigService_prunes_slaves_witness :
  exists self' t,
    reconfigService scenario.fair scenario.new_config scenario.compile_three
    = (Returned tt, self', t)
    /\ slaves scenario.compile_three = [scenario.slot1; scenario.slot3]
    /\ slavenames scenario.compile_config = ["w1"]
    /\ slaves self' = [scenario.slot1]
    /\ slaves self'
       = filter (fun s => slavename (slave s) ∈ slavenames scenario.compile_config)
           (slaves scenario.compile_three)
    /\ (forall s, s ∈ slaves self' <->
                  s ∈ slaves scenario.compile_three
                  /\ slavename (slave s) ∈ slavenames scenario.compile_config)
    /\ attaching_slaves self' = attaching_slaves scenario.compile_three.
Proof.
  destruct (reconfigService_prunes_slaves scenario.fair scenario.new_config
              scenario.compile_three scenario.compile_config 3
              eq_refl eq_refl)
    as (self' & t & Hrun & Hslaves & Hall & Hatt).
  exists self', t. split; [exact Hrun|]. split; [reflexivity|].
  split; [reflexivity|]. split; [rewrite Hslaves; reflexivity|].
  split; [exact Hslaves|]. split; [exact Hall|exact Hatt].
Defined.

(** C6 as stated fails: "w2" is not in the new list of slave names, and its
    slave builder, which is attaching, is still held after the reconfig. *)
Lemma reconfigService_keeps_attaching :
  exists self' t,
    reconfigService scenario.fair scenario.new_config scenario.compile_two
    = (Returned tt, self', t)
    /\ slavenames scenario.compile_config = ["w1"]
    /\ (slavename (slave scenario.slot2) ∉ slavenames scenario.compile_config)
    /\ scenario.slot2 ∈ attaching_slaves self'
    /\ scenario.slot2 ∈ registry self'.
Proof.
  do 2 eexists. split; [reflexivity|]. split; [reflexivity|].
  split; [|split].
  - intros H. apply list_elem_of_In in H. simpl in H.
    destruct H as [H|[]]. discriminate H.
  - apply list_elem_of_here.
  - apply list_elem_of_here.
Qed.

(** *** Reading the trace of a run *)

Lemma bookkeeping_quiet (t : list event) :
  Forall (fun e => is_bookkeeping e = true) t ->
  registered t = [] /\ unwound t = [] /\ store_calls t = []
  /\ claim_calls t = [] /\ addBuild_calls t = [] /\ worker_calls t = []
  /\ completion_calls t = [].
Proof.
  induction 1 as [|e t He _ IH]; [repeat split|].
  destruct IH as (?&?&?&?&?&?&?).
  destruct e; try discriminate He; repeat split; simpl; assumption.
Qed.

Lemma cleanup_events_quiet (t : list event) :
  Forall (fun e => is_cleanup_event e = true) t ->
  registered t = [] /\ store_calls t = []
  /\ claim_calls t = [] /\ addBuild_calls t = [] /\ worker_calls t = [].
Proof.
  induction 1 as [|e t He _ IH]; [repeat split|].
  destruct IH as (?&?&?&?&?).
  destruct e; try discriminate He; repeat split; simpl; assumption.
Qed.

Lemma status_is_bookkeeping (t : list event) :
  Forall (fun e => is_status_event e = true) t ->
  Forall (fun e => is_bookkeeping e = true) t.
Proof.
  intros H. eapply Forall_impl; [exact H|].
  intros [] He; try discriminate He; reflexivity.
Qed.

Lemma status_is_cleanup (t : list event) :
  Forall (fun e => is_status_event e = true) t ->
  Forall (fun e => is_cleanup_event e = true) t.
Proof.
  intros H. eapply Forall_impl; [exact H|].
  intros [] He; try discriminate He; reflexivity.
Qed.

Ltac hush :=
  repeat match goal with
  | H : Forall (fun e => is_status_event e = true) _ |- _ =>
      apply status_is_bookkeeping in H
  | H : Forall (fun e => is_bookkeeping e = true) _ |- _ =>
      apply bookkeeping_quiet in H; destruct H as (?&?&?&?&?&?&?)
  | H : Forall (fun e => is_cleanup_event e = true) _ |- _ =>
      apply cleanup_events_quiet in H; destruct H as (?&?&?&?&?)
  end.

Ltac read_trace :=
  unfold registered, unwound, store_calls, claim_calls, addBuild_calls,
    worker_calls, completion_calls in *;
  repeat first
    [ rewrite app_nil_r
    | rewrite omap_app
    | rewrite List.filter_app
    | progress cbn [omap list_omap List.filter is_store_call is_claim_call
                    is_addBuild is_worker_call is_completion_call app]
    | match goal with H : ?l = [] |- context [?l] => rewrite H end ].

(** *** [getBuilderId], twice *)

Lemma set__builderid_id (self : Builder) :
  set__builderid (_builderid self) self = self.
Proof. destruct self; reflexivity. Qed.

Lemma getBuilderId_cases (w : World) (self : Builder) :
  (exists b i t,
      getBuilderId w self = (Returned b, set__builderid i self, t)
      /\ resolved_builderid w self = Some b
      /\ resolved_builderid w (set__builderid i self) = Some b
      /\ Forall (fun e => is_bookkeeping e = true) t)
  \/ (exists t,
        getBuilderId w self = (Raised "findBuilderId", self, t)
        /\ Forall (fun e => is_bookkeeping e = true) t).
Proof.
  rewrite getBuilderId_run. unfold resolved_builderid.
  destruct (_builderid self) as [[|n]|] eqn:Hc.
  2:{ left. exists (S n), (Some (S n)), []. rewrite <- Hc, set__builderid_id, Hc.
      repeat split; constructor. }
  all: destruct (on_findBuilderId w (name self)) as [b|] eqn:Hf;
    [left; exists b, (Some b), [data_findBuilderId (name self)]
    |right; eexists; split; [reflexivity|repeat constructor]].
  all: cbn [_builderid set__builderid name]; rewrite Hf;
       repeat split; try (repeat constructor); destruct b; reflexivity.
Qed.

(** *** [run_cleanups] *)

Lemma run_cleanup_run (w : World) (fn : cleanup) (S : Builder) :
  exists o S' t,
    run_cleanup w fn S = (o, S', t)
    /\ same_registry S' S
    /\ Forall (fun e => is_cleanup_event e = true) t.
Proof.
  destruct fn as [|s|b|sb]; cbn [run_cleanup]; run.
  - destruct (updateBigStatus_run w S) as (tu & -> & Hbk & _).
    do 3 eexists. split; [reflexivity|]. split; [repeat split|].
    exact (status_is_cleanup _ Hbk).
  - destruct (on_releaseLocks w) as [[]|]; do 3 eexists;
      (split; [reflexivity|]); (split; [repeat split|repeat constructor]).
  - destruct (list_remove build_is b (building S)); run; do 3 eexists;
      (split; [reflexivity|]); (split; [repeat split|repeat constructor]).
  - destruct (on_buildFinished w) as [[]|]; do 3 eexists;
      (split; [reflexivity|]); (split; [repeat split|repeat constructor]).
Qed.

Lemma same_registry_trans (a b c : Builder) :
  same_registry a b -> same_registry b c -> same_registry a c.
Proof. unfold same_registry. intros (?&?&?) (?&?&?). repeat split; congruence. Qed.

Lemma pop_all_run (w : World) (l : list cleanup) :
  forall S, exists o S' t,
    pop_all w l S = (o, S', t)
    /\ same_registry S' S
    /\ Forall (fun e => is_cleanup_event e = true) t.
Proof.
  induction l as [|fn l IH]; intros S.
  - do 3 eexists. split; [reflexivity|]. split; [repeat split|constructor].
  - cbn [pop_all]. run.
    destruct (run_cleanup_run w fn S) as (o1 & S1 & t1 & -> & Hr1 & Ht1).
    destruct o1 as [[]|e].
    + destruct (IH S1) as (o2 & S2 & t2 & Hrun & Hr2 & Ht2).
      run_monad_in Hrun. rewrite Hrun.
      do 3 eexists. split; [reflexivity|].
      split; [exact (same_registry_trans _ _ _ Hr2 Hr1)|].
      constructor; [reflexivity|]. apply Forall_app. split; assumption.
    + do 3 eexists. split; [reflexivity|]. split; [exact Hr1|].
      constructor; [reflexivity|exact Ht1].
Qed.

Lemma run_cleanups_run (w : World) (cleanups : list cleanup) (S : Builder) :
  exists S' t,
    run_cleanups w cleanups S = (Returned tt, S', t)
    /\ same_registry S' S
    /\ Forall (fun e => is_cleanup_event e = true) t.
Proof.
  unfold run_cleanups. run.
  destruct (pop_all_run w (rev cleanups) S) as (o & S' & t & -> & Hr & Ht).
  destruct o as [[]|e]; do 2 eexists; (split; [reflexivity|]);
    (split; [exact Hr|]); [exact Ht|].
  apply Forall_app. split; [exact Ht|repeat constructor].
Qed.

Ltac step :=
  match goal with
  | |- context [getBuilderId ?w ?S] =>
      destruct (getBuilderId_cases w S)
        as [(?b & ?i & ?t & -> & ? & ? & ?)|(?t & -> & ?)]
  | |- context [updateBigStatus ?w ?S] =>
      destruct (updateBigStatus_run w S) as (?tu & -> & ? & _)
  | |- context [run_cleanups ?w ?c ?S] =>
      let H := fresh "Hclean" in
      destruct (run_cleanups_run w c S) as (?self2 & ?tc & H & ? & ?);
      rewrite H
  | |- context [match ?x with _ => _ end] =>
      lazymatch x with
      | context [match _ with _ => _ end] => fail
      | _ => destruct x eqn:?
      end
  end; run.

(** When no closure raises, the stack is unwound from its top and the build
    is taken out of [building] again. *)
Lemma run_cleanups_unwinds (w : World) (s : BuildSlave) (b : Build)
    (finish : list cleanup) (bl : list Build) (S : Builder) :
  on_releaseLocks w = Ok tt ->
  on_buildFinished w = Ok tt ->
  building S = bl ++ [b] ->
  Forall (fun y => build_oid y <> build_oid b) bl ->
  (finish = [] \/ exists sb, finish = [undo_buildFinished sb]) ->
  let cleanups :=
    [undo_updateBigStatus; undo_releaseLocks s; undo_building_remove b]
    ++ finish in
  exists t,
    run_cleanups w cleanups S = (Returned tt, set_building bl S, t)
    /\ unwound t = rev cleanups.
Proof.
  intros Hrel Hfin Hb Hnew Hshape cleanups.
  assert (Hrem : list_remove build_is b (bl ++ [b]) = Some bl).
  { apply list_remove_fresh.
    - unfold build_is. apply bool_decide_eq_true. reflexivity.
    - eapply Forall_impl; [exact Hnew|]. intros y Hy. unfold build_is.
      apply bool_decide_eq_false. exact Hy. }
  subst cleanups. unfold run_cleanups.
  destruct Hshape as [->|[sb ->]]; cbn [rev app pop_all run_cleanup]; run.
  all: rewrite ?Hfin, Hb, Hrem, Hrel; run.
  all: match goal with |- context [updateBigStatus ?w0 ?S0] =>
         destruct (updateBigStatus_run w0 S0) as (tu & -> & Hbk & _) end; run.
  all: eexists; (split; [reflexivity|]).
  all: hush; read_trace; reflexivity.
Qed.

(** *** [_startBuildFor] and [maybeStartBuild] *)

(** Every way [_startBuildFor] can end. *)
Lemma _startBuildFor_cases (w : World) (sb : SlaveBuilder)
    (R : list BuildRequest) (self : Builder) :
  forall o self' t,
  _startBuildFor w sb R self = (o, self', t) ->
  same_registry self' self
  /\ claim_calls t = []
  /\ (o = Returned true ->
      exists req builderid row oid,
        last R = Some req
        /\ resolved_builderid w self = Some builderid
        /\ on_newBuild w = Ok oid
        /\ addBuild_calls t =
             [db_addBuild builderid (br_id req) (buildslaveid (slave sb))
                (masterid w) ["created"] (Ok row)]
        /\ building self' = building self ++ [newBuild oid R])
  /\ (o = Returned false ->
      on_releaseLocks w = Ok tt -> on_buildFinished w = Ok tt ->
      new_build_is_new w self ->
      building self' = building self /\ unwound t = rev (registered t))
  /\ (R = [] -> o <> Returned true /\ addBuild_calls t = []).
Proof.
  unfold _startBuildFor, append. run.
  repeat step.
  all: intros oo ss tt0 [= <- <- <-].
  all: split; [unfold same_registry in *; cbn; intuition congruence|].
  all: split; [hush; read_trace; reflexivity|].
  all: split; [try solve [intros [=]]|].
  all: try match goal with
       | Hl : last _ = Some ?req, Ha : on_addBuild _ = Ok ?row,
         Hn : on_newBuild _ = Ok ?oid
         |- Returned true = Returned true -> _ =>
           intros _;
           match goal with |- context [db_addBuild ?bid _ _ _ _ _] =>
             exists req, bid, row, oid end;
           cbn [requests newBuild] in *;
           (split; [assumption|]); (split; [congruence|]);
           (split; [reflexivity|]); (split; [|reflexivity]);
           hush; read_trace; reflexivity
       end.
  all: split.
  all: try match goal with |- _ = [] -> _ =>
         intros HR; subst R; cbn [requests newBuild last] in *;
         try discriminate; (split; [discriminate|]);
         hush; read_trace; reflexivity end.
  all: try solve [intros [=]].
  all: intros _ Hrel Hfin Hnew.
  all: match goal with
       | Heqa : on_newBuild _ = Ok ?a |- _ => pose proof (Hnew a Heqa) as Hfresh
       end.
  all: match goal with
       | Hc : run_cleanups ?w0 [undo_updateBigStatus; undo_releaseLocks ?s;
                                undo_building_remove ?b] ?S = _ |- _ =>
           destruct (run_cleanups_unwinds w0 s b [] (building self) S
                       Hrel Hfin eq_refl Hfresh (or_introl eq_refl))
             as (tc' & Hrun' & Hunw)
       | Hc : run_cleanups ?w0 [undo_updateBigStatus; undo_releaseLocks ?s;
                                undo_building_remove ?b;
                                undo_buildFinished ?sb0] ?S = _ |- _ =>
           destruct (run_cleanups_unwinds w0 s b [undo_buildFinished sb0]
                       (building self) S
                       Hrel Hfin eq_refl Hfresh
                       (or_intror (ex_intro _ sb0 eq_refl)))
             as (tc' & Hrun' & Hunw)
       end.
  all: cbn [app] in Hrun'; rewrite Hrun' in Hclean;
       injection Hclean as <- <-.
  all: split; [reflexivity|].
  all: cbn [app rev] in Hunw; hush; read_trace; rewrite Hunw; reflexivity.
Qed.

(** When prepare, ping and remoteStartBuild all succeed and the start still
    fails, all three were called: the failure came later, at the build row
    or at the last look at the connection. *)
Lemma _startBuildFor_false_after_slave (w : World) (sb : SlaveBuilder)
    (R : list BuildRequest) (self self' : Builder) (t : list event) :
  on_prepare w = Ok true ->
  on_ping w = Ok true ->
  on_remoteStartBuild w = Ok tt ->
  _startBuildFor w sb R self = (Returned false, self', t) ->
  exists oid,
    on_newBuild w = Ok oid
    /\ worker_calls t =
       [sb_prepare sb (newBuild oid R); sb_ping sb;
        conn_remoteStartBuild (slave sb) (name self)].
Proof.
  intros Hp Hpi Hr. unfold _startBuildFor, append. run.
  repeat step.
  all: try solve [intros [=]].
  all: repeat match goal with
       | H : negb ?a = _ |- _ =>
           destruct a; cbn in H; try discriminate H; clear H
       end.
  all: try congruence.
  all: intros [= <- <-]; eexists; (split; [reflexivity|]).
  all: hush; read_trace; reflexivity.
Qed.

(** The gate of [maybeStartBuild]: a builder that is not running starts
    nothing. *)
Lemma maybeStartBuild_not_running (w : World) (sb : SlaveBuilder)
    (R : list BuildRequest) (self : Builder) :
  running self = false ->
  maybeStartBuild w sb R self = (Returned false, self, []).
Proof. intros Hr. unfold maybeStartBuild. run. rewrite Hr. reflexivity. Qed.

Lemma maybeStartBuild_running (w : World) (sb : SlaveBuilder)
    (R : list BuildRequest) (self : Builder) :
  running self = true ->
  maybeStartBuild w sb R self = _startBuildFor w sb R self.
Proof.
  intros Hr. unfold maybeStartBuild. run. rewrite Hr. run.
  destruct (_startBuildFor w sb R self) as [[[a|e] self1] t1];
    rewrite ?app_nil_r; reflexivity.
Qed.







(** Why the proviso: [run_cleanups] has one [try] around its loop, so a
    closure that raises ends the unwinding.  Here the first closure popped
    raises, the build stays in [building], and the call returns [False]. *)
Example maybeStartBuild_false_cleanup_raises :
  exists self' t,
    maybeStartBuild scenario.stuck scenario.slot1 [scenario.req42]
      scenario.compile = (Returned false, self', t)
    /\ building self' = [newBuild 50 [scenario.req42]]
    /\ unwound t = [undo_buildFinished scenario.slot1]
    /\ log_err "while running run_cleanups" ∈ t.
Proof.
  do 2 eexists. split; [reflexivity|]. split; [reflexivity|].
  split; [reflexivity|]. apply list_elem_of_In. vm_compute. tauto.
Qed.

(** Why the other proviso: [building.remove(build)] takes out the first
    item that is the Build.  When the factory hands out a Build that is in
    [building] already, the call appends it a second time and the unwinding
    removes its first occurrence: the call returns [False], no closure
    raises, and [building] comes back in another order. *)
Example maybeStartBuild_false_reorders_building :
  exists self' t,
    maybeStartBuild scenario.not_ready scenario.slot1
      [scenario.req10; scenario.req11] scenario.compile_two_builds
    = (Returned false, self', t)
    /\ building scenario.compile_two_builds
       = [scenario.build_10_11; scenario.build_51]
    /\ building self' = [scenario.build_51; scenario.build_10_11].
Proof. do 2 eexists. repeat split. Qed.

(** C4 (as amended): with an empty request list [maybeStartBuild] never
    returns [True] and never calls [addBuild].  It is stopped at the gate,
    returning [False] with nothing done, when the builder is not running.
    The gate does not look at the list: on a running builder whose slave
    prepares, answers the ping and accepts the build, a call that returns
    [False] has made all three calls to the slave. *)
Theorem maybeStartBuild_empty_requests (w : World) (sb : SlaveBuilder)
    (self self' : Builder) (o : outcome bool) (t : list event) :
  maybeStartBuild w sb [] self = (o, self', t) ->
  o <> Returned true
  /\ addBuild_calls t = []
  /\ (running self = false -> o = Returned false /\ self' = self /\ t = [])
  /\ (running self = true ->
      on_prepare w = Ok true -> on_ping w = Ok true ->
      on_remoteStartBuild w = Ok tt ->
      o = Returned false ->
      exists oid,
        on_newBuild w = Ok oid
        /\ worker_calls t =
           [sb_prepare sb (newBuild oid []); sb_ping sb;
            conn_remoteStartBuild (slave sb) (name self)]).
Proof.
  intros Hrun. destruct (running self) eqn:Hr.
  - rewrite (maybeStartBuild_running _ _ _ _ Hr) in Hrun.
    destruct (_startBuildFor_cases w sb [] self _ _ _ Hrun)
      as (_ & _ & _ & _ & Hempty).
    destruct (Hempty eq_refl) as (Ho & Hadd).
    split; [exact Ho|]. split; [exact Hadd|]. split; [discriminate|].
    intros _ Hp Hpi Hrem ->.
    exact (_startBuildFor_false_after_slave _ _ _ _ _ _ Hp Hpi Hrem Hrun).
  - rewrite (maybeStartBuild_not_running _ _ _ _ Hr) in Hrun.
    injection Hrun as <- <- <-. split; [discriminate|].
    split; [reflexivity|]. split; [repeat split|]. discriminate.
Qed.

Lemma maybeStartBuild_empty_requests_witness :
  exists o self' t,
    maybeStartBuild scenario.fair scenario.slot1 [] scenario.compile
    = (o, self', t)
    /\ o <> Returned true
    /\ addBuild_calls t = []
    /\ (running scenario.compile = false ->
        o = Returned false /\ self' = scenario.compile /\ t = [])
    /\ (running scenario.compile = true ->
        on_prepare scenario.fair = Ok true -> on_ping scenario.fair = Ok true ->
        on_remoteStartBuild scenario.fair = Ok tt ->
        o = Returned false ->
        exists oid,
          on_newBuild scenario.fair = Ok oid
          /\ worker_calls t =
             [sb_prepare scenario.slot1 (newBuild oid []);
              sb_ping scenario.slot1;
              conn_remoteStartBuild (slave scenario.slot1)
                (name scenario.compile)]).
Proof.
  do 3 eexists. split; [reflexivity|].
  eapply (maybeStartBuild_empty_requests scenario.fair scenario.slot1
            scenario.compile).
  reflexivity.
Defined.

(** C4 as stated fails: the builder is running and every collaborator
    answers.  The empty list passes the gate; the slave is prepared, pinged
    and told to start the build, and the call returns [False] only when
    reading the last request fails. *)
Lemma maybeStartBuild_empty_reaches_slave :
  exists self' t,
    maybeStartBuild scenario.fair scenario.slot1 [] scenario.compile
    = (Returned false, self', t)
    /\ worker_calls t =
       [sb_prepare scenario.slot1 (newBuild 50 []);
        sb_ping scenario.slot1;
        conn_remoteStartBuild scenario.w1 "compile"]
    /\ log_err "while adding rows to build table:" ∈ t.
Proof.
  do 2 eexists. split; [reflexivity|]. split; [reflexivity|].
  apply list_elem_of_In. vm_compute. tauto.
Qed.

(** When the factory refuses the list, the call raises: nothing catches an
    exception of [newBuild]. *)
Example maybeStartBuild_empty_factory_raises :
  exists self' t,
    maybeStartBuild scenario.no_build scenario.slot1 [] scenario.compile
    = (Raised "newBuild", self', t)
    /\ worker_calls t = [] /\ addBuild_calls t = [].
Proof. do 2 eexists. repeat split. Qed.

(** C5: when [maybeStartBuild] returns [True], the request list has a last
    request, and [addBuild] was called exactly once, with the resolved
    builder id, the id of that last request, the slave's id, the master's
    id and the state strings ['created']; the store answered with a row. *)
Theorem maybeStartBuild_records_last_request (w : World) (sb : SlaveBuilder)
    (R : list BuildRequest) (self self' : Builder) (t : list event) :
  maybeStartBuild w sb R self = (Returned true, self', t) ->
  exists req builderid row,
    last R = Some req
    /\ resolved_builderid w self = Some builderid
    /\ addBuild_calls t =
         [db_addBuild builderid (br_id req) (buildslaveid (slave sb))
            (masterid w) ["created"] (Ok row)].
Proof.
  intros Hrun. destruct (running self) eqn:Hr.
  - rewrite (maybeStartBuild_running _ _ _ _ Hr) in Hrun.
    destruct (_startBuildFor_cases w sb R self _ _ _ Hrun)
      as (_ & _ & Htrue & _).
    destruct (Htrue eq_refl) as (req & builderid & row & oid & Hl & Hid & _ & Hadd & _).
    exists req, builderid, row. repeat split; assumption.
  - rewrite (maybeStartBuild_not_running _ _ _ _ Hr) in Hrun. discriminate.
Qed.

Lemma maybeStartBuild_records_last_request_witness :
  exists self' t,
    maybeStartBuild scenario.fair scenario.slot1
      [scenario.req10; scenario.req11] scenario.compile
    = (Returned true, self', t)
    /\ exists req builderid row,
         last [scenario.req10; scenario.req11] = Some req
         /\ resolved_builderid scenario.fair scenario.compile = Some builderid
         /\ addBuild_calls t =
              [db_addBuild builderid (br_id req)
                 (buildslaveid (slave scenario.slot1))
                 (masterid scenario.fair) ["created"] (Ok row)].
Proof.
  do 2 eexists. split; [reflexivity|].
  eapply (maybeStartBuild_records_last_request scenario.fair scenario.slot1
            [scenario.req10; scenario.req11] scenario.compile).
  reflexivity.
Defined.

(** Scenario 1 of the spec, the start: the build of request 42 is handed
    off and its row is keyed by request 42. *)
Example maybeStartBuild_happy_path :
  exists self' t,
    maybeStartBuild scenario.fair scenario.slot1 [scenario.req42]
      scenario.compile = (Returned true, self', t)
    /\ building self' = [newBuild 50 [scenario.req42]]
    /\ addBuild_calls t = [db_addBuild 3 42 11 9 ["created"] (Ok (100, 1))].
Proof. do 2 eexists. repeat split. Qed.

(** *** [buildFinished] *)

Lemma send_messages_run (w : World) (builderid : nat)
    (results complete_at_epoch : Z) (reqs : list BuildRequest)
    (self : Builder) :
  (forall key, on_produce w key = Ok tt) ->
  send_messages w builderid results complete_at_epoch reqs self
  = (Returned tt, self,
     map (fun br => mq_produce (complete_key br builderid)
                      (complete_msg br builderid results complete_at_epoch)) reqs).
Proof.
  intros Hok. induction reqs as [|br reqs IH]; [reflexivity|].
  cbn [send_messages map]. run. rewrite Hok. run. rewrite IH. reflexivity.
Qed.

(** The messages in any world: a [produce] that raises leaves the messages
    of the requests before it, and its own. *)
Lemma send_messages_any (w : World) (builderid : nat)
    (results complete_at_epoch : Z) (reqs : list BuildRequest)
    (self : Builder) :
  exists o msgs,
    send_messages w builderid results complete_at_epoch reqs self
    = (o, self, msgs)
    /\ msgs `prefix_of`
         map (fun br => mq_produce (complete_key br builderid)
                (complete_msg br builderid results complete_at_epoch)) reqs
    /\ (o = Returned tt ->
        msgs = map (fun br => mq_produce (complete_key br builderid)
                      (complete_msg br builderid results complete_at_epoch))
                 reqs).
Proof.
  induction reqs as [|br reqs IH].
  - exists (Returned tt), []. split; [reflexivity|].
    split; [apply prefix_nil|reflexivity].
  - cbn [send_messages map]. run.
    destruct (on_produce w (complete_key br builderid)) as [[]|]; run.
    + destruct IH as (o & msgs & Hrun & Hpre & Hall).
      run_monad_in Hrun. rewrite Hrun.
      eexists _, _. split; [reflexivity|]. split.
      * apply prefix_cons. exact Hpre.
      * intros Ho. rewrite (Hall Ho). reflexivity.
    + eexists _, _. split; [reflexivity|]. split.
      * apply prefix_cons. apply prefix_nil.
      * discriminate.
Qed.

Lemma check_buildsets_run (w : World) (reqs : list BuildRequest) :
  (forall b, on_maybeBuildsetComplete w b = Ok tt) ->
  forall (seen : gset nat) (self : Builder),
  exists bsids,
    check_buildsets w seen reqs self
    = (Returned tt, self, map data_maybeBuildsetComplete bsids)
    /\ NoDup bsids
    /\ (forall b, b ∈ bsids <-> b ∈ map br_bsid reqs /\ b ∉ seen).
Proof.
  intros Hok. induction reqs as [|br reqs IH]; intros seen self.
  - exists []. split; [reflexivity|]. split; [constructor|].
    intros b. simpl. rewrite elem_of_nil. tauto.
  - cbn [check_buildsets map]. case_bool_decide as Hseen.
    + destruct (IH seen self) as (bsids & Hrun & Hnd & Hin).
      exists bsids. split; [exact Hrun|]. split; [exact Hnd|].
      intros b. rewrite Hin, elem_of_cons. split; [tauto|].
      intros [[->|Hb] Hn]; [contradiction|tauto].
    + destruct (IH ({[br_bsid br]} ∪ seen) self) as (bsids & Hrun & Hnd & Hin).
      exists (br_bsid br :: bsids). run. rewrite Hok. run_monad_in Hrun.
      rewrite Hrun. split; [reflexivity|]. split.
      * apply NoDup_cons. split; [|exact Hnd].
        rewrite Hin, elem_of_union, elem_of_singleton. tauto.
      * intros b. rewrite !elem_of_cons, Hin, elem_of_union, elem_of_singleton.
        destruct (decide (b = br_bsid br)) as [->|Hne]; tauto.
Qed.

Lemma filter_all_completion (t : list event) :
  Forall (fun e => is_completion_call e = true) t ->
  List.filter is_completion_call t = t.
Proof.
  induction 1 as [|e t He _ IH]; simpl; [reflexivity|].
  rewrite He, IH. reflexivity.
Qed.

Lemma messages_are_completion_calls (builderid : nat) (results at_epoch : Z)
    (reqs : list BuildRequest) :
  Forall (fun e => is_completion_call e = true)
    (map (fun br => mq_produce (complete_key br builderid)
                      (complete_msg br builderid results at_epoch)) reqs).
Proof. induction reqs; simpl; constructor; auto. Qed.


Lemma checks_are_completion_calls (bsids : list nat) :
  Forall (fun e => is_completion_call e = true)
    (map data_maybeBuildsetComplete bsids).
Proof. induction bsids; simpl; constructor; auto. Qed.

(** C2: when a build in [building] finishes with results other than RETRY,
    and the build table, the request table, the registry of builders, the
    message queue and the buildset checks answer, the completion handler
    calls [completeBuildRequests] with the ids of all the requests of the
    build, then produces for each request, in order, one message with
    routing key
    ('buildrequest', str(bsid), str(builderid), str(brid), 'complete') and
    body {brid, bsid, buildername, builderid, complete_at, results}, and only
    then calls [maybeBuildsetComplete], once for each distinct bsid of the
    requests; it makes no other such call. *)
Theorem buildFinished_completes (RETRY : Z) (w : World) (build : Build)
    (results : Z) (sb_slave : option BuildSlave) (bid : nat) (bids : list nat)
    (self : Builder) (bl' : list Build) (builderid : nat) :
  results <> RETRY ->
  list_remove build_is build (building self) = Some bl' ->
  on_finishBuild w = Ok tt ->
  on_completeBuildRequests w = Ok tt ->
  resolved_builderid w self = Some builderid ->
  (forall key, on_produce w key = Ok tt) ->
  (forall b, on_maybeBuildsetComplete w b = Ok tt) ->
  exists o self' t bsids,
    buildFinished RETRY w build results sb_slave (bid :: bids) self = (o, self', t)
    /\ completion_calls t =
       [db_completeBuildRequests (map br_id (requests build)) results (seconds w)]
       ++ map (fun br =>
                 mq_produce
                   ["buildrequest";
                    py_str (VInt (Z.of_nat (br_bsid br)));
                    py_str (VInt (Z.of_nat builderid));
                    py_str (VInt (Z.of_nat (br_id br)));
                    "complete"]
                   (<["brid" := VInt (Z.of_nat (br_id br))]>
                    (<["bsid" := VInt (Z.of_nat (br_bsid br))]>
                    (<["buildername" := VStr (br_buildername br)]>
                    (<["builderid" := VInt (Z.of_nat builderid)]>
                    (<["complete_at" := VInt (seconds w)]>
                    (<["results" := VInt results]> ∅)))))))
            (requests build)
       ++ map data_maybeBuildsetComplete bsids
    /\ NoDup bsids
    /\ (forall b, b ∈ bsids <-> b ∈ map br_bsid (requests build)).
Proof.
  intros Hres Hrem Hfin Hdb Hid Hprod Hsets.
  unfold buildFinished, _notify_completions. run.
  rewrite Hfin; run.
  rewrite Hrem; run; rewrite (bool_decide_eq_false_2 _ Hres); run.
  rewrite Hdb; run.
  rewrite getBuilderId_run; run; unfold resolved_builderid in Hid.
  destruct (_builderid self) as [[|n]|];
    try destruct (on_findBuilderId w (name self)); inversion Hid; subst; run.
  all: rewrite (send_messages_run _ _ _ _ _ _ Hprod); run.
  all: match goal with |- context [check_buildsets ?w0 ?seen ?reqs ?S] =>
         destruct (check_buildsets_run w0 reqs Hsets seen S)
           as (bsids & -> & Hnd & Hin) end; run.
  all: destruct sb_slave; try destruct (on_releaseLocks w) as [[]|]; run.
  all: try match goal with |- context [updateBigStatus ?w0 ?S] =>
         destruct (updateBigStatus_run w0 S) as (tu & -> & Hst & _) end; run.
  all: do 3 eexists; exists bsids; (split; [reflexivity|]).
  all: (split; [|split; [exact Hnd|]]);
       [|intros b0; rewrite Hin, elem_of_empty; tauto].
  all: unfold completion_calls;
       cbn [List.filter is_completion_call];
       rewrite ?List.filter_app; cbn [List.filter is_completion_call];
       rewrite (filter_all_completion _ (messages_are_completion_calls _ _ _ _)),
               (filter_all_completion _ (checks_are_completion_calls _)).
  all: try (destruct (bookkeeping_quiet _ (status_is_bookkeeping _ Hst)) as (_&_&_&_&_&_&Hq);
            unfold completion_calls in Hq; rewrite Hq).
  all: rewrite ?app_nil_r; reflexivity.
Qed.

Lemma buildFinished_completes_witness :
  exists o self' t bsids,
    buildFinished 5 scenario.fair scenario.build_10_11 0 (Some scenario.w1)
      [100] scenario.compile_building = (o, self', t)
    /\ completion_calls t =
       [db_completeBuildRequests [10; 11] 0 1000]
       ++ map (fun br =>
                 mq_produce
                   ["buildrequest";
                    py_str (VInt (Z.of_nat (br_bsid br)));
                    py_str (VInt (Z.of_nat 3));
                    py_str (VInt (Z.of_nat (br_id br)));
                    "complete"]
                   (<["brid" := VInt (Z.of_nat (br_id br))]>
                    (<["bsid" := VInt (Z.of_nat (br_bsid br))]>
                    (<["buildername" := VStr (br_buildername br)]>
                    (<["builderid" := VInt (Z.of_nat 3)]>
                    (<["complete_at" := VInt 1000]>
                    (<["results" := VInt 0]> ∅)))))))
            [scenario.req10; scenario.req11]
       ++ map data_maybeBuildsetComplete bsids
    /\ NoDup bsids
    /\ (forall b, b ∈ bsids <-> b ∈ map br_bsid [scenario.req10; scenario.req11]).
Proof.
  apply (buildFinished_completes 5 scenario.fair scenario.build_10_11 0
           (Some scenario.w1) 100 [] scenario.compile_building [] 3).
  - discriminate.
  - reflexivity.
  - reflexivity.
  - reflexivity.
  - reflexivity.
  - intros key. reflexivity.
  - intros b. reflexivity.
Defined.

(** Scenario 1 of the spec, the completion: one message keyed
    ('buildrequest', '7', builderid, '42', 'complete'), then one buildset
    check for buildset 7. *)
Example buildFinished_happy_path :
  exists self' t,
    buildFinished 5 scenario.fair (newBuild 50 [scenario.req42]) 0
      (Some scenario.w1) [100]
      (set_building [newBuild 50 [scenario.req42]] scenario.compile)
    = (Returned tt, self', t)
    /\ completion_calls t =
       [db_completeBuildRequests [42] 0 1000;
        mq_produce ["buildrequest"; "7"; "3"; "42"; "complete"]
          (<["brid" := VInt 42]>
           (<["bsid" := VInt 7]>
           (<["buildername" := VStr "compile"]>
           (<["builderid" := VInt 3]>
           (<["complete_at" := VInt 1000]>
           (<["results" := VInt 0]> ∅))))));
        data_maybeBuildsetComplete 7].
Proof. do 2 eexists. repeat split. Qed.

(** Scenario 2 of the spec, the completion: two requests of one buildset
    give two messages, in the order of the requests, and one buildset
    check. *)
Example buildFinished_two_requests :
  exists self' t,
    buildFinished 5 scenario.fair scenario.build_10_11 0 (Some scenario.w1)
      [100] scenario.compile_building = (Returned tt, self', t)
    /\ completion_calls t =
       [db_completeBuildRequests [10; 11] 0 1000;
        mq_produce ["buildrequest"; "3"; "3"; "10"; "complete"]
          (<["brid" := VInt 10]>
           (<["bsid" := VInt 3]>
           (<["buildername" := VStr "compile"]>
           (<["builderid" := VInt 3]>
           (<["complete_at" := VInt 1000]>
           (<["results" := VInt 0]> ∅))))));
        mq_produce ["buildrequest"; "3"; "3"; "11"; "complete"]
          (<["brid" := VInt 11]>
           (<["bsid" := VInt 3]>
           (<["buildername" := VStr "compile"]>
           (<["builderid" := VInt 3]>
           (<["complete_at" := VInt 1000]>
           (<["results" := VInt 0]> ∅))))));
        data_maybeBuildsetComplete 3].
Proof. do 2 eexists. repeat split. Qed.

(** The buildset checks in any world: each bsid is checked at most once,
    and only bsids of the requests are. *)
Lemma check_buildsets_any (w : World) (reqs : list BuildRequest) :
  forall (seen : gset nat) (self : Builder),
  exists o bsids,
    check_buildsets w seen reqs self
    = (o, self, map data_maybeBuildsetComplete bsids)
    /\ NoDup bsids
    /\ (forall b, b ∈ bsids -> b ∈ map br_bsid reqs /\ b ∉ seen).
Proof.
  induction reqs as [|br reqs IH]; intros seen self.
  - exists (Returned tt), []. split; [reflexivity|]. split; [constructor|].
    intros b Hb. inversion Hb.
  - cbn [check_buildsets map]. case_bool_decide as Hseen.
    + destruct (IH seen self) as (o & bsids & Hrun & Hnd & Hin).
      exists o, bsids. split; [exact Hrun|]. split; [exact Hnd|].
      intros b Hb. destruct (Hin b Hb) as [Hb1 Hb2].
      split; [apply elem_of_cons; tauto|exact Hb2].
    + run. destruct (on_maybeBuildsetComplete w (br_bsid br)) as [[]|].
      * destruct (IH ({[br_bsid br]} ∪ seen) self)
          as (o & bsids & Hrun & Hnd & Hin).
        run_monad_in Hrun. rewrite Hrun.
        exists o, (br_bsid br :: bsids). split; [reflexivity|]. split.
        -- apply NoDup_cons. split; [|exact Hnd].
           intros Hb. destruct (Hin _ Hb) as [_ Hb2].
           apply Hb2, elem_of_union. left. apply elem_of_singleton. reflexivity.
        -- intros b Hb. apply elem_of_cons in Hb as [->|Hb].
           ++ split; [apply list_elem_of_here|exact Hseen].
           ++ destruct (Hin b Hb) as [Hb1 Hb2]. split.
              ** apply elem_of_cons. tauto.
              ** intros Hs. apply Hb2, elem_of_union. tauto.
      * exists (Raised "maybeBuildsetComplete"), [br_bsid br].
        split; [reflexivity|]. split.
        -- apply NoDup_singleton.
        -- intros b Hb. apply list_elem_of_singleton in Hb as ->.
           split; [apply list_elem_of_here|exact Hseen].
Qed.



(** The message queue refuses the first message: the errback logs it, the
    second message is not produced and no buildset is checked. *)
Example buildFinished_queue_full :
  buildFinished 5 scenario.queue_full scenario.build_10_11 0
    (Some scenario.w1) [100] scenario.compile_building
  = (Returned tt, scenario.compile,
     [db_finishBuild 100 0;
      db_completeBuildRequests [10; 11] 0 1000;
      mq_produce ["buildrequest"; "3"; "3"; "10"; "complete"]
        (complete_msg scenario.req10 3 0 1000);
      log_err "while marking build requests as completed";
      slave_releaseLocks scenario.w1;
      status_setBigState "idle"]).
Proof. reflexivity. Qed.

(** The request table fails to mark the requests complete: the errback logs
    it, and no message is produced, no buildset checked. *)
Example buildFinished_store_down :
  buildFinished 5 scenario.store_down scenario.build_10_11 0
    (Some scenario.w1) [100] scenario.compile_building
  = (Returned tt, scenario.compile,
     [db_finishBuild 100 0;
      db_completeBuildRequests [10; 11] 0 1000;
      log_err "while marking build requests as completed";
      slave_releaseLocks scenario.w1;
      status_setBigState "idle"]).
Proof. reflexivity. Qed.

(** C3, at the input where the code departs from it: a build of requests 10
    and 11 of buildset 3 finishes with RETRY.  The handler calls
    [unclaimBuildRequests([10, 11])]; the callback added to that call then
    looks up [_msg_buildrequests_unclaimed], which does not exist, and the
    errback logs the failure.  No message is produced, no buildset is
    checked, and nothing signals that the requests were unclaimed. *)
Theorem buildFinished_RETRY_signals_nothing (RETRY : Z) :
  buildFinished RETRY scenario.fair scenario.build_10_11 RETRY
    (Some scenario.w1) [100] scenario.compile_building
  = (Returned tt, scenario.compile,
     [db_finishBuild 100 RETRY;
      db_unclaimBuildRequests [10; 11];
      log_err "while resubmitting a build request";
      slave_releaseLocks scenario.w1;
      status_setBigState "idle"]).
Proof.
  unfold buildFinished. run.
  rewrite (bool_decide_eq_true_2 _ (eq_refl RETRY)). reflexivity.
Qed.

(** X21: for any build of [building], when [finishBuild] and
    [unclaimBuildRequests] answer, a build that finishes with RETRY makes
    one completion call, [unclaimBuildRequests] with the ids of all its
    requests: no message is produced and no buildset is checked.  The
    callback then fails on the method that does not exist, and the failure
    is logged. *)
Lemma buildFinished_RETRY_calls (RETRY : Z) (w : World) (build : Build)
    (sb_slave : option BuildSlave) (bid : nat) (bids : list nat)
    (self : Builder) (bl' : list Build) :
  list_remove build_is build (building self) = Some bl' ->
  on_finishBuild w = Ok tt ->
  on_unclaimBuildRequests w = Ok tt ->
  exists o self' t,
    buildFinished RETRY w build RETRY sb_slave (bid :: bids) self = (o, self', t)
    /\ completion_calls t
       = [db_unclaimBuildRequests (map br_id (requests build))]
    /\ log_err "while resubmitting a build request" ∈ t.
Proof.
  intros Hrem Hfin Hun. unfold buildFinished, _resubmit_buildreqs,
    _msg_buildrequests_unclaimed. run.
  rewrite Hfin; run.
  rewrite Hrem; run; rewrite (bool_decide_eq_true_2 _ (eq_refl RETRY)); run.
  rewrite Hun; run.
  destruct sb_slave; try destruct (on_releaseLocks w) as [[]|]; run.
  all: try match goal with |- context [updateBigStatus ?w0 ?S] =>
         destruct (updateBigStatus_run w0 S) as (tu & -> & Hst & _) end; run.
  all: do 3 eexists; (split; [reflexivity|]).
  all: split; [hush; read_trace; reflexivity|].
  all: apply list_elem_of_In; simpl; rewrite ?in_app_iff; simpl; tauto.
Qed.

Lemma buildFinished_RETRY_calls_witness :
  exists o self' t,
    buildFinished 5 scenario.fair scenario.build_10_11 5 (Some scenario.w1)
      [100] scenario.compile_building = (o, self', t)
    /\ completion_calls t
       = [db_unclaimBuildRequests (map br_id (requests scenario.build_10_11))]
    /\ log_err "while resubmitting a build request" ∈ t.
Proof.
  apply (buildFinished_RETRY_calls 5 scenario.fair scenario.build_10_11
           (Some scenario.w1) 100 [] scenario.compile_building []);
    reflexivity.
Defined.

(** *** More on [reclaimAllBuilds] and [getBuilderId] *)

Lemma foldl_update_brids_in_flight (self : Builder) (x : nat) :
  x ∈ foldl update_brids (foldl update_brids ∅ (building self))
        (old_building self)
  <-> exists b br, b ∈ building self ++ old_building self
                   /\ br ∈ requests b /\ br_id br = x.
Proof.
  rewrite !foldl_update_brids. split.
  - intros [[H|(b & br & Hb & Hr)]|(b & br & Hb & Hr)].
    + inversion H.
    + exists b, br. rewrite elem_of_app. tauto.
    + exists b, br. rewrite elem_of_app. tauto.
  - intros (b & br & Hb & Hr). apply elem_of_app in Hb as [Hb|Hb].
    + left. right. exists b, br. tauto.
    + right. exists b, br. tauto.
Qed.

(** X1: [reclaimAllBuilds] changes no attribute.  When no build of
    [building] or [old_building] has a request it returns without any call;
    otherwise it calls [reclaimBuildRequests] exactly once, with exactly the
    ids of the requests of those builds, makes no other call to the stores,
    and returns when that call answers. *)
Theorem reclaimAllBuilds_in_flight (w : World) (self : Builder) :
  exists o t,
    reclaimAllBuilds w self = (o, self, t)
    /\ (on_reclaimBuildRequests w = Ok tt -> o = Returned tt)
    /\ (((forall b, b ∈ building self ++ old_building self -> requests b = [])
         /\ o = Returned tt /\ t = [])
        \/ (exists brids,
              (exists b, b ∈ building self ++ old_building self
                         /\ requests b <> [])
              /\ store_calls t = [db_reclaimBuildRequests brids]
              /\ forall x, x ∈ brids <->
                   exists b br, b ∈ building self ++ old_building self
                                /\ br ∈ requests b /\ br_id br = x)).
Proof.
  unfold reclaimAllBuilds. run. case_bool_decide as Hempty.
  - eexists _, _. split; [reflexivity|]. split; [reflexivity|].
    left. split; [|split; reflexivity].
    intros b Hb. destruct (requests b) as [|br reqs] eqn:Hreqs; [reflexivity|].
    exfalso. apply (not_elem_of_empty (C := gset nat) (br_id br)).
    rewrite <- Hempty. apply foldl_update_brids_in_flight.
    exists b, br. rewrite Hreqs. split; [exact Hb|].
    split; [apply list_elem_of_here|reflexivity].
  - assert (Hsome : exists b, b ∈ building self ++ old_building self
                              /\ requests b <> []).
    { apply set_choose_L in Hempty as [x Hx].
      apply foldl_update_brids_in_flight in Hx as (b & br & Hb & Hbr & _).
      exists b. split; [exact Hb|]. intros Hnil. rewrite Hnil in Hbr.
      inversion Hbr. }
    destruct (on_reclaimBuildRequests w) as [[]|]; run;
      eexists _, _; (split; [reflexivity|]);
      (split; [first [reflexivity | discriminate]|]);
      right; eexists;
      (split; [exact Hsome|]); (split; [reflexivity|]);
      intros x; apply foldl_update_brids_in_flight.
Qed.

(** X2: once [getBuilderId] has returned an id other than 0, the id is
    cached: every later call returns it without asking the registry of
    builders, whatever the registry would answer by then.  An id 0 is not
    kept ([if self._builderid:] is false for it): the next call asks
    again. *)
Theorem getBuilderId_caches (w w' : World) (self self1 : Builder)
    (builderid : nat) (t : list event) :
  getBuilderId w self = (Returned builderid, self1, t) ->
  match builderid with
  | S _ => getBuilderId w' self1 = (Returned builderid, self1, [])
  | O => exists o self2,
           getBuilderId w' self1 = (o, self2, [data_findBuilderId (name self)])
  end.
Proof.
  rewrite !getBuilderId_run.
  destruct (_builderid self) as [[|n]|] eqn:Hc.
  2:{ intros [= <- <- <-]. rewrite Hc. reflexivity. }
  all: destruct (on_findBuilderId w (name self)) as [b|]; [|discriminate].
  all: intros [= <- <- <-]; cbn [_builderid set__builderid name].
  all: destruct b; [|reflexivity].
  all: destruct (on_findBuilderId w' (name self)); do 2 eexists; reflexivity.
Qed.

Lemma getBuilderId_caches_witness :
  getBuilderId scenario.fair (set__builderid None scenario.compile)
  = (Returned 3, scenario.compile, [data_findBuilderId "compile"])
  /\ getBuilderId scenario.no_build scenario.compile
     = (Returned 3, scenario.compile, []).
Proof.
  split; [reflexivity|].
  apply (getBuilderId_caches scenario.fair scenario.no_build
           (set__builderid None scenario.compile) scenario.compile 3
           [data_findBuilderId "compile"]).
  reflexivity.
Defined.

(** *** More on [attached] and [detached] *)

Lemma list_remove_None {A} (same : A -> A -> bool) (x : A) (l : list A) :
  list_remove same x l = None <-> Forall (fun y => same y x = false) l.
Proof.
  induction l as [|y l IH]; simpl.
  - split; [constructor|reflexivity].
  - destruct (same y x) eqn:Hy.
    + split; [discriminate|]. intros H. inversion H; congruence.
    + destruct (list_remove same x l).
      * split; [discriminate|]. intros H. inversion H; subst.
        apply IH in H3. discriminate.
      * split; [|reflexivity]. intros _. constructor; [exact Hy|].
        apply IH. reflexivity.
Qed.

Lemma filter_others_all (x : SlaveBuilder) (l : list SlaveBuilder) :
  Forall (fun y => sb_is y x = false) l ->
  List.filter (fun y => negb (sb_is y x)) l = l.
Proof.
  induction 1 as [|y l Hy _ IH]; simpl; [reflexivity|].
  rewrite Hy, IH. reflexivity.
Qed.

(** [l.remove(sb)] on a list of distinct objects drops [sb] and keeps the
    others. *)
Lemma list_remove_NoDup (x : SlaveBuilder) (l l' : list SlaveBuilder) :
  NoDup (map sb_oid l) ->
  list_remove sb_is x l = Some l' ->
  l' = List.filter (fun y => negb (sb_is y x)) l.
Proof.
  revert l'. induction l as [|y l IH]; intros l' Hnd Hrem; simpl in *.
  - discriminate.
  - apply NoDup_cons in Hnd as [Hy Hnd].
    destruct (sb_is y x) eqn:Hyx; simpl.
    + injection Hrem as <-. symmetry. apply filter_others_all.
      apply Forall_forall. intros z Hz. unfold sb_is in *.
      apply bool_decide_eq_true in Hyx. apply bool_decide_eq_false.
      intros Hzx. apply Hy. rewrite Hyx, <- Hzx.
      apply list_elem_of_fmap. exists z. split; [reflexivity|exact Hz].
    + destruct (list_remove sb_is x l) as [r|]; [|discriminate].
      injection Hrem as <-. f_equal. apply IH; [exact Hnd|reflexivity].
Qed.

Lemma slot_of_Some (slave0 : BuildSlave) (l : list SlaveBuilder)
    (sb : SlaveBuilder) :
  slot_of slave0 l = Some sb -> sb ∈ l /\ slave_is (slave sb) slave0 = true.
Proof.
  unfold slot_of. intros H. apply find_some in H as [Hin Hs].
  split; [apply list_elem_of_In; exact Hin|exact Hs].
Qed.

(** X3: the first [attached] for a slave whose handshake succeeds makes one
    new slave builder for it, moves it through [attaching_slaves] into
    [slaves], where it comes last, and fires with the builder.  Nothing else
    changes.  It tells the slave builder of the slave, emits one "connect"
    event, and then pushes one state, which is never "offline". *)
Theorem attached_handshake_succeeds (w : World) (slave0 : BuildSlave)
    (self : Builder) (st : string) :
  slot_of slave0 (registry self) = None ->
  Forall (fun s => sb_oid s <> new_slavebuilder w) (attaching_slaves self) ->
  on_attached w = Ok tt ->
  builder_status self = Some st ->
  let sb := {| sb_oid := new_slavebuilder w; slave := slave0 |} in
  exists tu,
    attached w slave0 self
    = (Returned fired_self, set_slaves (slaves self ++ [sb]) self,
       [sb_attached sb; status_addPointEvent ["connect"; slavename slave0]]
       ++ tu)
    /\ Forall (fun e => is_status_event e = true) tu
    /\ big_states tu =
       [match building self, old_building self with
        | [], [] => "idle"
        | _, _ => "building"
        end].
Proof.
  intros Hnone Hfresh Hok Hst sb.
  assert (Hrem : list_remove sb_is sb (attaching_slaves self ++ [sb])
                 = Some (attaching_slaves self)).
  { apply list_remove_fresh.
    - unfold sb_is. apply bool_decide_eq_true. reflexivity.
    - eapply Forall_impl; [exact Hfresh|]. intros y Hy. unfold sb_is.
      apply bool_decide_eq_false. exact Hy. }
  unfold registry in Hnone.
  unfold attached, _attached, addPointEvent. run.
  rewrite Hnone. fold sb. run. rewrite Hok. run.
  repeat first [progress run | rewrite Hst | rewrite Hrem].
  match goal with |- context [updateBigStatus ?w0 ?S] =>
    destruct (updateBigStatus_run w0 S) as (tu & -> & Htu & Hbig) end.
  run. rewrite app_nil_r. exists tu. split.
  - destruct self; reflexivity.
  - split; [exact Htu|]. rewrite Hbig.
    cbn [builder_status set_slaves set_attaching_slaves slaves building
         old_building].
    rewrite Hst. destruct (slaves self); simpl;
      destruct (building self), (old_building self); reflexivity.
Qed.

Lemma attached_handshake_succeeds_witness :
  exists tu,
    attached scenario.fair scenario.w2 scenario.compile
    = (Returned fired_self,
       set_slaves (slaves scenario.compile
                   ++ [{| sb_oid := 60; slave := scenario.w2 |}])
         scenario.compile,
       [sb_attached {| sb_oid := 60; slave := scenario.w2 |};
        status_addPointEvent ["connect"; "w2"]] ++ tu)
    /\ Forall (fun e => is_status_event e = true) tu
    /\ big_states tu = ["idle"].
Proof.
  apply (attached_handshake_succeeds scenario.fair scenario.w2
           scenario.compile "compile").
  - reflexivity.
  - constructor.
  - reflexivity.
  - reflexivity.
Defined.

(** X4: on a builder that has a status object, the first [attached] for a
    slave whose handshake fails (the Deferred of [sb.attached] fires with a
    Failure) fires with [None] after logging the failure and emitting a
    "failed connect" event.  The slave builder made for it is left in
    [attaching_slaves]: [_not_attached] does not take it out.  [slaves] is
    unchanged and no state is pushed. *)
Theorem attached_handshake_fails (w : World) (slave0 : BuildSlave)
    (self : Builder) (st : string) :
  slot_of slave0 (registry self) = None ->
  on_attached w = Failed ->
  builder_status self = Some st ->
  let sb := {| sb_oid := new_slavebuilder w; slave := slave0 |} in
  attached w slave0 self
  = (Returned fired_None,
     set_attaching_slaves (attaching_slaves self ++ [sb]) self,
     [sb_attached sb; log_err "slave failed to attach";
      status_addPointEvent ["failed"; "connect"; slavename slave0]]).
Proof.
  intros Hnone Hfail Hst sb. unfold registry in Hnone.
  unfold attached, _not_attached, addPointEvent. run.
  rewrite Hnone. fold sb. run. rewrite Hfail. run. rewrite Hst. reflexivity.
Qed.

Lemma attached_handshake_fails_witness :
  attached scenario.handshake_fails scenario.w2 scenario.compile
  = (Returned fired_None,
     set_attaching_slaves [{| sb_oid := 60; slave := scenario.w2 |}]
       scenario.compile,
     [sb_attached {| sb_oid := 60; slave := scenario.w2 |};
      log_err "slave failed to attach";
      status_addPointEvent ["failed"; "connect"; "w2"]]).
Proof.
  apply (attached_handshake_fails scenario.handshake_fails scenario.w2
           scenario.compile "compile"); reflexivity.
Defined.

Lemma NoDup_registry (self : Builder) :
  NoDup (map sb_oid (registry self)) ->
  NoDup (map sb_oid (attaching_slaves self))
  /\ NoDup (map sb_oid (slaves self)).
Proof.
  unfold registry. rewrite map_app. intros H.
  apply NoDup_app in H as (Ha & _ & Hs). split; assumption.
Qed.

Lemma list_remove_or_not (x : SlaveBuilder) (l : list SlaveBuilder) :
  NoDup (map sb_oid l) ->
  match list_remove sb_is x l with
  | Some l' => l'
  | None => l
  end = List.filter (fun y => negb (sb_is y x)) l.
Proof.
  intros Hnd. destruct (list_remove sb_is x l) as [l'|] eqn:Hrem.
  - exact (list_remove_NoDup x l l' Hnd Hrem).
  - symmetry. apply filter_others_all. apply list_remove_None. exact Hrem.
Qed.

(** X5: on a builder that has a status object, when a slave builder of
    the registry refers to the slave, and the slave builders held are
    distinct objects, [detached] returns with that slave builder taken out
    of [attaching_slaves] and of [slaves]; every other slave builder stays,
    in order, and no build is touched.  It emits one "disconnect" event,
    tells the slave builder, and then pushes one state, derived from what is
    left in [slaves]. *)
Theorem detached_drops_slot (w : World) (slave0 : BuildSlave)
    (self : Builder) (sb : SlaveBuilder) (st : string) :
  slot_of slave0 (registry self) = Some sb ->
  NoDup (map sb_oid (registry self)) ->
  builder_status self = Some st ->
  exists self' tu,
    detached w slave0 self
    = (Returned tt, self',
       [status_addPointEvent ["disconnect"; slavename slave0]; sb_detached sb]
       ++ tu)
    /\ attaching_slaves self'
       = List.filter (fun s => negb (sb_is s sb)) (attaching_slaves self)
    /\ slaves self' = List.filter (fun s => negb (sb_is s sb)) (slaves self)
    /\ (sb ∉ registry self')
    /\ building self' = building self
    /\ old_building self' = old_building self
    /\ big_states tu =
       [match slaves self' with
        | [] => "offline"
        | _ :: _ =>
            match building self, old_building self with
            | [], [] => "idle"
            | _, _ => "building"
            end
        end].
Proof.
  intros Hs Hnd Hst. destruct (NoDup_registry self Hnd) as [Hna Hns].
  pose proof (list_remove_or_not sb _ Hna) as Hatt.
  pose proof (list_remove_or_not sb _ Hns) as Hsl.
  unfold registry in Hs. unfold detached, addPointEvent. run. rewrite Hs.
  destruct (list_remove sb_is sb (attaching_slaves self)) as [att'|];
    destruct (list_remove sb_is sb (slaves self)) as [sl'|];
    repeat first [progress run | rewrite Hst].
  all: match goal with |- context [updateBigStatus ?w0 ?S] =>
         destruct (updateBigStatus_run w0 S) as (tu & -> & Htu & Hbig) end.
  all: run; rewrite ?app_nil_r; do 2 eexists; (split; [reflexivity|]).
  all: cbn [attaching_slaves slaves building old_building builder_status
            set_attaching_slaves set_slaves] in *.
  all: split; [exact Hatt|]; split; [exact Hsl|].
  all: split;
    [unfold registry;
     cbn [attaching_slaves slaves set_attaching_slaves set_slaves];
     rewrite Hatt, Hsl, <- List.filter_app; intros Hin;
     apply list_elem_of_In, filter_In in Hin as [_ Hin];
     unfold sb_is in Hin; rewrite bool_decide_eq_true_2 in Hin by reflexivity;
     discriminate Hin|].
  all: split; [reflexivity|]; split; [reflexivity|].
  all: rewrite Hbig, Hst.
  all: match goal with
       | |- context [match ?l with [] => ["offline"] | _ :: _ => _ end] =>
           destruct l
       end; [reflexivity|].
  all: destruct (building self), (old_building self); reflexivity.
Qed.

Lemma detached_drops_slot_witness :
  exists self' tu,
    detached scenario.fair scenario.w1 scenario.compile_building
    = (Returned tt, self',
       [status_addPointEvent ["disconnect"; "w1"]; sb_detached scenario.slot1]
       ++ tu)
    /\ attaching_slaves self'
       = List.filter (fun s => negb (sb_is s scenario.slot1))
           (attaching_slaves scenario.compile_building)
    /\ slaves self'
       = List.filter (fun s => negb (sb_is s scenario.slot1))
           (slaves scenario.compile_building)
    /\ (scenario.slot1 ∉ registry self')
    /\ building self' = building scenario.compile_building
    /\ old_building self' = old_building scenario.compile_building
    /\ big_states tu =
       [match slaves self' with
        | [] => "offline"
        | _ :: _ =>
            match building scenario.compile_building,
                  old_building scenario.compile_building with
            | [], [] => "idle"
            | _, _ => "building"
            end
        end].
Proof.
  apply (detached_drops_slot scenario.fair scenario.w1
           scenario.compile_building scenario.slot1 "compile").
  - reflexivity.
  - apply NoDup_singleton.
  - reflexivity.
Defined.

Lemma find_app_None {A} (f : A -> bool) (l1 l2 : list A) :
  List.find f l1 = None -> List.find f (l1 ++ l2) = List.find f l2.
Proof.
  induction l1 as [|x l1 IH]; simpl; [reflexivity|].
  destruct (f x); [discriminate|]. exact IH.
Qed.

Lemma find_None_app {A} (f : A -> bool) (l1 l2 : list A) :
  List.find f (l1 ++ l2) = None ->
  List.find f l1 = None /\ List.find f l2 = None.
Proof.
  induction l1 as [|x l1 IH]; simpl; [tauto|].
  destruct (f x); [discriminate|]. exact IH.
Qed.

(** X6: on a builder that has a status object, an [attached] for a slave
    that has no slave builder yet (the SlaveBuilder it makes being a new
    object), followed by [detached] for that slave, leaves
    [attaching_slaves] and [slaves] as they were before the two calls,
    whether the handshake succeeded or failed; the slave builder made by
    [attached] is the one [detached] tells. *)
Theorem attached_then_detached (w w' : World) (slave0 : BuildSlave)
    (self : Builder) (st : string) :
  slot_of slave0 (registry self) = None ->
  Forall (fun s => sb_oid s <> new_slavebuilder w) (registry self) ->
  builder_status self = Some st ->
  exists o self1 t1 self2 t2,
    attached w slave0 self = (o, self1, t1)
    /\ detached w' slave0 self1 = (Returned tt, self2, t2)
    /\ attaching_slaves self2 = attaching_slaves self
    /\ slaves self2 = slaves self
    /\ sb_detached {| sb_oid := new_slavebuilder w; slave := slave0 |} ∈ t2.
Proof.
  intros Hnone Hfresh Hst.
  set (sb := {| sb_oid := new_slavebuilder w; slave := slave0 |}).
  unfold registry in Hnone, Hfresh.
  destruct (find_None_app _ _ _ Hnone) as [Hna Hns].
  apply Forall_app in Hfresh as [Hfa Hfs].
  assert (Hother : forall l, Forall (fun s => sb_oid s <> new_slavebuilder w) l ->
                     Forall (fun y => sb_is y sb = false) l).
  { intros l Hl. eapply Forall_impl; [exact Hl|]. intros y Hy. unfold sb_is.
    apply bool_decide_eq_false. exact Hy. }
  assert (Hself : sb_is sb sb = true).
  { unfold sb_is. apply bool_decide_eq_true. reflexivity. }
  assert (Hsb : slave_is (slave sb) slave0 = true).
  { unfold slave_is. apply bool_decide_eq_true. reflexivity. }
  pose proof (list_remove_fresh sb_is sb _ Hself (Hother _ Hfa)) as Hrem_a.
  pose proof (list_remove_fresh sb_is sb _ Hself (Hother _ Hfs)) as Hrem_s.
  pose proof (proj2 (list_remove_None sb_is sb _) (Hother _ Hfa)) as Hno_a.
  pose proof (proj2 (list_remove_None sb_is sb _) (Hother _ Hfs)) as Hno_s.
  assert (Hfind1 : slot_of slave0 (attaching_slaves self ++ slaves self ++ [sb])
                   = Some sb).
  { unfold slot_of in *. rewrite !find_app_None by assumption.
    cbn [app List.find]. rewrite Hsb. reflexivity. }
  assert (Hfind2 : slot_of slave0 ((attaching_slaves self ++ [sb]) ++ slaves self)
                   = Some sb).
  { unfold slot_of in *. rewrite <- app_assoc.
    rewrite find_app_None by assumption. cbn [app List.find]. rewrite Hsb. reflexivity. }
  assert (Hfirst : exists o self1 t1,
            attached w slave0 self = (o, self1, t1)
            /\ (self1 = set_slaves (slaves self ++ [sb]) self
                \/ self1 = set_attaching_slaves (attaching_slaves self ++ [sb])
                             self)).
  { unfold attached, _attached, _not_attached, addPointEvent. run.
    rewrite Hnone. fold sb. run.
    destruct (on_attached w) as [[]|];
      repeat first [progress run | rewrite Hst | rewrite Hrem_a].
    - match goal with |- context [updateBigStatus ?w0 ?S] =>
        destruct (updateBigStatus_run w0 S) as (tu & -> & _ & _) end.
      run. do 3 eexists. split; [reflexivity|]. left.
      destruct self; reflexivity.
    - do 3 eexists. split; [reflexivity|]. right. reflexivity. }
  destruct Hfirst as (o & self1 & t1 & Hrun1 & Hself1).
  assert (Hsecond : exists self2 t2,
            detached w' slave0 self1 = (Returned tt, self2, t2)
            /\ attaching_slaves self2 = attaching_slaves self
            /\ slaves self2 = slaves self
            /\ sb_detached sb ∈ t2).
  { unfold detached, addPointEvent.
    destruct Hself1 as [-> | ->]; run.
    - rewrite Hfind1.
      repeat first [progress run | rewrite Hst | rewrite Hno_a | rewrite Hrem_s].
      match goal with |- context [updateBigStatus ?w0 ?S] =>
        destruct (updateBigStatus_run w0 S) as (tu' & -> & _ & _) end.
      run. do 2 eexists. split; [reflexivity|]. cbn [attaching_slaves slaves].
      split; [reflexivity|]. split; [reflexivity|].
      apply list_elem_of_further, list_elem_of_here.
    - rewrite Hfind2.
      repeat first [progress run | rewrite Hst | rewrite Hno_s | rewrite Hrem_a].
      match goal with |- context [updateBigStatus ?w0 ?S] =>
        destruct (updateBigStatus_run w0 S) as (tu' & -> & _ & _) end.
      run. do 2 eexists. split; [reflexivity|]. cbn [attaching_slaves slaves].
      split; [reflexivity|]. split; [reflexivity|].
      apply list_elem_of_further, list_elem_of_here. }
  destruct Hsecond as (self2 & t2 & Hrun2 & Ha & Hs & Hin).
  exists o, self1, t1, self2, t2. repeat split; assumption.
Qed.

Lemma attached_then_detached_witness :
  exists o self1 t1 self2 t2,
    attached scenario.handshake_fails scenario.w2 scenario.compile
    = (o, self1, t1)
    /\ detached scenario.fair scenario.w2 self1 = (Returned tt, self2, t2)
    /\ attaching_slaves self2 = attaching_slaves scenario.compile
    /\ slaves self2 = slaves scenario.compile
    /\ sb_detached {| sb_oid := new_slavebuilder scenario.handshake_fails;
                      slave := scenario.w2 |} ∈ t2.
Proof.
  apply (attached_then_detached scenario.handshake_fails scenario.fair
           scenario.w2 scenario.compile "compile").
  - reflexivity.
  - repeat constructor. discriminate.
  - reflexivity.
Defined.

(** *** [addLatentSlave] *)

(** X7: [addLatentSlave] compares the slave builders of [slaves] with the
    slave itself, not with their slaves.  As no slave builder is the slave,
    the loop never breaks: for a latent slave, on a builder that has a
    status object, the call appends a new slave builder for the slave,
    emits an "added latent" event and asks the botmaster to start builds,
    also when a slave builder of [slaves] refers to that slave already. *)
Theorem addLatentSlave_appends (w : World) (slave0 : BuildSlave)
    (self : Builder) (st : string) :
  Forall (fun s => sb_oid s <> slave_oid slave0) (slaves self) ->
  builder_status self = Some st ->
  addLatentSlave w true slave0 self
  = (Returned tt,
     set_slaves
       (slaves self ++ [{| sb_oid := new_slavebuilder w; slave := slave0 |}])
       self,
     [builder_event
        (status_addPointEvent ["added"; "latent"; slavename slave0]);
      botmaster_maybeStartBuildsForBuilder (name self)]).
Proof.
  intros Hother Hst. unfold addLatentSlave. cbn [negb].
  assert (Hex : existsb (fun s => bool_decide (sb_oid s = slave_oid slave0))
                  (slaves self) = false).
  { induction Hother as [|s l Hs _ IH]; simpl; [reflexivity|].
    rewrite (bool_decide_eq_false_2 _ Hs), IH. reflexivity. }
  rewrite Hex, Hst. reflexivity.
Qed.

Lemma addLatentSlave_appends_witness :
  slots_of scenario.w1 scenario.compile = [scenario.slot1]
  /\ addLatentSlave scenario.fair true scenario.w1 scenario.compile
     = (Returned tt,
        set_slaves [scenario.slot1; {| sb_oid := 60; slave := scenario.w1 |}]
          scenario.compile,
        [builder_event (status_addPointEvent ["added"; "latent"; "w1"]);
         botmaster_maybeStartBuildsForBuilder "compile"]).
Proof.
  split; [reflexivity|].
  apply (addLatentSlave_appends scenario.fair scenario.w1 scenario.compile
           "compile").
  - repeat constructor. discriminate.
  - reflexivity.
Defined.

(** *** [BuilderControl.ping] *)

Lemma ping_each_run (sl : list SlaveBuilder) (self : Builder) :
  BuilderControl.ping_each sl self = (Returned tt, self, map sb_ping sl).
Proof.
  induction sl as [|s sl IH]; [reflexivity|].
  cbn [BuilderControl.ping_each map]. run. rewrite IH. reflexivity.
Qed.

Lemma _gatherPingResults_forallb (delivered : SlaveBuilder -> bool * bool)
    (sl : list SlaveBuilder) :
  BuilderControl._gatherPingResults (map delivered sl)
  = forallb (fun s => snd (delivered s)) sl.
Proof.
  induction sl as [|s sl IH]; [reflexivity|].
  simpl. destruct (delivered s) as [ignored success].
  destruct success; [exact IH|reflexivity].
Qed.

(** X8: [BuilderControl.ping] with at least one slave builder in [slaves]
    pings each of them once, in the order of [slaves], whatever the earlier
    pings gave, and fires with [True] exactly when every ping succeeded; the
    first component of each result is ignored.  It changes no attribute. *)
Theorem ping_all_slaves (delivered : SlaveBuilder -> bool * bool)
    (self : Builder) :
  slaves self <> [] ->
  BuilderControl.ping delivered self
  = (Returned (forallb (fun s => snd (delivered s)) (slaves self)), self,
     map sb_ping (slaves self)).
Proof.
  intros Hsl. unfold BuilderControl.ping. run.
  destruct (slaves self) as [|s sl] eqn:Hs; [contradiction|].
  rewrite ping_each_run. run. rewrite app_nil_r.
  rewrite _gatherPingResults_forallb. reflexivity.
Qed.

Lemma ping_all_slaves_witness :
  BuilderControl.ping
    (fun s => (true, bool_decide (sb_oid s = 21)))
    (set_slaves [scenario.slot1; scenario.slot2] scenario.compile)
  = (Returned false,
     set_slaves [scenario.slot1; scenario.slot2] scenario.compile,
     [sb_ping scenario.slot1; sb_ping scenario.slot2]).
Proof.
  exact (ping_all_slaves (fun s => (true, bool_decide (sb_oid s = 21)))
           (set_slaves [scenario.slot1; scenario.slot2] scenario.compile)
           ltac:(discriminate)).
Defined.

(** *** [getBuild], [getOldestRequestTime] and [getMergeRequestsFn] *)

Lemma find_elem_of {A} (f : A -> bool) (l : list A) :
  match List.find f l with
  | Some x => x ∈ l /\ f x = true
  | None => forall x, x ∈ l -> f x = false
  end.
Proof.
  destruct (List.find f l) as [x|] eqn:Hf.
  - apply find_some in Hf as [Hin Hx]. split; [|exact Hx].
    apply list_elem_of_In. exact Hin.
  - intros x Hx. apply list_elem_of_In in Hx.
    exact (find_none f l Hf x Hx).
Qed.

Lemma has_number_true (number_of : Build -> option nat) (number : nat)
    (b : Build) :
  has_number number_of number b = true <-> number_of b = Some number.
Proof.
  unfold has_number. destruct (number_of b) as [n|].
  - rewrite bool_decide_eq_true. split; congruence.
  - split; discriminate.
Qed.

(** X9: [getBuild] returns a build only if it is in [building] or
    [old_building] and its status has the number asked for; a build of
    [old_building] only if no build of [building] has that number; and
    [None] only if no build of either has it. *)
Theorem getBuild_lookup (number_of : Build -> option nat) (number : nat)
    (self : Builder) :
  match getBuild number_of number self with
  | Some b =>
      number_of b = Some number
      /\ (b ∈ building self
          \/ (b ∈ old_building self
              /\ forall b', b' ∈ building self -> number_of b' <> Some number))
  | None =>
      forall b, b ∈ building self ++ old_building self ->
                number_of b <> Some number
  end.
Proof.
  unfold getBuild.
  pose proof (find_elem_of (has_number number_of number) (building self)) as Hb.
  pose proof (find_elem_of (has_number number_of number) (old_building self))
    as Ho.
  destruct (List.find _ (building self)) as [b|].
  - destruct Hb as [Hin Hn]. apply has_number_true in Hn. tauto.
  - assert (Hnone : forall b', b' ∈ building self ->
                               number_of b' <> Some number).
    { intros b' Hb' Hn. apply has_number_true in Hn.
      rewrite (Hb b' Hb') in Hn. discriminate. }
    destruct (List.find _ (old_building self)) as [b|].
    + destruct Ho as [Hin Hn]. apply has_number_true in Hn. tauto.
    + intros b Hin Hn. apply has_number_true in Hn.
      apply elem_of_app in Hin as [Hin|Hin].
      * rewrite (Hb b Hin) in Hn. discriminate.
      * rewrite (Ho b Hin) in Hn. discriminate.
Qed.

(** X10: when the request table answers, [getOldestRequestTime] does not
    raise.  It returns [None] exactly when there is no unclaimed request;
    otherwise it returns the [submitted_at] of one of the requests, and no
    request was submitted before it. *)
Theorem getOldestRequestTime_oldest (unclaimed : list brdict) :
  match getOldestRequestTime (Ok unclaimed) with
  | Returned None => unclaimed = []
  | Returned (Some oldest) =>
      oldest ∈ map submitted_at unclaimed
      /\ Forall (fun brd => (oldest <= submitted_at brd)%Z) unclaimed
  | Raised _ => False
  end.
Proof.
  unfold getOldestRequestTime.
  destruct unclaimed as [|brd rest]; [reflexivity|].
  set (rows := brd :: rest).
  pose proof (merge_sort_Permutation Z.le (map submitted_at rows)) as Hperm.
  pose proof (StronglySorted_merge_sort Z.le (map submitted_at rows)) as Hsorted.
  destruct (merge_sort Z.le (map submitted_at rows)) as [|oldest others].
  - apply Permutation_nil_l in Hperm. discriminate Hperm.
  - split.
    + rewrite <- Hperm. apply list_elem_of_here.
    + apply StronglySorted_inv in Hsorted as [_ Hle].
      apply Forall_forall. intros r Hr.
      assert (Hin : submitted_at r ∈ oldest :: others).
      { rewrite Hperm. apply list_elem_of_fmap. exists r. split; [reflexivity|].
        exact Hr. }
      apply elem_of_cons in Hin as [->|Hin]; [lia|].
      rewrite Forall_forall in Hle. exact (Hle _ Hin).
Qed.

(** X11: in [getMergeRequestsFn] the builder's own setting, when it is not
    [None], decides alone; when it is [None] the global setting decides as
    the builder's would; and requests are not merged ([None] is returned)
    exactly when the setting that decides is [False]. *)
Theorem getMergeRequestsFn_precedence
    (config_mergeRequests master_mergeRequests : mergeRequests_setting) :
  (config_mergeRequests <> setting_None ->
   getMergeRequestsFn config_mergeRequests master_mergeRequests
   = getMergeRequestsFn config_mergeRequests setting_None)
  /\ getMergeRequestsFn setting_None master_mergeRequests
     = getMergeRequestsFn master_mergeRequests setting_None
  /\ (getMergeRequestsFn config_mergeRequests master_mergeRequests = None
      <-> config_mergeRequests = setting_False
          \/ (config_mergeRequests = setting_None
              /\ master_mergeRequests = setting_False)).
Proof.
  split; [|split].
  - destruct config_mergeRequests; [contradiction|reflexivity..].
  - destruct master_mergeRequests; reflexivity.
  - destruct config_mergeRequests, master_mergeRequests; simpl;
      split; try discriminate; try tauto;
      intros [H|[H1 H2]]; discriminate.
Qed.

(** *** More on [reconfigService] *)

Lemma filter_filter_same {A} (P : A -> Prop) `{forall x, Decision (P x)}
    (l : list A) :
  filter P (filter P l) = filter P l.
Proof.
  induction l as [|x l IH]; [reflexivity|].
  rewrite filter_cons. destruct (decide (P x)) as [Hx|Hx].
  - rewrite filter_cons. rewrite decide_True by exact Hx. f_equal. exact IH.
  - exact IH.
Qed.

(** X12: a reconfig that finds the builder's entry and resolves a builder
    id other than 0 returns, and registers the builder with the status
    ([builderAdded]) only if the builder had no status object yet.
    Reconfiguring again with the same configuration changes no attribute:
    it only sets the description, the category, the slave names and the
    cache size again, without [builderAdded] and without looking the builder
    id up, whatever the collaborators would answer by then. *)
Theorem reconfigService_again (w : World) (new_config : MasterConfig)
    (self : Builder) (builder_config : BuilderConfig) (n : nat) :
  find_config (name self) (builders new_config) = Some builder_config ->
  resolved_builderid w self = Some (S n) ->
  exists self1 t1,
    reconfigService w new_config self = (Returned tt, self1, t1)
    /\ builderAdded_calls t1 =
       match builder_status self with
       | None => [status_builderAdded (cfg_name builder_config)
                    (builddir builder_config) (category builder_config)
                    (description builder_config)]
       | Some _ => []
       end
    /\ forall w',
         reconfigService w' new_config self1
         = (Returned tt, self1,
            [status_setDescription (description builder_config);
             status_setCategory (category builder_config);
             status_setSlavenames (slavenames builder_config);
             status_setCacheSize (caches_Builds new_config)]).
Proof.
  intros Hcfg Hid. unfold reconfigService. run. rewrite Hcfg.
  unfold resolved_builderid in Hid.
  destruct (builder_status self) eqn:Hst; run; rewrite getBuilderId_run; run.
  all: destruct (_builderid self) as [[|k]|] eqn:Hc;
       try destruct (on_findBuilderId w (name self));
       try discriminate; injection Hid as ->; run.
  all: do 2 eexists; split; [reflexivity|]; split; [reflexivity|].
  all: intros w'; run; rewrite Hcfg; run; rewrite ?Hst; run.
  all: rewrite getBuilderId_run; run; rewrite ?Hc; run.
  all: rewrite filter_filter_same; reflexivity.
Qed.

Lemma reconfigService_again_witness :
  exists self1 t1,
    reconfigService scenario.fair scenario.new_config scenario.compile_two
    = (Returned tt, self1, t1)
    /\ builderAdded_calls t1 =
       match builder_status scenario.compile_two with
       | None => [status_builderAdded (cfg_name scenario.compile_config)
                    (builddir scenario.compile_config)
                    (category scenario.compile_config)
                    (description scenario.compile_config)]
       | Some _ => []
       end
    /\ forall w',
         reconfigService w' scenario.new_config self1
         = (Returned tt, self1,
            [status_setDescription (description scenario.compile_config);
             status_setCategory (category scenario.compile_config);
             status_setSlavenames (slavenames scenario.compile_config);
             status_setCacheSize (caches_Builds scenario.new_config)]).
Proof.
  apply (reconfigService_again scenario.fair scenario.new_config
           scenario.compile_two scenario.compile_config 2);
    reflexivity.
Defined.

(** X13: when the new configuration has an entry for the builder but the
    builder id cannot be resolved, [reconfigService] raises after it has
    made the status object (on a first reconfig) and installed the new
    entry as [config]: the description, category, slave names and cache
    size are not pushed to the status, and [slaves] is not pruned. *)
Theorem reconfigService_id_lookup_fails (w : World) (new_config : MasterConfig)
    (self : Builder) (builder_config : BuilderConfig) :
  find_config (name self) (builders new_config) = Some builder_config ->
  resolved_builderid w self = None ->
  reconfigService w new_config self
  = (Raised "findBuilderId",
     set_config (Some builder_config)
       match builder_status self with
       | None => set_builder_status (Some (cfg_name builder_config)) self
       | Some _ => self
       end,
     match builder_status self with
     | None => [status_builderAdded (cfg_name builder_config)
                  (builddir builder_config) (category builder_config)
                  (description builder_config)]
     | Some _ => []
     end ++ [data_findBuilderId (name self)]).
Proof.
  intros Hcfg Hid. unfold reconfigService. run. rewrite Hcfg.
  unfold resolved_builderid in Hid.
  destruct (builder_status self) eqn:Hst; run; rewrite getBuilderId_run; run.
  all: destruct (_builderid self) as [[|k]|] eqn:Hc;
       try destruct (on_findBuilderId w (name self));
       try discriminate; reflexivity.
Qed.

Lemma reconfigService_id_lookup_fails_witness :
  reconfigService scenario.no_registry scenario.new_config scenario.fresh
  = (Raised "findBuilderId",
     set_config (Some scenario.compile_config)
       (set_builder_status (Some "compile") scenario.fresh),
     [status_builderAdded "compile" "compile-dir" "ci" "compiles";
      data_findBuilderId "compile"]).
Proof.
  apply (reconfigService_id_lookup_fails scenario.no_registry
           scenario.new_config scenario.fresh scenario.compile_config);
    reflexivity.
Defined.

(** *** The hand-off of [_startBuildFor], call by call *)

Lemma bookkeeping_quiet_more (t : list event) :
  Forall (fun e => is_bookkeeping e = true) t ->
  handoff_calls t = [] /\ slot_transitions t = [] /\ builderAdded_calls t = [].
Proof.
  induction 1 as [|e t He _ IH]; [repeat split|].
  destruct IH as (?&?&?).
  destruct e; try discriminate He; repeat split; simpl; assumption.
Qed.

Lemma cleanup_events_no_handoff (t : list event) :
  Forall (fun e => is_cleanup_event e = true) t -> handoff_calls t = [].
Proof.
  induction 1 as [|e t He _ IH]; [reflexivity|].
  destruct e; try discriminate He; simpl; assumption.
Qed.

Ltac hush_more :=
  repeat match goal with
  | H : Forall (fun e => is_status_event e = true) _ |- _ =>
      apply status_is_bookkeeping in H
  | H : Forall (fun e => is_bookkeeping e = true) ?t |- _ =>
      lazymatch goal with
      | _ : handoff_calls t = [] |- _ => fail
      | _ => destruct (bookkeeping_quiet_more t H) as (?&?&?)
      end
  | H : Forall (fun e => is_cleanup_event e = true) ?t |- _ =>
      lazymatch goal with
      | _ : handoff_calls t = [] |- _ => fail
      | _ => pose proof (cleanup_events_no_handoff t H)
      end
  end.

Ltac read_more :=
  unfold handoff_calls, slot_transitions, builderAdded_calls in *;
  repeat first
    [ rewrite app_nil_r
    | rewrite List.filter_app
    | progress cbn [List.filter is_handoff_call is_slot_transition
                    is_builderAdded app]
    | match goal with H : ?l = [] |- context [?l] => rewrite H end ].

(** What the unwinding tells the slave builder: [buildFinished()] when,
    and only when, that closure is on the stack; it is the first popped. *)
Lemma run_cleanups_transitions (w : World) (s : BuildSlave) (b : Build)
    (finish : list cleanup) (S : Builder) :
  (finish = [] \/ exists sb, finish = [undo_buildFinished sb]) ->
  exists S' t,
    run_cleanups w
      ([undo_updateBigStatus; undo_releaseLocks s; undo_building_remove b]
       ++ finish) S = (Returned tt, S', t)
    /\ slot_transitions t =
       match finish with
       | [undo_buildFinished sb] => [sb_buildFinished sb]
       | _ => []
       end.
Proof.
  intros Hshape. unfold run_cleanups.
  destruct Hshape as [->|[sb ->]]; cbn [rev app pop_all run_cleanup]; run.
  all: repeat step.
  all: do 2 eexists; (split; [reflexivity|]).
  all: hush_more; read_more; reflexivity.
Qed.

Lemma worker_call_elem (e : event) (t : list event) (Q : Prop) :
  is_worker_call e = true ->
  (In e (worker_calls t) -> Q) -> e ∈ t -> Q.
Proof.
  intros He HQ Hin. apply HQ. apply filter_In. split; [|exact He].
  apply list_elem_of_In. exact Hin.
Qed.

Lemma _startBuildFor_gates (w : World) (sb : SlaveBuilder)
    (R : list BuildRequest) (self : Builder) :
  forall o self' t,
  _startBuildFor w sb R self = (o, self', t) ->
  (forall s, sb_ping s ∈ t -> on_prepare w = Ok true)
  /\ (forall s nm, conn_remoteStartBuild s nm ∈ t ->
        on_prepare w = Ok true /\ on_ping w = Ok true)
  /\ (addBuild_calls t <> [] ->
        on_prepare w = Ok true /\ on_ping w = Ok true
        /\ on_remoteStartBuild w = Ok tt).
Proof.
  unfold _startBuildFor, append. run.
  repeat step.
  all: intros oo ss tt0 [= <- <- <-].
  all: repeat match goal with
       | H : negb ?a = _ |- _ =>
           destruct a; cbn in H; try discriminate H; clear H
       end.
  all: repeat match goal with
       | u : unit |- _ => destruct u
       end.
  all: split; [intros s0; apply worker_call_elem; [reflexivity|]|split;
         [intros s0 nm0; apply worker_call_elem; [reflexivity|]|]].
  all: hush; read_trace.
  all: try solve [let Hno := fresh "Hno" in
                  intros Hno; exfalso; apply Hno; reflexivity].
  all: try solve [intros _; repeat split; assumption].
  all: try solve [let Hin := fresh "Hin" in
                  simpl; intros Hin; repeat split; try assumption;
                  repeat destruct Hin as [Hin|Hin]; try discriminate Hin;
                  try contradiction].
Qed.

(** X14: in any run of [maybeStartBuild], whatever its outcome, a slave
    builder is pinged only if [prepare] answered true, the remote is told to
    start the build only if moreover the ping answered true, and [addBuild]
    is called only if moreover the remote accepted the build. *)
Theorem maybeStartBuild_gates (w : World) (sb : SlaveBuilder)
    (R : list BuildRequest) (self self' : Builder) (o : outcome bool)
    (t : list event) :
  maybeStartBuild w sb R self = (o, self', t) ->
  (forall s, sb_ping s ∈ t -> on_prepare w = Ok true)
  /\ (forall s nm, conn_remoteStartBuild s nm ∈ t ->
        on_prepare w = Ok true /\ on_ping w = Ok true)
  /\ (addBuild_calls t <> [] ->
        on_prepare w = Ok true /\ on_ping w = Ok true
        /\ on_remoteStartBuild w = Ok tt).
Proof.
  intros Hrun. destruct (running self) eqn:Hr.
  - rewrite (maybeStartBuild_running _ _ _ _ Hr) in Hrun.
    exact (_startBuildFor_gates w sb R self _ _ _ Hrun).
  - rewrite (maybeStartBuild_not_running _ _ _ _ Hr) in Hrun.
    injection Hrun as <- <- <-.
    split; [intros s Hin; inversion Hin|].
    split; [intros s nm Hin; inversion Hin|].
    intros Hno. exfalso. apply Hno. reflexivity.
Qed.

Lemma maybeStartBuild_gates_witness :
  exists o self' t,
    maybeStartBuild scenario.fair scenario.slot1 [scenario.req42]
      scenario.compile = (o, self', t)
    /\ (forall s, sb_ping s ∈ t -> on_prepare scenario.fair = Ok true)
    /\ (forall s nm, conn_remoteStartBuild s nm ∈ t ->
          on_prepare scenario.fair = Ok true /\ on_ping scenario.fair = Ok true)
    /\ (addBuild_calls t <> [] ->
          on_prepare scenario.fair = Ok true /\ on_ping scenario.fair = Ok true
          /\ on_remoteStartBuild scenario.fair = Ok tt).
Proof.
  do 3 eexists. split; [reflexivity|].
  eapply (maybeStartBuild_gates scenario.fair scenario.slot1 [scenario.req42]
            scenario.compile).
  reflexivity.
Defined.

Lemma _startBuildFor_handoff (w : World) (sb : SlaveBuilder)
    (R : list BuildRequest) (self : Builder) :
  forall self' t,
  _startBuildFor w sb R self = (Returned true, self', t) ->
  exists req builderid row oid,
    last R = Some req
    /\ resolved_builderid w self = Some builderid
    /\ on_newBuild w = Ok oid
    /\ on_addBuild w = Ok row
    /\ handoff_calls t =
       [sb_prepare sb (newBuild oid R); sb_ping sb; sb_buildStarted sb;
        conn_remoteStartBuild (slave sb) (name self); status_newBuild;
        db_addBuild builderid (br_id req) (buildslaveid (slave sb))
          (masterid w) ["created"] (Ok row);
        status_build_started (br_id req) (name self);
        build_startBuild (newBuild oid R) sb]
    /\ registered t =
       [undo_updateBigStatus; undo_releaseLocks (slave sb);
        undo_building_remove (newBuild oid R); undo_buildFinished sb]
    /\ unwound t = [].
Proof.
  unfold _startBuildFor, append. run.
  repeat step.
  all: intros ss tt0; try solve [intros [=]].
  all: intros [= <- <-].
  all: match goal with
       | Hl : last _ = Some ?req, Ha : on_addBuild _ = Ok ?row,
         Hn : on_newBuild _ = Ok ?oid
         |- context [db_addBuild ?bid _ _ _ _ _] =>
           exists req, bid, row, oid
       end.
  all: cbn [requests newBuild] in *.
  all: split; [assumption|]; split; [congruence|]; split; [reflexivity|].
  all: split; [reflexivity|].
  all: split; [hush_more; read_more; reflexivity|].
  all: split; hush; read_trace; reflexivity.
Qed.

(** X15: when [maybeStartBuild] returns [True], the calls of the hand-off
    were made once each and in this order: prepare, ping, buildStarted,
    remoteStartBuild, the status's newBuild, addBuild, the status's
    build_started, startBuild on the new Build.  Four cleanup closures were
    registered on the way, and none of them was run. *)
Theorem maybeStartBuild_true_handoff (w : World) (sb : SlaveBuilder)
    (R : list BuildRequest) (self self' : Builder) (t : list event) :
  maybeStartBuild w sb R self = (Returned true, self', t) ->
  exists req builderid row oid,
    last R = Some req
    /\ resolved_builderid w self = Some builderid
    /\ on_newBuild w = Ok oid
    /\ on_addBuild w = Ok row
    /\ handoff_calls t =
       [sb_prepare sb (newBuild oid R); sb_ping sb; sb_buildStarted sb;
        conn_remoteStartBuild (slave sb) (name self); status_newBuild;
        db_addBuild builderid (br_id req) (buildslaveid (slave sb))
          (masterid w) ["created"] (Ok row);
        status_build_started (br_id req) (name self);
        build_startBuild (newBuild oid R) sb]
    /\ registered t =
       [undo_updateBigStatus; undo_releaseLocks (slave sb);
        undo_building_remove (newBuild oid R); undo_buildFinished sb]
    /\ unwound t = [].
Proof.
  intros Hrun. destruct (running self) eqn:Hr.
  - rewrite (maybeStartBuild_running _ _ _ _ Hr) in Hrun.
    exact (_startBuildFor_handoff w sb R self _ _ Hrun).
  - rewrite (maybeStartBuild_not_running _ _ _ _ Hr) in Hrun. discriminate.
Qed.

Lemma maybeStartBuild_true_handoff_witness :
  exists self' t,
    maybeStartBuild scenario.fair scenario.slot1
      [scenario.req10; scenario.req11] scenario.compile
    = (Returned true, self', t)
    /\ exists req builderid row oid,
         last [scenario.req10; scenario.req11] = Some req
         /\ resolved_builderid scenario.fair scenario.compile = Some builderid
         /\ on_newBuild scenario.fair = Ok oid
         /\ on_addBuild scenario.fair = Ok row
         /\ handoff_calls t =
            [sb_prepare scenario.slot1
               (newBuild oid [scenario.req10; scenario.req11]);
             sb_ping scenario.slot1; sb_buildStarted scenario.slot1;
             conn_remoteStartBuild (slave scenario.slot1)
               (name scenario.compile);
             status_newBuild;
             db_addBuild builderid (br_id req)
               (buildslaveid (slave scenario.slot1))
               (masterid scenario.fair) ["created"] (Ok row);
             status_build_started (br_id req) (name scenario.compile);
             build_startBuild
               (newBuild oid [scenario.req10; scenario.req11])
               scenario.slot1]
         /\ registered t =
            [undo_updateBigStatus; undo_releaseLocks (slave scenario.slot1);
             undo_building_remove
               (newBuild oid [scenario.req10; scenario.req11]);
             undo_buildFinished scenario.slot1]
         /\ unwound t = [].
Proof.
  do 2 eexists. split; [reflexivity|].
  eapply (maybeStartBuild_true_handoff scenario.fair scenario.slot1
            [scenario.req10; scenario.req11] scenario.compile).
  reflexivity.
Defined.

Lemma _startBuildFor_slot_transitions (w : World) (sb : SlaveBuilder)
    (R : list BuildRequest) (self : Builder) :
  forall o self' t,
  _startBuildFor w sb R self = (Returned o, self', t) ->
  if o then slot_transitions t = [sb_buildStarted sb]
  else slot_transitions t = []
       \/ slot_transitions t = [sb_buildStarted sb; sb_buildFinished sb].
Proof.
  unfold _startBuildFor, append. run.
  repeat step.
  all: intros oo ss tt0; try solve [intros [=]].
  all: intros [= <- <- <-].
  all: try match goal with
       | Hc : run_cleanups ?w0 [undo_updateBigStatus; undo_releaseLocks ?s;
                                undo_building_remove ?b] ?S = _ |- _ =>
           destruct (run_cleanups_transitions w0 s b [] S (or_introl eq_refl))
             as (S'' & tc' & Hrun' & Htr)
       | Hc : run_cleanups ?w0 [undo_updateBigStatus; undo_releaseLocks ?s;
                                undo_building_remove ?b;
                                undo_buildFinished ?sb0] ?S = _ |- _ =>
           destruct (run_cleanups_transitions w0 s b [undo_buildFinished sb0]
                       S (or_intror (ex_intro _ sb0 eq_refl)))
             as (S'' & tc' & Hrun' & Htr)
       end.
  all: try (cbn [app] in Hrun'; rewrite Hrun' in Hclean;
            injection Hclean as <- <-).
  all: hush_more; read_more.
  all: try reflexivity.
  all: first [left; reflexivity | right; rewrite Htr; reflexivity
             | left; rewrite Htr; reflexivity].
Qed.

(** X16: [maybeStartBuild] keeps the calls that change the state of the
    slave builder balanced.  When it returns [True] it has called
    [buildStarted()] once, and not [buildFinished()]: the build holds the
    slave builder.  When it returns [False] it has either called neither,
    or [buildStarted()] once and then [buildFinished()] once. *)
Theorem maybeStartBuild_slot_transitions (w : World) (sb : SlaveBuilder)
    (R : list BuildRequest) (self self' : Builder) (started : bool)
    (t : list event) :
  maybeStartBuild w sb R self = (Returned started, self', t) ->
  if started then slot_transitions t = [sb_buildStarted sb]
  else slot_transitions t = []
       \/ slot_transitions t = [sb_buildStarted sb; sb_buildFinished sb].
Proof.
  intros Hrun. destruct (running self) eqn:Hr.
  - rewrite (maybeStartBuild_running _ _ _ _ Hr) in Hrun.
    exact (_startBuildFor_slot_transitions w sb R self _ _ _ Hrun).
  - rewrite (maybeStartBuild_not_running _ _ _ _ Hr) in Hrun.
    injection Hrun as <- <- <-. left. reflexivity.
Qed.

Lemma maybeStartBuild_slot_transitions_witness :
  exists self' t,
    maybeStartBuild scenario.conn_lost scenario.slot1 [scenario.req42]
      scenario.compile = (Returned false, self', t)
    /\ slot_transitions t
       = [sb_buildStarted scenario.slot1; sb_buildFinished scenario.slot1]
    /\ (slot_transitions t = []
        \/ slot_transitions t
           = [sb_buildStarted scenario.slot1; sb_buildFinished scenario.slot1]).
Proof.
  do 2 eexists. split; [reflexivity|]. split; [reflexivity|].
  eapply (maybeStartBuild_slot_transitions scenario.conn_lost scenario.slot1
            [scenario.req42] scenario.compile _ false).
  reflexivity.
Defined.

(** *** More on [buildFinished] *)

(** X17: [buildFinished] for a build that is not in [building] (it was
    finished before, or never started by this builder) raises ValueError
    after it has marked the build row finished.  The requests are neither
    completed nor unclaimed, no message is produced, no buildset is checked,
    no lock is released, no state is pushed, and no attribute changes. *)
Theorem buildFinished_unknown_build (RETRY : Z) (w : World) (build : Build) (results : Z)
    (sb_slave : option BuildSlave) (bid : nat) (bids : list nat)
    (self : Builder) :
  Forall (fun b => build_is b build = false) (building self) ->
  exists t,
    buildFinished RETRY w build results sb_slave (bid :: bids) self
    = (Raised "ValueError", self, t)
    /\ store_calls t = [db_finishBuild bid results]
    /\ completion_calls t = []
    /\ big_states t = []
    /\ forall s, slave_releaseLocks s ∉ t.
Proof.
  intros Hnot. apply list_remove_None in Hnot.
  unfold buildFinished. run.
  destruct (on_finishBuild w) as [[]|]; run; rewrite Hnot; run.
  all: eexists; (split; [reflexivity|]).
  all: split; [reflexivity|]; split; [reflexivity|]; split; [reflexivity|].
  all: intros s Hin; apply list_elem_of_In in Hin; simpl in Hin.
  all: repeat destruct Hin as [Hin|Hin]; try discriminate Hin; contradiction.
Qed.

Lemma buildFinished_unknown_build_witness :
  exists t,
    buildFinished 5 scenario.fair scenario.build_10_11 0
      (Some scenario.w1) [100] scenario.compile
    = (Raised "ValueError", scenario.compile, t)
    /\ store_calls t = [db_finishBuild 100 0]
    /\ completion_calls t = []
    /\ big_states t = []
    /\ forall s, slave_releaseLocks s ∉ t.
Proof.
  apply (buildFinished_unknown_build 5 scenario.fair scenario.build_10_11 0
           (Some scenario.w1) 100 [] scenario.compile).
  constructor.
Defined.






(** When [finishBuild] answers, [buildFinished] for a build of [building]
    takes it out of [building] and keeps the slave builders, however the
    call ends. *)
Lemma buildFinished_frame (RETRY : Z) (w : World) (build : Build)
    (results : Z) (sb_slave : option BuildSlave) (bid : nat) (bids : list nat)
    (self : Builder) (bl' : list Build) :
  list_remove build_is build (building self) = Some bl' ->
  on_finishBuild w = Ok tt ->
  exists o self' t,
    buildFinished RETRY w build results sb_slave (bid :: bids) self
    = (o, self', t)
    /\ building self' = bl'
    /\ same_registry self' self.
Proof.
  intros Hrem Hfin.
  unfold buildFinished, _notify_completions, _resubmit_buildreqs,
    _msg_buildrequests_unclaimed. run.
  rewrite Hfin; run. rewrite Hrem; run.
  case_bool_decide; run.
  all: try (destruct (on_unclaimBuildRequests w) as [[]|]; run).
  all: try (destruct (on_completeBuildRequests w) as [[]|]; run).
  all: try (rewrite getBuilderId_run; run;
            destruct (_builderid self) as [[|n]|];
            try destruct (on_findBuilderId w (name self)); run).
  all: try match goal with
       | |- context [send_messages ?w0 ?b0 ?r ?e ?reqs ?S] =>
           destruct (send_messages_any w0 b0 r e reqs S)
             as ([[]|em] & msgs & -> & _ & _); run
       end.
  all: try match goal with |- context [check_buildsets ?w0 ?seen ?reqs ?S] =>
         destruct (check_buildsets_any w0 reqs seen S)
           as ([[]|e] & bsids & -> & _ & _) end; run.
  all: destruct sb_slave; try destruct (on_releaseLocks w) as [[]|]; run.
  all: try match goal with |- context [updateBigStatus ?w0 ?S] =>
         destruct (updateBigStatus_run w0 S) as (tu & -> & _ & _) end; run.
  all: do 3 eexists; (split; [reflexivity|]).
  all: split; [reflexivity|repeat split].
Qed.

(** X19: a build that [maybeStartBuild] started, and that is still running
    when that call returns, is taken out of [building] again when it
    finishes: after a start that returned [True] (the Build made by the
    factory being a new object), [buildFinished] for the new Build, when
    [finishBuild] answers, leaves [building], [old_building],
    [attaching_slaves] and [slaves] as they were before the start, whatever
    the results and whatever else the collaborators answer at the end. *)
Theorem start_then_finish (RETRY : Z) (w w' : World) (sb : SlaveBuilder)
    (R : list BuildRequest) (self self1 : Builder) (t1 : list event)
    (results : Z) (sb_slave : option BuildSlave) (bid : nat)
    (bids : list nat) :
  new_build_is_new w self ->
  maybeStartBuild w sb R self = (Returned true, self1, t1) ->
  on_finishBuild w' = Ok tt ->
  exists oid o self2 t2,
    on_newBuild w = Ok oid
    /\ buildFinished RETRY w' (newBuild oid R) results sb_slave (bid :: bids)
         self1 = (o, self2, t2)
    /\ building self2 = building self
    /\ same_registry self2 self.
Proof.
  intros Hnew Hrun Hfin. destruct (running self) eqn:Hr.
  2:{ rewrite (maybeStartBuild_not_running _ _ _ _ Hr) in Hrun. discriminate. }
  rewrite (maybeStartBuild_running _ _ _ _ Hr) in Hrun.
  destruct (_startBuildFor_cases w sb R self _ _ _ Hrun)
    as (Hreg & _ & Htrue & _).
  destruct (Htrue eq_refl) as (req & builderid & row & oid & _ & _ & Hoid & _ & Hb).
  assert (Hrem : list_remove build_is (newBuild oid R) (building self1)
                 = Some (building self)).
  { rewrite Hb. apply list_remove_fresh.
    - unfold build_is. apply bool_decide_eq_true. reflexivity.
    - eapply Forall_impl; [exact (Hnew oid Hoid)|]. intros y Hy.
      unfold build_is. apply bool_decide_eq_false. exact Hy. }
  destruct (buildFinished_frame RETRY w' (newBuild oid R) results sb_slave bid
              bids self1 (building self) Hrem Hfin)
    as (o & self2 & t2 & Hfinished & Hbl & Hreg2).
  exists oid, o, self2, t2. split; [exact Hoid|]. split; [exact Hfinished|].
  split; [exact Hbl|]. exact (same_registry_trans _ _ _ Hreg2 Hreg).
Qed.

Lemma start_then_finish_witness :
  exists self1 t1,
    maybeStartBuild scenario.fair scenario.slot1 [scenario.req42]
      scenario.compile = (Returned true, self1, t1)
    /\ exists oid o self2 t2,
         on_newBuild scenario.fair = Ok oid
         /\ buildFinished 5 scenario.store_down
              (newBuild oid [scenario.req42]) 0 (Some scenario.w1) [100]
              self1 = (o, self2, t2)
         /\ building self2 = building scenario.compile
         /\ same_registry self2 scenario.compile.
Proof.
  do 2 eexists. split; [reflexivity|].
  eapply (start_then_finish 5 scenario.fair scenario.store_down
            scenario.slot1 [scenario.req42] scenario.compile).
  - intros oid [= <-]. constructor.
  - reflexivity.
  - reflexivity.
Defined.

(** *** When [maybeStartBuild] raises, and when it succeeds *)

Lemma getBuilderId_Raised (w : World) (self self' : Builder) (e : string)
    (t : list event) :
  getBuilderId w self = (Raised e, self', t) ->
  resolved_builderid w self = None.
Proof.
  rewrite getBuilderId_run. unfold resolved_builderid.
  destruct (_builderid self) as [[|n]|]; try discriminate;
    destruct (on_findBuilderId w (name self)); try discriminate; reflexivity.
Qed.

Lemma _startBuildFor_raises (w : World) (sb : SlaveBuilder)
    (R : list BuildRequest) (self : Builder) :
  forall e self' t,
  _startBuildFor w sb R self = (Raised e, self', t) ->
  (resolved_builderid w self = None \/ config self = None
   \/ on_newBuild w = Failed \/ builder_status self = None)
  /\ unwound t = []
  /\ addBuild_calls t = [].
Proof.
  unfold _startBuildFor, append. run.
  destruct (getBuilderId w self) as [[[b|e0] S1] t1] eqn:Hid1; run.
  2:{ intros e self' t [= <- <- <-].
      split; [left; exact (getBuilderId_Raised _ _ _ _ _ Hid1)|].
      destruct (getBuilderId_cases w self)
        as [(b & i & t0 & Hrun & _)|(t0 & Hrun & Hbk)];
        rewrite Hrun in Hid1; [discriminate|].
      injection Hid1 as <- <- <-. hush. split; assumption. }
  destruct (getBuilderId_cases w self)
    as [(b0 & i & t0 & Hrun & Hres & Hres' & Hbk)|(t0 & Hrun & _)];
    rewrite Hrun in Hid1; [|discriminate].
  injection Hid1 as <- <- <-.
  destruct (getBuilderId w (set__builderid i self)) as [[[b1|e1] S2] t2] eqn:Hid2;
    run.
  2:{ apply getBuilderId_Raised in Hid2. congruence. }
  destruct (getBuilderId_cases w (set__builderid i self))
    as [(b2 & i2 & t3 & Hrun2 & _ & _ & Hbk2)|(t3 & Hrun2 & _)];
    rewrite Hrun2 in Hid2; [|discriminate].
  injection Hid2 as <- <- <-.
  run.
  repeat step.
  all: intros ee ss tt0; try solve [intros [=]].
  all: intros [= <- <- <-].
  all: cbn [config builder_status set__builderid set_building] in *.
  all: split; [tauto|].
  all: hush; read_trace; split; reflexivity.
Qed.

(** X27: the failures that [_startBuildFor] guards against do not make
    [maybeStartBuild] raise.  When the builder id resolves, the builder has
    a configuration and a status object and the factory makes a Build,
    [maybeStartBuild] returns [True] or [False], whatever [prepare], the
    ping, [remoteStartBuild], [addBuild] and the cleanup closures answer:
    each of these calls is under a [try].  (The slave builder is attached,
    and the calls that the source does not guard return.) *)
Theorem maybeStartBuild_absorbs_failures (w : World) (sb : SlaveBuilder)
    (R : list BuildRequest) (self : Builder) (builderid oid : nat)
    (cfg : BuilderConfig) (st : string) :
  resolved_builderid w self = Some builderid ->
  config self = Some cfg ->
  builder_status self = Some st ->
  on_newBuild w = Ok oid ->
  exists started self' t,
    maybeStartBuild w sb R self = (Returned started, self', t).
Proof.
  intros Hid Hcfg Hst Hnew.
  destruct (maybeStartBuild w sb R self) as [[[started|e] self'] t] eqn:Hrun.
  - exists started, self', t. reflexivity.
  - exfalso. destruct (running self) eqn:Hr.
    + rewrite (maybeStartBuild_running _ _ _ _ Hr) in Hrun.
      destruct (_startBuildFor_raises w sb R self _ _ _ Hrun)
        as ([H|[H|[H|H]]] & _); congruence.
    + rewrite (maybeStartBuild_not_running _ _ _ _ Hr) in Hrun. discriminate.
Qed.

Lemma maybeStartBuild_absorbs_failures_witness :
  exists started self' t,
    maybeStartBuild scenario.stuck scenario.slot1 [scenario.req42]
      scenario.compile = (Returned started, self', t).
Proof.
  apply (maybeStartBuild_absorbs_failures scenario.stuck scenario.slot1
           [scenario.req42] scenario.compile 3 50 scenario.compile_config
           "compile");
    reflexivity.
Defined.

(** X28: [maybeStartBuild] does start the build when nothing stands in the
    way: on a running builder that has a configuration and a status object,
    when the builder id resolves, the factory makes a Build, [prepare] and
    the ping answer true, the remote accepts the build, the request list is
    not empty, [addBuild] answers and the connection is still there, it
    returns [True]; the build being still running when the call returns, the
    new Build is then the last item of [building], and the slave builders
    are untouched. *)
Theorem maybeStartBuild_starts (w : World) (sb : SlaveBuilder)
    (R : list BuildRequest) (self : Builder) (builderid oid : nat)
    (cfg : BuilderConfig) (st : string) (req : BuildRequest)
    (row : nat * nat) :
  running self = true ->
  resolved_builderid w self = Some builderid ->
  config self = Some cfg ->
  builder_status self = Some st ->
  on_newBuild w = Ok oid ->
  on_prepare w = Ok true ->
  on_ping w = Ok true ->
  on_remoteStartBuild w = Ok tt ->
  last R = Some req ->
  on_addBuild w = Ok row ->
  conn_at_handoff w = true ->
  exists self' t,
    maybeStartBuild w sb R self = (Returned true, self', t)
    /\ building self' = building self ++ [newBuild oid R]
    /\ same_registry self' self.
Proof.
  intros Hr Hid Hcfg Hst Hnew Hprep Hping Hrem Hlast Hadd Hconn.
  rewrite (maybeStartBuild_running _ _ _ _ Hr).
  unfold _startBuildFor, append. run.
  destruct (getBuilderId_cases w self)
    as [(b0 & i & t0 & -> & Hres & Hres' & Hbk)|(t0 & Hrun & _)].
  2:{ apply getBuilderId_Raised in Hrun. congruence. }
  run.
  destruct (getBuilderId_cases w (set__builderid i self))
    as [(b2 & i2 & t3 & -> & _ & _ & Hbk2)|(t3 & Hrun2 & _)].
  2:{ apply getBuilderId_Raised in Hrun2. congruence. }
  repeat first [progress run | rewrite Hcfg | rewrite Hnew | rewrite Hst
               | rewrite Hprep | rewrite Hping | rewrite Hrem | rewrite Hadd
               | rewrite Hconn | (cbn [requests newBuild]; rewrite Hlast)
               | match goal with |- context [updateBigStatus ?w0 ?S] =>
                   destruct (updateBigStatus_run w0 S) as (?tu & -> & _ & _)
                 end
               | match goal with
                 | |- context [if bool_decide ?P then _ else _] =>
                     destruct (bool_decide P)
                 end ].
  all: do 2 eexists; (split; [reflexivity|]).
  all: split; [reflexivity|repeat split].
Qed.

Lemma maybeStartBuild_starts_witness :
  exists self' t,
    maybeStartBuild scenario.fair scenario.slot1 [scenario.req42]
      scenario.compile = (Returned true, self', t)
    /\ building self' = building scenario.compile ++ [newBuild 50 [scenario.req42]]
    /\ same_registry self' scenario.compile.
Proof.
  apply (maybeStartBuild_starts scenario.fair scenario.slot1 [scenario.req42]
           scenario.compile 3 50 scenario.compile_config "compile"
           scenario.req42 (100, 1));
    reflexivity.
Defined.

End builder_facts.
